(** * Recipe sharing backend: model of the Recipe schema and of the recipe
      controller, and the properties of its handlers.

    The development follows the source files that carry the logic:

    - [src/models/Recipe.js]: the schema (field validators), the method
      [calculateAverageRating], the [pre('save')] hook and the virtual
      [totalTime];
    - the recipe controller ([createRecipe], [getRecipes],
      [getPopularRecipes], [getRecipeById], [updateRecipe],
      [deleteRecipe], [rateRecipe], [getUserRecipes], [addToFavorites],
      [removeFromFavorites], [getFavoriteRecipes]);
    - the router of the recipes, which mounts these handlers.

    Modelling conventions.

    - The document store is a pair of finite maps from ids to documents;
      every handler is a function from the store and the request to the
      new store and the JSON response ([await] points are sequential
      steps: one request at a time).
    - An ObjectId is its canonical string; equality of ids is equality of
      these strings, which is what the [toString()] comparisons of the
      controller compute.  The id of a request path is a text, in whatever
      spelling the client chose; mongoose casts it where it expects an
      ObjectId, and the cast is a parameter of the development.
    - A string is kept as its UTF-8 text; its length is counted in UTF-16
      code units, as [maxlength] counts it, and [trim] strips the white
      space of the language.
    - JavaScript numbers are exact: integers are [Z], the average rating is
      a rational [Q]; [Math.round x] is [floor (x + 1/2)] and [Math.ceil]
      is the ceiling.  The two results of a division by zero that the
      pagination arithmetic can produce are kept as [Infinity] and [NaN].
      Ratings are integers, as [rateRecipe] stores them ([parseInt]): a
      fractional rating, which only the body of an update can carry, is
      not among the inputs.  The numeric parameters of a query are
      integers in each of the two ways the handlers read them.
    - A request body has the keys of the schema, each with a value of its
      type or, for the structured ones, a text; update operators and
      dotted paths are not among them.
    - Stored documents are typed by the schema: a stored recipe has all
      its required scalar fields.  The in-memory document built by
      [new Recipe({...})] may miss them, and is a separate type on which
      validation runs.
    - [populate] only decorates the response and is left out. *)

From Stdlib Require Import ZArith QArith Qround Lqa Ascii String.
From stdpp Require Import gmap strings list fin_maps sorting.

Local Open Scope Z_scope.

(** ** Identifiers and strings

    A JavaScript string is kept as its UTF-8 text (a lone surrogate as the
    three bytes of its code point), so that equality and the binary order
    of strings are those of the bytes. *)

Abbreviation ObjectId := string (only parsing).

(** The UTF-16 code units a byte of the text stands for: one for the single
    byte of an ASCII character and for the lead byte of a code point of two
    or three bytes, two for the lead byte of a code point of four bytes (a
    surrogate pair), none for a continuation byte. *)
Definition code_units (c : ascii) : Z :=
  let b := Z.of_N (N_of_ascii c) in
  if b <? 128 then 1
  else if b <? 192 then 0
  else if b <? 240 then 1
  else 2.

(** [s.length], which the [maxlength] validators read: the number of
    UTF-16 code units of the string. *)
Fixpoint strlen (s : string) : Z :=
  match s with
  | String c s' => code_units c + strlen s'
  | EmptyString => 0
  end.

Definition byte (n : nat) : ascii := ascii_of_nat n.

(** The white space and the line terminators [String.prototype.trim]
    strips, each as its bytes: U+0009 to U+000D, U+0020, U+00A0, U+1680,
    U+2000 to U+200A, U+2028, U+2029, U+202F, U+205F, U+3000 and U+FEFF. *)
Definition white_space : list (list ascii) :=
  [ [byte 9]; [byte 10]; [byte 11]; [byte 12]; [byte 13]; [byte 32];
    [byte 194; byte 160];
    [byte 225; byte 154; byte 128] ]
  ++ ((λ k, [byte 226; byte 128; byte (128 + k)]) <$> seq 0 11)
  ++ [ [byte 226; byte 128; byte 168];
       [byte 226; byte 128; byte 169];
       [byte 226; byte 128; byte 175];
       [byte 226; byte 129; byte 159];
       [byte 227; byte 128; byte 128];
       [byte 239; byte 187; byte 191] ].

Fixpoint strip_prefix (p l : list ascii) : option (list ascii) :=
  match p, l with
  | [], _ => Some l
  | a :: p', b :: l' => if Ascii.eqb a b then strip_prefix p' l' else None
  | _ :: _, [] => None
  end.

(** The text after its first character when this is one of [spaces]. *)
Definition strip_space (spaces : list (list ascii)) (l : list ascii)
    : option (list ascii) :=
  head (omap (λ p, strip_prefix p l) spaces).

Fixpoint strip_spaces (spaces : list (list ascii)) (fuel : nat) (l : list ascii)
    : list ascii :=
  match fuel with
  | O => l
  | S n =>
      match strip_space spaces l with
      | Some l' => strip_spaces spaces n l'
      | None => l
      end
  end.

Definition trimStart (s : string) : string :=
  string_of_list_ascii
    (strip_spaces white_space (String.length s) (list_ascii_of_string s)).

(** The same from the end, on the reversed text. *)
Definition trimEnd (s : string) : string :=
  string_of_list_ascii
    (reverse (strip_spaces (reverse <$> white_space) (String.length s)
                (reverse (list_ascii_of_string s)))).

(** [trim: true] of a schema string. *)
Definition trim (s : string) : string := trimEnd (trimStart s).

(** ** The Recipe schema *)

Record Ingredient := {
  ing_name : string;
  ing_quantity : string;
  ing_unit : string
}.

Record Instruction := {
  stepNumber : Z;
  instruction : string
}.

Record CookingTime := {
  prep : Z;
  cook : Z
}.

Record NutritionalInfo := {
  protein : option Q;
  carbs : option Q;
  fat : option Q;
  fiber : option Q;
  sugar : option Q
}.

Record Rating := {
  user : ObjectId;
  rating : Z;
  comment : string
}.

(** A stored recipe document.  There is no field for [totalTime]. *)
Record Recipe := {
  _id : ObjectId;
  title : string;
  description : string;
  ingredients : list Ingredient;
  instructions : list Instruction;
  cookingTime : CookingTime;
  servings : Z;
  difficulty : string;
  cuisine : string;
  dietType : string;
  calories : option Z;
  image : string;
  author : ObjectId;
  ratings : list Rating;
  averageRating : Q;
  totalRatings : Z;
  isPublic : bool;
  tags : list string;
  nutritionalInfo : NutritionalInfo;
  createdAt : Z;
  updatedAt : Z
}.

(** The nested [cookingTime] object as a request carries it. *)
Record CookingTimeInput := {
  in_prep : option Z;
  in_cook : option Z
}.

(** The document [new Recipe({...})] builds in [createRecipe], before
    validation: the keys the controller passes, undefined ones as [None];
    [ratings], [averageRating], [totalRatings] and [isPublic] take the
    schema defaults. *)
Record RecipeDoc := {
  d_id : ObjectId;
  d_title : option string;
  d_description : option string;
  d_ingredients : list Ingredient;
  d_instructions : list Instruction;
  d_cookingTime : CookingTimeInput;
  d_servings : option Z;
  d_difficulty : option string;
  d_cuisine : option string;
  d_dietType : option string;
  d_calories : option Z;
  d_image : string;
  d_author : ObjectId;
  d_ratings : list Rating;
  d_averageRating : Q;
  d_totalRatings : Z;
  d_isPublic : bool;
  d_tags : list string;
  d_nutritionalInfo : NutritionalInfo
}.

Definition difficulty_enum : list string := ["Easy"; "Medium"; "Hard"]%string.

Definition dietType_enum : list string :=
  ["Vegetarian"; "Vegan"; "Gluten-Free"; "Keto"; "Paleo"; "Low-Carb";
   "High-Protein"; "Regular"]%string.

(** *** Validators

    Each validator returns the messages of the constraints it finds
    violated, the schema's own message where it declares one. *)

(** [required] on a String path: the value is present and not empty. *)
Definition required_string (msg : string) (v : option string) : list string :=
  match v with
  | Some (String _ _) => []
  | _ => [msg]
  end.

Definition required_number (msg : string) (v : option Z) : list string :=
  match v with
  | Some _ => []
  | None => [msg]
  end.

Definition maxlength (n : Z) (msg : string) (v : option string) : list string :=
  match v with
  | Some s => if strlen s >? n then [msg] else []
  | None => []
  end.

Definition min_number (n : Z) (msg : string) (v : option Z) : list string :=
  match v with
  | Some x => if x <? n then [msg] else []
  | None => []
  end.

Definition max_number (n : Z) (msg : string) (v : option Z) : list string :=
  match v with
  | Some x => if x >? n then [msg] else []
  | None => []
  end.

Definition enum (values : list string) (msg : string) (v : option string) : list string :=
  match v with
  | Some s => if bool_decide (s ∈ values) then [] else [msg]
  | None => []
  end.

Definition validate_title (v : option string) : list string :=
  required_string "Recipe title is required" v
  ++ maxlength 100 "Title cannot exceed 100 characters" v.

Definition validate_description (v : option string) : list string :=
  required_string "Recipe description is required" v
  ++ maxlength 500 "Description cannot exceed 500 characters" v.

Definition validate_ingredient (i : Ingredient) : list string :=
  required_string "Path `name` is required." (Some (ing_name i))
  ++ required_string "Path `quantity` is required." (Some (ing_quantity i))
  ++ required_string "Path `unit` is required." (Some (ing_unit i)).

Definition validate_instruction (i : Instruction) : list string :=
  required_string "Path `instruction` is required." (Some (instruction i)).

Definition validate_prep (v : option Z) : list string :=
  required_number "Preparation time is required" v
  ++ min_number 1 "Preparation time must be at least 1 minute" v.

Definition validate_cook (v : option Z) : list string :=
  required_number "Cooking time is required" v
  ++ min_number 1 "Cooking time must be at least 1 minute" v.

Definition validate_cookingTime (c : CookingTimeInput) : list string :=
  validate_prep (in_prep c) ++ validate_cook (in_cook c).

Definition validate_servings (v : option Z) : list string :=
  required_number "Number of servings is required" v
  ++ min_number 1 "Must serve at least 1 person" v.

Definition validate_difficulty (v : option string) : list string :=
  required_string "Difficulty level is required" v
  ++ enum difficulty_enum "`difficulty` is not a valid enum value." v.

Definition validate_cuisine (v : option string) : list string :=
  required_string "Cuisine type is required" v
  ++ maxlength 50 "Cuisine cannot exceed 50 characters" v.

Definition validate_dietType (v : option string) : list string :=
  required_string "Diet type is required" v
  ++ enum dietType_enum "`dietType` is not a valid enum value." v.

Definition validate_calories (v : option Z) : list string :=
  min_number 1 "Calories must be positive" v.

Definition validate_image (v : option string) : list string :=
  required_string "Recipe image is required" v.

Definition validate_rating (r : Rating) : list string :=
  required_string "Path `user` is required." (Some (user r))
  ++ min_number 1 "Path `rating` is less than minimum allowed value (1)." (Some (rating r))
  ++ max_number 5 "Path `rating` is more than maximum allowed value (5)." (Some (rating r))
  ++ maxlength 200 "Comment cannot exceed 200 characters" (Some (comment r)).

Definition validate_averageRating (a : Q) : list string :=
  (if Qlt_le_dec a 0
   then ["Path `averageRating` is less than minimum allowed value (0)."%string]
   else [])
  ++ (if Qlt_le_dec 5 a
      then ["Path `averageRating` is more than maximum allowed value (5)."%string]
      else []).

(** Validation of a whole document, as [save()] runs it. *)
Definition validate (d : RecipeDoc) : list string :=
  validate_title (d_title d)
  ++ validate_description (d_description d)
  ++ concat (validate_ingredient <$> d_ingredients d)
  ++ concat (validate_instruction <$> d_instructions d)
  ++ validate_cookingTime (d_cookingTime d)
  ++ validate_servings (d_servings d)
  ++ validate_difficulty (d_difficulty d)
  ++ validate_cuisine (d_cuisine d)
  ++ validate_dietType (d_dietType d)
  ++ validate_calories (d_calories d)
  ++ validate_image (Some (d_image d))
  ++ required_string "Path `author` is required." (Some (d_author d))
  ++ concat (validate_rating <$> d_ratings d)
  ++ validate_averageRating (d_averageRating d).

(** *** The rating aggregate: [calculateAverageRating] *)

Definition Math_round (x : Q) : Z := Qfloor (x + (1 # 2)).

Definition Math_ceil (x : Q) : Z := Qceiling x.

(** [this.ratings.reduce((sum, rating) => sum + rating.rating, 0)] *)
Definition ratings_total (rs : list Rating) : Z :=
  foldl (fun sum r => sum + rating r) 0 rs.

(** The pair ([averageRating], [totalRatings]) the method assigns. *)
Definition calculateAverageRating (rs : list Rating) : Q * Z :=
  if bool_decide (length rs = 0%nat) then (0%Q, 0)
  else
    let total := ratings_total rs in
    ((inject_Z (Math_round ((inject_Z total / inject_Z (Z.of_nat (length rs))) * 10))
      / 10)%Q,
     Z.of_nat (length rs)).

(** *** The virtual [totalTime] and the JSON view with virtuals *)

Definition totalTime (r : Recipe) : Z :=
  prep (cookingTime r) + cook (cookingTime r).

(** What [toJSON] (with [virtuals: true]) shows of a document: the stored
    document and the virtual next to it. *)
Record RecipeJSON := {
  doc : Recipe;
  json_totalTime : Z
}.

Definition toJSON (r : Recipe) : RecipeJSON :=
  {| doc := r; json_totalTime := totalTime r |}.

(** Reading a stored document back as a mongoose document, and writing a
    validated document as a stored one. *)
Definition toDoc (r : Recipe) : RecipeDoc :=
  {| d_id := _id r;
     d_title := Some (title r);
     d_description := Some (description r);
     d_ingredients := ingredients r;
     d_instructions := instructions r;
     d_cookingTime :=
       {| in_prep := Some (prep (cookingTime r));
          in_cook := Some (cook (cookingTime r)) |};
     d_servings := Some (servings r);
     d_difficulty := Some (difficulty r);
     d_cuisine := Some (cuisine r);
     d_dietType := Some (dietType r);
     d_calories := calories r;
     d_image := image r;
     d_author := author r;
     d_ratings := ratings r;
     d_averageRating := averageRating r;
     d_totalRatings := totalRatings r;
     d_isPublic := isPublic r;
     d_tags := tags r;
     d_nutritionalInfo := nutritionalInfo r |}.

Definition commit (d : RecipeDoc) (created now : Z) : Recipe :=
  {| _id := d_id d;
     title := default ""%string (d_title d);
     description := default ""%string (d_description d);
     ingredients := d_ingredients d;
     instructions := d_instructions d;
     cookingTime :=
       {| prep := default 0 (in_prep (d_cookingTime d));
          cook := default 0 (in_cook (d_cookingTime d)) |};
     servings := default 0 (d_servings d);
     difficulty := default ""%string (d_difficulty d);
     cuisine := default ""%string (d_cuisine d);
     dietType := default ""%string (d_dietType d);
     calories := d_calories d;
     image := d_image d;
     author := d_author d;
     ratings := d_ratings d;
     averageRating := d_averageRating d;
     totalRatings := d_totalRatings d;
     isPublic := d_isPublic d;
     tags := d_tags d;
     nutritionalInfo := d_nutritionalInfo d;
     createdAt := created;
     updatedAt := now |}.

(** [recipeSchema.pre('save', ...)]: the hook calls
    [calculateAverageRating] on the document about to be written. *)
Definition pre_save (d : RecipeDoc) : RecipeDoc :=
  let '(avg, n) := calculateAverageRating (d_ratings d) in
  {| d_id := d_id d;
     d_title := d_title d;
     d_description := d_description d;
     d_ingredients := d_ingredients d;
     d_instructions := d_instructions d;
     d_cookingTime := d_cookingTime d;
     d_servings := d_servings d;
     d_difficulty := d_difficulty d;
     d_cuisine := d_cuisine d;
     d_dietType := d_dietType d;
     d_calories := d_calories d;
     d_image := d_image d;
     d_author := d_author d;
     d_ratings := d_ratings d;
     d_averageRating := avg;
     d_totalRatings := n;
     d_isPublic := d_isPublic d;
     d_tags := d_tags d;
     d_nutritionalInfo := d_nutritionalInfo d |}.

(** ** Errors, responses and the store *)

Inductive Exn :=
| ValidationError (errors : list string)
| SyntaxError
| CastError
| TypeError
| MongoServerError (reason : string).

Inductive JsNumber :=
| Finite (z : Z)
| Infinity
| NaN.

Record Pagination := {
  currentPage : Z;
  totalPages : JsNumber;
  totalRecipes : Z;
  hasNextPage : bool;
  hasPrevPage : bool
}.

Inductive Data :=
| NoData
| OneRecipe (recipe : RecipeJSON)
| Page (recipes : list Recipe) (pagination : Pagination).

Record Response := {
  status : Z;
  success : bool;
  message : string;
  data : Data;
  error : option Exn
}.

Definition ok (code : Z) (msg : string) (d : Data) : Response :=
  {| status := code; success := true; message := msg; data := d; error := None |}.

Definition fail (code : Z) (msg : string) : Response :=
  {| status := code; success := false; message := msg; data := NoData; error := None |}.

(** Steps that may throw, one after the other. *)
#[global] Instance Exn_bind : MBind (sum Exn) :=
  λ A B f x, match x with inl e => inl e | inr a => f a end.

(** The [catch] branch of every handler. *)
Definition server_error (msg : string) (e : Exn) : Response :=
  {| status := 500; success := false; message := msg; data := NoData; error := Some e |}.

(** The error kinds of the specification, as the responses that carry
    them. *)
Definition Forbidden (res : Response) : Prop :=
  status res = 403 ∧ success res = false.

Definition Conflict (res : Response) : Prop :=
  status res = 400 ∧ success res = false
  ∧ message res = "Recipe already in favorites"%string.

Definition NotFound (res : Response) : Prop :=
  status res = 404 ∧ success res = false.

(** Modelled from the spec: the User model ([models/User]) is not part of
    the sources at hand; the controller only reads and writes its
    [favoriteRecipes], a sequence of Recipe references, and [user.save()]
    persists it. *)
Record User := {
  favoriteRecipes : list ObjectId
}.

Record Store := {
  recipes : gmap string Recipe;
  users : gmap string User
}.

Definition set_recipes (st : Store) (rs : gmap string Recipe) : Store :=
  {| recipes := rs; users := users st |}.

Definition set_users (st : Store) (us : gmap string User) : Store :=
  {| recipes := recipes st; users := us |}.

(** [doc.save()]: validation first, then the [pre('save')] hook, then the
    write; the insert of a new document fails on an id already taken. *)
Definition save (isNew : bool) (d : RecipeDoc) (created now : Z)
    (rs : gmap string Recipe) : Exn + (Recipe * gmap string Recipe) :=
  match validate d with
  | [] =>
      let r := commit (pre_save d) created now in
      if isNew && bool_decide (is_Some (rs !! _id r))
      then inl (MongoServerError "E11000 duplicate key")
      else inr (r, <[_id r := r]> rs)
  | errs => inl (ValidationError errs)
  end.

(** ** Requests *)

(** A structured field of a request body: missing, still serialized as
    text, or already structured. *)
Inductive Field (T : Type) :=
| Absent
| Text (s : string)
| Structured (v : T).
Arguments Absent {T}.
Arguments Text {T} s.
Arguments Structured {T} v.

(** A numeric parameter of the query string arrives as a text, which the
    listing handlers read in two ways: through the numeric coercion of
    their arithmetic and comparisons ([page - 1], [* limit],
    [total / limit], [page < totalPages], [page > 1]), and through
    [parseInt] ([currentPage], the limit handed to the store).  The two
    readings agree on the plain decimal spelling of an integer and differ
    on others: [1e1] is 10 to the first and 1 to the second.  Both are
    integers here. *)
Record QueryNumber := {
  as_Number : Z;
  as_parseInt : Z
}.

(** An integer in its plain decimal spelling. *)
Definition plain (n : Z) : QueryNumber := {| as_Number := n; as_parseInt := n |}.

(** The two readings of a parameter that has a number as its default. *)
Definition Number_or (d : Z) (x : option QueryNumber) : Z :=
  match x with
  | Some n => as_Number n
  | None => d
  end.

Definition parseInt_or (d : Z) (x : option QueryNumber) : Z :=
  match x with
  | Some n => as_parseInt n
  | None => d
  end.

Record Query := {
  q_page : option QueryNumber;
  q_limit : option QueryNumber;
  q_cuisine : option string;
  q_dietType : option string;
  q_difficulty : option string;
  q_minRating : option Q;
  q_maxCalories : option Z;
  q_maxTime : option Z;
  q_search : option string;
  q_sortBy : option string;
  q_sortOrder : option string
}.

Definition no_query : Query :=
  {| q_page := None; q_limit := None; q_cuisine := None; q_dietType := None;
     q_difficulty := None; q_minRating := None; q_maxCalories := None;
     q_maxTime := None; q_search := None; q_sortBy := None;
     q_sortOrder := None |}.

Record Request (B : Type) := {
  user_id : ObjectId;      (* req.user._id, set by the authentication *)
  params_id : string;      (* req.params.id, the text of the path *)
  body : B;
  query : Query;
  file : option string     (* req.file.filename *)
}.
Arguments user_id {B} _.
Arguments params_id {B} _.
Arguments body {B} _.
Arguments query {B} _.
Arguments file {B} _.

(** The keys [createRecipe] destructures from [req.body]. *)
Record CreateBody := {
  cb_title : option string;
  cb_description : option string;
  cb_ingredients : Field (list Ingredient);
  cb_instructions : Field (list Instruction);
  cb_cookingTime : Field CookingTimeInput;
  cb_servings : option Z;
  cb_difficulty : option string;
  cb_cuisine : option string;
  cb_dietType : option string;
  cb_calories : option Z;
  cb_tags : Field (list string);
  cb_nutritionalInfo : Field NutritionalInfo
}.

(** [updateRecipe] spreads the whole body into the update: every schema
    key may occur.  The nested [cookingTime] is replaced as a whole.  The
    ids in it, [author] and the [user] of each entry of [ratings], are the
    texts the body carries, which the update casts. *)
Record UpdateBody := {
  ub_title : option string;
  ub_description : option string;
  ub_ingredients : Field (list Ingredient);
  ub_instructions : Field (list Instruction);
  ub_cookingTime : Field CookingTime;
  ub_servings : option Z;
  ub_difficulty : option string;
  ub_cuisine : option string;
  ub_dietType : option string;
  ub_calories : option Z;
  ub_image : option string;
  ub_author : option string;
  ub_ratings : option (list Rating);
  ub_averageRating : option Q;
  ub_totalRatings : option Z;
  ub_isPublic : option bool;
  ub_tags : Field (list string);
  ub_nutritionalInfo : Field NutritionalInfo
}.

(** [rateRecipe] reads [rating] through [parseInt] ([None] is [NaN]) and
    [comment]. *)
Record RateBody := {
  rb_rating : option Z;
  rb_comment : option string
}.

(** ** Queries of the store *)

(** [Model.find(filter)]: the documents of the collection that match. *)
Definition find (matches : Recipe → bool) (rs : gmap string Recipe) : list Recipe :=
  filter (λ r, matches r) (snd <$> map_to_list rs).

(** [Model.countDocuments(filter)] *)
Definition countDocuments (matches : Recipe → bool) (rs : gmap string Recipe) : Z :=
  Z.of_nat (length (find matches rs)).

(** The value a sort reads at a path, in the store's comparison order:
    null, then numbers, strings, ids, booleans, dates. *)
Inductive SortKey :=
| KNull
| KNum (q : Q)
| KStr (s : string)
| KId (o : ObjectId)
| KBool (b : bool)
| KDate (t : Z).

Definition key_rank (k : SortKey) : Z :=
  match k with
  | KNull => 0
  | KNum _ => 1
  | KStr _ => 2
  | KId _ => 3
  | KBool _ => 4
  | KDate _ => 5
  end.

Definition key_leb (a b : SortKey) : bool :=
  match a, b with
  | KNum x, KNum y => Qle_bool x y
  | KStr x, KStr y => String.leb x y
  | KId x, KId y => String.leb x y
  | KBool x, KBool y => implb x y
  | KDate x, KDate y => x <=? y
  | _, _ => key_rank a <=? key_rank b
  end.

(** Scalar paths of the schema; any other path reads as null on every
    document. *)
Definition sort_key (path : string) (r : Recipe) : SortKey :=
  if String.eqb path "_id" then KId (_id r)
  else if String.eqb path "title" then KStr (title r)
  else if String.eqb path "description" then KStr (description r)
  else if String.eqb path "cookingTime.prep" then KNum (inject_Z (prep (cookingTime r)))
  else if String.eqb path "cookingTime.cook" then KNum (inject_Z (cook (cookingTime r)))
  else if String.eqb path "servings" then KNum (inject_Z (servings r))
  else if String.eqb path "difficulty" then KStr (difficulty r)
  else if String.eqb path "cuisine" then KStr (cuisine r)
  else if String.eqb path "dietType" then KStr (dietType r)
  else if String.eqb path "calories" then
    match calories r with Some c => KNum (inject_Z c) | None => KNull end
  else if String.eqb path "image" then KStr (image r)
  else if String.eqb path "author" then KId (author r)
  else if String.eqb path "averageRating" then KNum (averageRating r)
  else if String.eqb path "totalRatings" then KNum (inject_Z (totalRatings r))
  else if String.eqb path "isPublic" then KBool (isPublic r)
  else if String.eqb path "createdAt" then KDate (createdAt r)
  else if String.eqb path "updatedAt" then KDate (updatedAt r)
  else KNull.

(** The order [{ [path]: direction }] puts on documents: [a] may come
    before [b]. *)
Definition sort_order (path : string) (direction : Z) (a b : Recipe) : Prop :=
  if direction <? 0
  then key_leb (sort_key path b) (sort_key path a)
  else key_leb (sort_key path a) (sort_key path b).

#[global] Instance sort_order_dec path direction : RelDecision (sort_order path direction).
Proof. intros a b. unfold sort_order. destruct (direction <? 0); apply _. Defined.

(** [.sort({ [path]: direction })] *)
Definition sort (path : string) (direction : Z) (l : list Recipe) : list Recipe :=
  merge_sort (sort_order path direction) l.

(** [.skip(skip).limit(n)]: the store rejects a negative skip; a limit of
    0 is no limit and a negative one is its absolute value. *)
Definition skip_limit (skip n : Z) (l : list Recipe) : Exn + list Recipe :=
  if skip <? 0 then inl (MongoServerError "Skip value must be non-negative")
  else
    let rest := drop (Z.to_nat skip) l in
    inr (if n =? 0 then rest else take (Z.to_nat (Z.abs n)) rest).

(** ** Pagination arithmetic

    The listing handlers all end with the same lines:
    [currentPage: parseInt(page)], [totalPages = Math.ceil(total /
    limit)], [hasNextPage: page < totalPages], [hasPrevPage: page > 1];
    [current] is the first reading of the page, [page] and [limit] are
    the coerced ones. *)

Definition ceil_div (total limit : Z) : JsNumber :=
  if limit =? 0 then (if total =? 0 then NaN else Infinity)
  else Finite (Math_ceil (inject_Z total / inject_Z limit)).

Definition js_lt (x : Z) (n : JsNumber) : bool :=
  match n with
  | Finite z => x <? z
  | Infinity => true
  | NaN => false
  end.

Definition pagination_of (current page limit total : Z) : Pagination :=
  let pages := ceil_div total limit in
  {| currentPage := current;
     totalPages := pages;
     totalRecipes := total;
     hasNextPage := js_lt page pages;
     hasPrevPage := page >? 1 |}.

(** ** The rating upsert of [rateRecipe] *)

(** [recipe.ratings.findIndex(r => r.user.toString() === uid)] *)
Definition findIndex (uid : ObjectId) (rs : list Rating) : option nat :=
  fst <$> list_find (λ r, user r = uid) rs.

Definition upsertRating (entry : Rating) (rs : list Rating) : list Rating :=
  match findIndex (user entry) rs with
  | Some i => <[i := entry]> rs
  | None => rs ++ [entry]
  end.

Definition set_ratings (r : Recipe) (rs : list Rating) : Recipe :=
  {| _id := _id r; title := title r; description := description r;
     ingredients := ingredients r; instructions := instructions r;
     cookingTime := cookingTime r; servings := servings r;
     difficulty := difficulty r; cuisine := cuisine r;
     dietType := dietType r; calories := calories r; image := image r;
     author := author r; ratings := rs;
     averageRating := averageRating r; totalRatings := totalRatings r;
     isPublic := isPublic r; tags := tags r;
     nutritionalInfo := nutritionalInfo r;
     createdAt := createdAt r; updatedAt := updatedAt r |}.

(** ** The controller *)

Section Controller.

#[local] Set Default Proof Using "Type".

(** [JSON.parse] at each structured field ([None]: it throws), and the
    store's case-insensitive [$regex] match of a pattern in a string. *)
Variable parse_ingredients : string → option (list Ingredient).
Variable parse_instructions : string → option (list Instruction).
Variable parse_tags : string → option (list string).
Variable parse_nutritionalInfo : string → option NutritionalInfo.
Variable parse_cookingTimeInput : string → option CookingTimeInput.
Variable parse_cookingTime : string → option CookingTime.
Variable regex_test : string → string → bool.

(** What mongoose does with a text where the schema has another type.
    [castObjectId] casts the text of an id to an ObjectId, here the
    canonical text it prints as: in [Model.findById] and its relatives, in
    a [push] on an array of references, and on the [author] and
    [ratings.user] paths of an update; [None] is its CastError.
    [cast_text T path s] is the cast of a text [s] that an update leaves
    at the structured path [path], whose values have the type [T]. *)
Variable castObjectId : string → option ObjectId.
Variable cast_text : ∀ T : Type, string → string → Exn + T.

(** [typeof x === 'string' ? JSON.parse(x) : x]; the outer [None] is the
    exception. *)
Definition parsed {T} (parse : string → option T) (f : Field T) : option (option T) :=
  match f with
  | Absent => Some None
  | Text s => Some <$> parse s
  | Structured v => Some (Some v)
  end.

Definition empty_cookingTime : CookingTimeInput :=
  {| in_prep := None; in_cook := None |}.

Definition empty_nutritionalInfo : NutritionalInfo :=
  {| protein := None; carbs := None; fat := None; fiber := None; sugar := None |}.

(** [new Recipe({...})] of [createRecipe]. *)
Definition new_Recipe (new_id : ObjectId) (req : Request CreateBody)
    (parsedIngredients : option (list Ingredient))
    (parsedInstructions : option (list Instruction))
    (parsedTags : option (list string))
    (parsedNutritionalInfo : option NutritionalInfo)
    (parsedCookingTime : option CookingTimeInput) : RecipeDoc :=
  {| d_id := new_id;
     d_title := trim <$> cb_title (body req);
     d_description := cb_description (body req);
     d_ingredients := default [] parsedIngredients;
     d_instructions := default [] parsedInstructions;
     d_cookingTime := default empty_cookingTime parsedCookingTime;
     d_servings := cb_servings (body req);
     d_difficulty := cb_difficulty (body req);
     d_cuisine := trim <$> cb_cuisine (body req);
     d_dietType := cb_dietType (body req);
     d_calories := cb_calories (body req);
     d_image :=
       match file req with
       | Some filename => ("/uploads/" ++ filename)%string
       | None => ""%string
       end;
     d_author := user_id req;
     d_ratings := [];
     d_averageRating := 0%Q;
     d_totalRatings := 0;
     d_isPublic := true;
     d_tags := trim <$> default [] parsedTags;
     d_nutritionalInfo := default empty_nutritionalInfo parsedNutritionalInfo |}.

Definition createRecipe (st : Store) (req : Request CreateBody)
    (new_id : ObjectId) (now : Z) : Store * Response :=
  let failed := server_error "Server error creating recipe" in
  match parsed parse_ingredients (cb_ingredients (body req)),
        parsed parse_instructions (cb_instructions (body req)),
        parsed parse_tags (cb_tags (body req)),
        parsed parse_nutritionalInfo (cb_nutritionalInfo (body req)),
        parsed parse_cookingTimeInput (cb_cookingTime (body req)) with
  | Some ings, Some instrs, Some tgs, Some nutr, Some ct =>
      let recipe := new_Recipe new_id req ings instrs tgs nutr ct in
      match save true recipe now now (recipes st) with
      | inr (r, rs) =>
          (set_recipes st rs,
           ok 201 "Recipe created successfully" (OneRecipe (toJSON r)))
      | inl e => (st, failed e)
      end
  | _, _, _, _, _ => (st, failed SyntaxError)
  end.

(** *** Listing *)

(** [x && x !== 'All'] *)
Definition selective (x : option string) : option string :=
  match x with
  | Some s => if String.eqb s "" || String.eqb s "All" then None else Some s
  | None => None
  end.

Definition matches_search (search : string) (r : Recipe) : bool :=
  regex_test search (title r)
  || regex_test search (description r)
  || existsb (λ i, regex_test search (ing_name i)) (ingredients r)
  || existsb (regex_test search) (tags r).

(** The filter object [getRecipes] builds from the query. *)
Definition recipes_filter (q : Query) (r : Recipe) : bool :=
  isPublic r
  && match selective (q_cuisine q) with
     | Some c => String.eqb (cuisine r) c
     | None => true
     end
  && match selective (q_dietType q) with
     | Some d => String.eqb (dietType r) d
     | None => true
     end
  && match selective (q_difficulty q) with
     | Some d => String.eqb (difficulty r) d
     | None => true
     end
  && match q_minRating q with
     | Some m => Qle_bool m (averageRating r)
     | None => true
     end
  && match q_maxCalories q with
     | Some m => match calories r with Some c => c <=? m | None => false end
     | None => true
     end
  && match q_maxTime q with
     | Some m => prep (cookingTime r) + cook (cookingTime r) <=? m
     | None => true
     end
  && match q_search q with
     | Some s => if String.eqb s "" then true else matches_search s r
     | None => true
     end.

Definition getRecipes (st : Store) (req : Request unit) : Response :=
  let page := Number_or 1 (q_page (query req)) in
  let limit := Number_or 12 (q_limit (query req)) in
  let sortBy := default "createdAt"%string (q_sortBy (query req)) in
  let sortOrder := default "desc"%string (q_sortOrder (query req)) in
  let filter := recipes_filter (query req) in
  let direction := if String.eqb sortOrder "desc" then -1 else 1 in
  let skip := (page - 1) * limit in
  match skip_limit skip (parseInt_or 12 (q_limit (query req)))
          (sort sortBy direction (find filter (recipes st))) with
  | inr found =>
      let total := countDocuments filter (recipes st) in
      ok 200 ""
        (Page found
           (pagination_of (parseInt_or 1 (q_page (query req))) page limit total))
  | inl e => server_error "Server error getting recipes" e
  end.


(** *** Update and delete *)

(** [if (updates.x && typeof updates.x === 'string') updates.x =
    JSON.parse(updates.x)]: the empty text is falsy and stays. *)
Definition reparsed {T} (parse : string → option T) (f : Field T) : option (Field T) :=
  match f with
  | Text s => if String.eqb s "" then Some f else Structured <$> parse s
  | _ => Some f
  end.

(** The update once cast by the schema: the paths it sets. *)
Record Updates := {
  u_title : option string;
  u_description : option string;
  u_ingredients : option (list Ingredient);
  u_instructions : option (list Instruction);
  u_cookingTime : option CookingTime;
  u_servings : option Z;
  u_difficulty : option string;
  u_cuisine : option string;
  u_dietType : option string;
  u_calories : option Z;
  u_image : option string;
  u_author : option ObjectId;
  u_ratings : option (list Rating);
  u_averageRating : option Q;
  u_totalRatings : option Z;
  u_isPublic : option bool;
  u_tags : option (list string);
  u_nutritionalInfo : option NutritionalInfo
}.

(** The cast of a structured field of the update: a text that was not
    parsed (the empty one) goes through the cast of its path. *)
Definition cast_field {T} (cast : string → Exn + T) (f : Field T) : Exn + option T :=
  match f with
  | Absent => inr None
  | Text s => v ← cast s; inr (Some v)
  | Structured v => inr (Some v)
  end.

(** A text at [tags], an array of strings, is cast to the array of this one
    string. *)
Definition cast_text_tags (s : string) : Exn + list string := inr [s].

Definition cast_id (text : string) : Exn + ObjectId :=
  match castObjectId text with
  | Some id => inr id
  | None => inl CastError
  end.

Definition cast_author (a : option string) : Exn + option ObjectId :=
  match a with
  | Some text => id ← cast_id text; inr (Some id)
  | None => inr None
  end.

Definition cast_rating (r : Rating) : Exn + Rating :=
  id ← cast_id (user r);
  inr {| user := id; rating := rating r; comment := comment r |}.

Fixpoint cast_rating_list (l : list Rating) : Exn + list Rating :=
  match l with
  | [] => inr []
  | r :: l' => r' ← cast_rating r; l'' ← cast_rating_list l'; inr (r' :: l'')
  end.

Definition cast_ratings (rs : option (list Rating)) : Exn + option (list Rating) :=
  match rs with
  | Some l => l' ← cast_rating_list l; inr (Some l')
  | None => inr None
  end.

Definition cast_update (b : UpdateBody) : Exn + Updates :=
  ings ← cast_field (cast_text (list Ingredient) "ingredients") (ub_ingredients b);
  instrs ← cast_field (cast_text (list Instruction) "instructions") (ub_instructions b);
  ct ← cast_field (cast_text CookingTime "cookingTime") (ub_cookingTime b);
  tgs ← cast_field cast_text_tags (ub_tags b);
  nutr ← cast_field (cast_text NutritionalInfo "nutritionalInfo") (ub_nutritionalInfo b);
  new_author ← cast_author (ub_author b);
  rated ← cast_ratings (ub_ratings b);
  inr {| u_title := trim <$> ub_title b;
         u_description := ub_description b;
         u_ingredients := ings;
         u_instructions := instrs;
         u_cookingTime := ct;
         u_servings := ub_servings b;
         u_difficulty := ub_difficulty b;
         u_cuisine := trim <$> ub_cuisine b;
         u_dietType := ub_dietType b;
         u_calories := ub_calories b;
         u_image := ub_image b;
         u_author := new_author;
         u_ratings := rated;
         u_averageRating := ub_averageRating b;
         u_totalRatings := ub_totalRatings b;
         u_isPublic := ub_isPublic b;
         u_tags := fmap (M := list) trim <$> tgs;
         u_nutritionalInfo := nutr |}.

(** [runValidators: true]: the validators of the paths the update sets. *)
Definition on_path {T} (validator : T → list string) (v : option T) : list string :=
  match v with
  | Some x => validator x
  | None => []
  end.

Definition update_validators (u : Updates) : list string :=
  on_path (λ x, validate_title (Some x)) (u_title u)
  ++ on_path (λ x, validate_description (Some x)) (u_description u)
  ++ on_path (λ l, concat (validate_ingredient <$> l)) (u_ingredients u)
  ++ on_path (λ l, concat (validate_instruction <$> l)) (u_instructions u)
  ++ on_path (λ c, validate_prep (Some (prep c)) ++ validate_cook (Some (cook c)))
       (u_cookingTime u)
  ++ on_path (λ x, validate_servings (Some x)) (u_servings u)
  ++ on_path (λ x, validate_difficulty (Some x)) (u_difficulty u)
  ++ on_path (λ x, validate_cuisine (Some x)) (u_cuisine u)
  ++ on_path (λ x, validate_dietType (Some x)) (u_dietType u)
  ++ on_path (λ x, validate_calories (Some x)) (u_calories u)
  ++ on_path (λ x, validate_image (Some x)) (u_image u)
  ++ on_path (λ x, required_string "Path `author` is required." (Some x)) (u_author u)
  ++ on_path (λ l, concat (validate_rating <$> l)) (u_ratings u)
  ++ on_path validate_averageRating (u_averageRating u).

(** The [$set] of the update, and the timestamp. *)
Definition apply_updates (u : Updates) (now : Z) (r : Recipe) : Recipe :=
  {| _id := _id r;
     title := default (title r) (u_title u);
     description := default (description r) (u_description u);
     ingredients := default (ingredients r) (u_ingredients u);
     instructions := default (instructions r) (u_instructions u);
     cookingTime := default (cookingTime r) (u_cookingTime u);
     servings := default (servings r) (u_servings u);
     difficulty := default (difficulty r) (u_difficulty u);
     cuisine := default (cuisine r) (u_cuisine u);
     dietType := default (dietType r) (u_dietType u);
     calories := match u_calories u with Some c => Some c | None => calories r end;
     image := default (image r) (u_image u);
     author := default (author r) (u_author u);
     ratings := default (ratings r) (u_ratings u);
     averageRating := default (averageRating r) (u_averageRating u);
     totalRatings := default (totalRatings r) (u_totalRatings u);
     isPublic := default (isPublic r) (u_isPublic u);
     tags := default (tags r) (u_tags u);
     nutritionalInfo := default (nutritionalInfo r) (u_nutritionalInfo u);
     createdAt := createdAt r;
     updatedAt := now |}.

(** [Recipe.findByIdAndUpdate(id, updates, { new: true, runValidators:
    true })]: cast, validators of the updated paths, write.  No
    document middleware runs; the result is the new document, or null
    when there is none with this id. *)
Definition findByIdAndUpdate (id : ObjectId) (updates : UpdateBody) (now : Z)
    (rs : gmap string Recipe) : Exn + (option Recipe * gmap string Recipe) :=
  match cast_update updates with
  | inl e => inl e
  | inr u =>
      match update_validators u with
      | [] =>
          match rs !! id with
          | Some r =>
              let r' := apply_updates u now r in
              inr (Some r', <[id := r']> rs)
          | None => inr (None, rs)
          end
      | errs => inl (ValidationError errs)
      end
  end.

(** [const updates = { ...req.body }] with its structured fields as parsed,
    and [updates.image] replaced when a file is uploaded. *)
Definition spread (req : Request UpdateBody)
    (ings : Field (list Ingredient)) (instrs : Field (list Instruction))
    (tgs : Field (list string)) (nutr : Field NutritionalInfo)
    (ct : Field CookingTime) : UpdateBody :=
  let b := body req in
  {| ub_title := ub_title b;
     ub_description := ub_description b;
     ub_ingredients := ings;
     ub_instructions := instrs;
     ub_cookingTime := ct;
     ub_servings := ub_servings b;
     ub_difficulty := ub_difficulty b;
     ub_cuisine := ub_cuisine b;
     ub_dietType := ub_dietType b;
     ub_calories := ub_calories b;
     ub_image :=
       match file req with
       | Some filename => Some ("/uploads/" ++ filename)%string
       | None => ub_image b
       end;
     ub_author := ub_author b;
     ub_ratings := ub_ratings b;
     ub_averageRating := ub_averageRating b;
     ub_totalRatings := ub_totalRatings b;
     ub_isPublic := ub_isPublic b;
     ub_tags := tgs;
     ub_nutritionalInfo := nutr |}.

Definition updateRecipe (st : Store) (req : Request UpdateBody) (now : Z)
    : Store * Response :=
  let failed := server_error "Server error updating recipe" in
  match castObjectId (params_id req) with
  | None => (st, failed CastError)
  | Some id =>
      match recipes st !! id with
      | None => (st, fail 404 "Recipe not found")
      | Some recipe =>
          if bool_decide (author recipe ≠ user_id req)
          then (st, fail 403 "Not authorized to update this recipe")
          else
            let b := body req in
            match reparsed parse_ingredients (ub_ingredients b),
                  reparsed parse_instructions (ub_instructions b),
                  reparsed parse_tags (ub_tags b),
                  reparsed parse_nutritionalInfo (ub_nutritionalInfo b),
                  reparsed parse_cookingTime (ub_cookingTime b) with
            | Some ings, Some instrs, Some tgs, Some nutr, Some ct =>
                let updates := spread req ings instrs tgs nutr ct in
                match findByIdAndUpdate id updates now (recipes st) with
                | inr (Some updatedRecipe, rs) =>
                    (set_recipes st rs,
                     ok 200 "Recipe updated successfully"
                       (OneRecipe (toJSON updatedRecipe)))
                | inr (None, rs) =>
                    (set_recipes st rs, ok 200 "Recipe updated successfully" NoData)
                | inl e => (st, failed e)
                end
            | _, _, _, _, _ => (st, failed SyntaxError)
            end
      end
  end.

Definition deleteRecipe (st : Store) (req : Request unit) : Store * Response :=
  match castObjectId (params_id req) with
  | None => (st, server_error "Server error deleting recipe" CastError)
  | Some id =>
      match recipes st !! id with
      | None => (st, fail 404 "Recipe not found")
      | Some recipe =>
          if bool_decide (author recipe ≠ user_id req)
          then (st, fail 403 "Not authorized to delete this recipe")
          else (set_recipes st (delete id (recipes st)),
                ok 200 "Recipe deleted successfully" NoData)
      end
  end.

(** *** Rating *)

Definition rateRecipe (st : Store) (req : Request RateBody) (now : Z)
    : Store * Response :=
  let failed := server_error "Server error rating recipe" in
  match castObjectId (params_id req) with
  | None => (st, failed CastError)
  | Some id =>
      match recipes st !! id with
      | None => (st, fail 404 "Recipe not found")
      | Some recipe =>
          match rb_rating (body req) with
          | None =>
              (st, failed (ValidationError
                     ["Cast to Number failed for value NaN at path rating"%string]))
          | Some value =>
              let entry :=
                {| user := user_id req;
                   rating := value;
                   comment := default ""%string (rb_comment (body req)) |} in
              let rated := set_ratings recipe (upsertRating entry (ratings recipe)) in
              match save false (toDoc rated) (createdAt recipe) now (recipes st) with
              | inr (r, rs) =>
                  (set_recipes st rs,
                   ok 200 "Recipe rated successfully" (OneRecipe (toJSON r)))
              | inl e => (st, failed e)
              end
          end
      end
  end.

(** *** Favorites *)

(** [Recipe.findById(req.params.id)] and [push(req.params.id)] cast the
    text of the request to an ObjectId; [includes(req.params.id)] compares
    the text as it is with the text each stored reference prints as. *)
Definition addToFavorites (st : Store) (req : Request unit) : Store * Response :=
  let failed := server_error "Server error adding to favorites" in
  match castObjectId (params_id req) with
  | None => (st, failed CastError)
  | Some id =>
      match recipes st !! id with
      | None => (st, fail 404 "Recipe not found")
      | Some _ =>
          match users st !! user_id req with
          | None => (st, failed TypeError)
          | Some u =>
              if bool_decide (params_id req ∈ favoriteRecipes u)
              then (st, fail 400 "Recipe already in favorites")
              else
                let u' := {| favoriteRecipes := favoriteRecipes u ++ [id] |} in
                (set_users st (<[user_id req := u']> (users st)),
                 ok 200 "Recipe added to favorites" NoData)
          end
      end
  end.

(** The filter compares the text each reference prints as with the text of
    the request as it is. *)
Definition removeFromFavorites (st : Store) (req : Request unit) : Store * Response :=
  match users st !! user_id req with
  | None => (st, server_error "Server error removing from favorites" TypeError)
  | Some u =>
      let u' :=
        {| favoriteRecipes :=
             filter (λ id, id ≠ params_id req) (favoriteRecipes u) |} in
      (set_users st (<[user_id req := u']> (users st)),
       ok 200 "Recipe removed from favorites" NoData)
  end.


(** ** Sample data *)

Definition soup_id : ObjectId := "650000000000000000000001".
Definition alice : ObjectId := "64a000000000000000000001".
Definition bob : ObjectId := "64a000000000000000000002".

(** A recipe by alice, as [createRecipe] stores it. *)
Definition soup : Recipe :=
  {| _id := soup_id;
     title := "Tomato soup";
     description := "A quick soup";
     ingredients :=
       [{| ing_name := "tomato"; ing_quantity := "4"; ing_unit := "pieces" |}];
     instructions := [{| stepNumber := 1; instruction := "Simmer." |}];
     cookingTime := {| prep := 10; cook := 20 |};
     servings := 2;
     difficulty := "Easy";
     cuisine := "Italian";
     dietType := "Vegan";
     calories := Some 180;
     image := "/uploads/soup.png";
     author := alice;
     ratings := [];
     averageRating := 0%Q;
     totalRatings := 0;
     isPublic := true;
     tags := ["soup"%string];
     nutritionalInfo :=
       {| protein := None; carbs := None; fat := None; fiber := None;
          sugar := None |};
     createdAt := 1000;
     updatedAt := 1000 |}.

Definition kitchen : Store :=
  {| recipes := {[ soup_id := soup ]};
     users := {[ alice := {| favoriteRecipes := [] |};
                 bob := {| favoriteRecipes := [soup_id] |} ]} |}.

Definition request {B} (caller : ObjectId) (id : string) (b : B) (q : Query)
    (upload : option string) : Request B :=
  {| user_id := caller; params_id := id; body := b; query := q; file := upload |}.

Definition soup_body : CreateBody :=
  {| cb_title := Some "Tomato soup"%string;
     cb_description := Some "A quick soup"%string;
     cb_ingredients :=
       Structured
         [{| ing_name := "tomato"; ing_quantity := "4"; ing_unit := "pieces" |}];
     cb_instructions := Structured [{| stepNumber := 1; instruction := "Simmer." |}];
     cb_cookingTime := Structured {| in_prep := Some 10; in_cook := Some 20 |};
     cb_servings := Some 2;
     cb_difficulty := Some "Easy"%string;
     cb_cuisine := Some "Italian"%string;
     cb_dietType := Some "Vegan"%string;
     cb_calories := Some 180;
     cb_tags := Structured ["soup"%string];
     cb_nutritionalInfo := Absent |}.

Definition empty_store : Store := {| recipes := ∅; users := ∅ |}.

(** The body [{ "averageRating": 5 }]. *)
Definition forged_average : UpdateBody :=
  {| ub_title := None; ub_description := None; ub_ingredients := Absent;
     ub_instructions := Absent; ub_cookingTime := Absent; ub_servings := None;
     ub_difficulty := None; ub_cuisine := None; ub_dietType := None;
     ub_calories := None; ub_image := None; ub_author := None;
     ub_ratings := None; ub_averageRating := Some 5%Q; ub_totalRatings := None;
     ub_isPublic := None; ub_tags := Absent; ub_nutritionalInfo := Absent |}.

Definition max_time (m : Z) : Query :=
  {| q_page := None; q_limit := None; q_cuisine := None; q_dietType := None;
     q_difficulty := None; q_minRating := None; q_maxCalories := None;
     q_maxTime := Some m; q_search := None; q_sortBy := None;
     q_sortOrder := None |}.

(** A parser on which every text fails; the texts of the sample requests
    are malformed. *)
Definition malformed {T} (s : string) : option T := None.

(** The serialized structured fields of a create request all decode. *)
Definition decodes (b : CreateBody) : Prop :=
  is_Some (parsed parse_ingredients (cb_ingredients b))
  ∧ is_Some (parsed parse_instructions (cb_instructions b))
  ∧ is_Some (parsed parse_tags (cb_tags b))
  ∧ is_Some (parsed parse_nutritionalInfo (cb_nutritionalInfo b))
  ∧ is_Some (parsed parse_cookingTimeInput (cb_cookingTime b)).

(** The soup request with its ingredients sent as a text. *)
Definition text_body : CreateBody :=
  {| cb_title := Some "Tomato soup"%string;
     cb_description := Some "A quick soup"%string;
     cb_ingredients := Text "[{";
     cb_instructions := Structured [{| stepNumber := 1; instruction := "Simmer." |}];
     cb_cookingTime := Structured {| in_prep := Some 10; in_cook := Some 20 |};
     cb_servings := Some 2;
     cb_difficulty := Some "Easy"%string;
     cb_cuisine := Some "Italian"%string;
     cb_dietType := Some "Vegan"%string;
     cb_calories := Some 180;
     cb_tags := Structured ["soup"%string];
     cb_nutritionalInfo := Absent |}.

(** Every document is stored under its own id. *)
Definition wf_store (st : Store) : Prop :=
  map_Forall (λ id r, _id r = id) (recipes st).

(** The entries of a rater in a ratings array. *)
Definition entries_of (uid : ObjectId) (rs : list Rating) : list Rating :=
  filter (λ o, user o = uid) rs.

(** The entry [rateRecipe] writes for a request. *)
Definition rating_entry (req : Request RateBody) (value : Z) : Rating :=
  {| user := user_id req;
     rating := value;
     comment := default ""%string (rb_comment (body req)) |}.

(** The text of a request is the canonical text of the id it is cast
    to: the membership test of [addToFavorites] is then on what the
    handler appends. *)
Definition canonical (text : string) : Prop :=
  ∀ id, castObjectId text = Some id → id = text.

(** No user has an id twice among the favorites. *)
Definition favorites_distinct (st : Store) : Prop :=
  map_Forall (λ _ u, NoDup (favoriteRecipes u)) (users st).

(** The favorites without an id, as [removeFromFavorites] computes them. *)
Definition without (id : ObjectId) (favorites : list ObjectId) : list ObjectId :=
  filter (λ x, x ≠ id) favorites.

(** Newest first: [a] may come before [b]. *)
Definition newest_first (a b : Recipe) : Prop := createdAt b ≤ createdAt a.

(** The aggregate as the data model words it: [totalRatings] is the number
    of entries, and [averageRating] is 0 without entries and otherwise the
    mean of the entries rounded to one decimal, that is the multiple of
    1/10 nearest to the mean, the upper one when two are as near. *)
Definition ratings_sum (rs : list Rating) : Z :=
  foldr (λ r acc, rating r + acc) 0 rs.

Definition ratings_mean (rs : list Rating) : Q :=
  (inject_Z (ratings_sum rs) / inject_Z (Z.of_nat (length rs)))%Q.

Definition rounded_to_1_decimal (x a : Q) : Prop :=
  ∃ k : Z, (a == inject_Z k / 10)%Q ∧ (x - (1 # 20) < a)%Q ∧ (a <= x + (1 # 20))%Q.

Definition aggregate_consistent (r : Recipe) : Prop :=
  totalRatings r = Z.of_nat (length (ratings r))
  ∧ match ratings r with
    | [] => (averageRating r == 0)%Q
    | _ => rounded_to_1_decimal (ratings_mean (ratings r)) (averageRating r)
    end.

Definition ratings_consistent (st : Store) : Prop :=
  map_Forall (λ _ r, aggregate_consistent r) (recipes st).

Definition three_ratings : list Rating :=
  [{| user := alice; rating := 5; comment := "" |};
   {| user := bob; rating := 4; comment := "" |};
   {| user := "64a000000000000000000003"; rating := 3; comment := "" |}].

(** Bob rates the soup. *)
Definition bob_rates (value : Z) : Request RateBody :=
  request bob soup_id {| rb_rating := Some value; rb_comment := None |} no_query None.

(** A pattern that matches nothing. *)
Definition no_match (pattern subject : string) : bool := false.

(** ** The read handlers without a claim of their own *)

(** [mongoose.Types.ObjectId.isValid] *)
Variable isValid : string → bool.

(** What [getPopularRecipes] answers: the status, the [success] flag and
    [data.recipes]; there is no pagination in it. *)
Record Listing := {
  listing_status : Z;
  listing_success : bool;
  listing_recipes : list Recipe
}.

(** The order a sort on several paths puts on documents: by the first
    path, and among documents that are level there by the rest. *)
Fixpoint sort_spec_order (spec : list (string * Z)) (a b : Recipe) : bool :=
  match spec with
  | [] => true
  | (path, direction) :: rest =>
      let ka := sort_key path a in
      let kb := sort_key path b in
      let before := if direction <? 0 then key_leb kb ka else key_leb ka kb in
      let after := if direction <? 0 then key_leb ka kb else key_leb kb ka in
      if before then (if after then sort_spec_order rest a b else true) else false
  end.

(** [.sort({ p1: d1, p2: d2, ... })] *)
Definition sort_by (spec : list (string * Z)) (l : list Recipe) : list Recipe :=
  merge_sort (λ a b, sort_spec_order spec a b) l.

(** [.limit(n)] alone: 0 is no limit, a negative limit its absolute
    value. *)
Definition limit_to (n : Z) (l : list Recipe) : list Recipe :=
  if n =? 0 then l else take (Z.to_nat (Z.abs n)) l.

(** No step of the query can throw in this model, so the [catch] branch
    has no counterpart. *)
Definition getPopularRecipes (st : Store) (req : Request unit) : Listing :=
  let limit := parseInt_or 6 (q_limit (query req)) in
  {| listing_status := 200;
     listing_success := true;
     listing_recipes :=
       limit_to limit
         (sort_by [("averageRating"%string, -1); ("totalRatings"%string, -1)]
            (find isPublic (recipes st))) |}.

Definition getRecipeById (st : Store) (req : Request unit) : Response :=
  if negb (isValid (params_id req))
  then fail 400 "Invalid recipe ID format"
  else
    match castObjectId (params_id req) with
    | None => server_error "Server error getting recipe" CastError
    | Some id =>
        match recipes st !! id with
        | None => fail 404 "Recipe not found"
        | Some recipe => ok 200 "" (OneRecipe (toJSON recipe))
        end
    end.



(** ** Sequences of requests *)

(** The requests that write to the store. *)
Inductive Call :=
| CreateRecipe (req : Request CreateBody) (new_id : ObjectId) (now : Z)
| UpdateRecipe (req : Request UpdateBody) (now : Z)
| DeleteRecipe (req : Request unit)
| RateRecipe (req : Request RateBody) (now : Z)
| AddToFavorites (req : Request unit)
| RemoveFromFavorites (req : Request unit).

Definition handle (st : Store) (c : Call) : Store * Response :=
  match c with
  | CreateRecipe req new_id now => createRecipe st req new_id now
  | UpdateRecipe req now => updateRecipe st req now
  | DeleteRecipe req => deleteRecipe st req
  | RateRecipe req now => rateRecipe st req now
  | AddToFavorites req => addToFavorites st req
  | RemoveFromFavorites req => removeFromFavorites st req
  end.

(** The store after a sequence of requests, one after the other. *)
Definition run (st : Store) (calls : list Call) : Store :=
  foldl (λ s c, (handle s c).1) st calls.

(** A request for a new favorite that carries the id in its canonical
    text; the other calls. *)
Definition canonical_favorite (c : Call) : Prop :=
  match c with
  | AddToFavorites req => canonical (params_id req)
  | _ => True
  end.



(** The request with another page number, in its plain spelling. *)
Definition with_page {B} (req : Request B) (p : Z) : Request B :=
  {| user_id := user_id req;
     params_id := params_id req;
     body := body req;
     query :=
       {| q_page := Some (plain p);
          q_limit := q_limit (query req);
          q_cuisine := q_cuisine (query req);
          q_dietType := q_dietType (query req);
          q_difficulty := q_difficulty (query req);
          q_minRating := q_minRating (query req);
          q_maxCalories := q_maxCalories (query req);
          q_maxTime := q_maxTime (query req);
          q_search := q_search (query req);
          q_sortBy := q_sortBy (query req);
          q_sortOrder := q_sortOrder (query req) |};
     file := file req |}.

(** The recipes on a page of the listing, none when the handler fails. *)
Definition page_of (st : Store) (req : Request unit) (p : Z) : list Recipe :=
  match data (getRecipes st (with_page req p)) with
  | Page found _ => found
  | _ => []
  end.


(** A rating body the schema refuses: no number, a number outside 1..5, or
    a comment of more than 200 characters. *)
Definition refused_rating (b : RateBody) : Prop :=
  match rb_rating b with
  | Some value =>
      value < 1 ∨ 5 < value ∨ 200 < strlen (default ""%string (rb_comment b))
  | None => True
  end.

(** An entry within the bounds of the schema. *)
Definition rating_in_range (e : Rating) : Prop :=
  1 ≤ rating e ≤ 5 ∧ strlen (comment e) ≤ 200.

(** The body [{}]. *)
Definition empty_update : UpdateBody :=
  {| ub_title := None; ub_description := None; ub_ingredients := Absent;
     ub_instructions := Absent; ub_cookingTime := Absent; ub_servings := None;
     ub_difficulty := None; ub_cuisine := None; ub_dietType := None;
     ub_calories := None; ub_image := None; ub_author := None;
     ub_ratings := None; ub_averageRating := None; ub_totalRatings := None;
     ub_isPublic := None; ub_tags := Absent; ub_nutritionalInfo := Absent |}.

(** A recipe with another [updatedAt]. *)
Definition touched (r : Recipe) (now : Z) : Recipe :=
  {| _id := _id r; title := title r; description := description r;
     ingredients := ingredients r; instructions := instructions r;
     cookingTime := cookingTime r; servings := servings r;
     difficulty := difficulty r; cuisine := cuisine r;
     dietType := dietType r; calories := calories r; image := image r;
     author := author r; ratings := ratings r;
     averageRating := averageRating r; totalRatings := totalRatings r;
     isPublic := isPublic r; tags := tags r;
     nutritionalInfo := nutritionalInfo r;
     createdAt := createdAt r; updatedAt := now |}.


(** All the recipes a listing query matches, in the order of its sort:
    what [getRecipes] pages through. *)
Definition matching (st : Store) (req : Request unit) : list Recipe :=
  sort (default "createdAt"%string (q_sortBy (query req)))
    (if String.eqb (default "desc"%string (q_sortOrder (query req))) "desc"
     then -1 else 1)
    (find (recipes_filter (query req)) (recipes st)).

(** The pages 1 to [n] of a listing. *)
Definition pages (st : Store) (req : Request unit) (n : nat) : list (list Recipe) :=
  (λ i, page_of st req (Z.of_nat (S i))) <$> seq 0 n.




(** A query without any filter. *)
Definition unfiltered (q : Query) : Prop :=
  selective (q_cuisine q) = None
  ∧ selective (q_dietType q) = None
  ∧ selective (q_difficulty q) = None
  ∧ q_minRating q = None
  ∧ q_maxCalories q = None
  ∧ q_maxTime q = None
  ∧ (q_search q = None ∨ q_search q = Some ""%string).

(** The request with other values for the three exact-match filters. *)
Definition with_selectors {B} (req : Request B)
    (c d f : option string) : Request B :=
  {| user_id := user_id req;
     params_id := params_id req;
     body := body req;
     query :=
       {| q_page := q_page (query req);
          q_limit := q_limit (query req);
          q_cuisine := c;
          q_dietType := d;
          q_difficulty := f;
          q_minRating := q_minRating (query req);
          q_maxCalories := q_maxCalories (query req);
          q_maxTime := q_maxTime (query req);
          q_search := q_search (query req);
          q_sortBy := q_sortBy (query req);
          q_sortOrder := q_sortOrder (query req) |};
     file := file req |}.

(** A filter value that selects nothing: absent, empty, or [All]. *)
Definition unselective (x : option string) : Prop :=
  x = None ∨ x = Some ""%string ∨ x = Some "All"%string.

(** ** The router of the recipes

    The routes in the order of their registration.  A request is matched
    against them in that order, by its method and by its path below the
    mount point, given as its segments.  A [get] route also serves HEAD;
    literal segments compare without regard to case; a parameter takes one
    segment. *)

Inductive Method := GET | HEAD | POST | PUT | DELETE | PATCH | OPTIONS.

#[global] Instance Method_eq_dec : EqDecision Method.
Proof. solve_decision. Defined.

Inductive Segment :=
| Lit (s : string)
| Param (name : string).

Inductive Middleware :=
| authenticate
| upload_single (field : string).

#[global] Instance Middleware_eq_dec : EqDecision Middleware.
Proof. solve_decision. Defined.

Inductive Handler :=
| to_createRecipe
| to_getRecipes
| to_getPopularRecipes
| to_getRecipeById
| to_updateRecipe
| to_deleteRecipe
| to_rateRecipe
| to_getUserRecipes
| to_addToFavorites
| to_removeFromFavorites
| to_getFavoriteRecipes.

Record Route := {
  route_method : Method;
  route_path : list Segment;
  route_middleware : list Middleware;
  route_handler : Handler
}.

Definition router : list Route :=
  [ {| route_method := GET; route_path := [];
       route_middleware := []; route_handler := to_getRecipes |};
    {| route_method := GET; route_path := [Lit "popular"];
       route_middleware := []; route_handler := to_getPopularRecipes |};
    {| route_method := POST; route_path := [];
       route_middleware := [authenticate; upload_single "image"];
       route_handler := to_createRecipe |};
    {| route_method := GET; route_path := [Param "id"];
       route_middleware := []; route_handler := to_getRecipeById |};
    {| route_method := PUT; route_path := [Param "id"];
       route_middleware := [authenticate; upload_single "image"];
       route_handler := to_updateRecipe |};
    {| route_method := DELETE; route_path := [Param "id"];
       route_middleware := [authenticate]; route_handler := to_deleteRecipe |};
    {| route_method := POST; route_path := [Param "id"; Lit "rate"];
       route_middleware := [authenticate]; route_handler := to_rateRecipe |};
    {| route_method := GET; route_path := [Lit "user"; Lit "my-recipes"];
       route_middleware := [authenticate]; route_handler := to_getUserRecipes |};
    {| route_method := POST; route_path := [Param "id"; Lit "favorite"];
       route_middleware := [authenticate]; route_handler := to_addToFavorites |};
    {| route_method := DELETE; route_path := [Param "id"; Lit "favorite"];
       route_middleware := [authenticate];
       route_handler := to_removeFromFavorites |};
    {| route_method := GET; route_path := [Lit "user"; Lit "favorites"];
       route_middleware := [authenticate];
       route_handler := to_getFavoriteRecipes |} ].

Definition lower (c : ascii) : ascii :=
  let n := N_of_ascii c in
  if ((65 <=? n) && (n <=? 90))%N then ascii_of_N (n + 32) else c.

Fixpoint lowercase (s : string) : string :=
  match s with
  | String c s' => String (lower c) (lowercase s')
  | EmptyString => EmptyString
  end.

(** The parameters a path binds when it matches a pattern. *)
Fixpoint match_path (pattern : list Segment) (path : list string)
    : option (list (string * string)) :=
  match pattern, path with
  | [], [] => Some []
  | Lit s :: pattern', segment :: path' =>
      if String.eqb (lowercase segment) (lowercase s)
      then match_path pattern' path'
      else None
  | Param name :: pattern', segment :: path' =>
      if String.eqb segment ""
      then None
      else (λ params, (name, segment) :: params) <$> match_path pattern' path'
  | _, _ => None
  end.

Definition serves (r : Route) (m : Method) : bool :=
  bool_decide (m = route_method r)
  || (bool_decide (m = HEAD) && bool_decide (route_method r = GET)).

(** The first route that takes the request, with [req.params]. *)
Fixpoint dispatch_in (routes : list Route) (m : Method) (path : list string)
    : option (Route * list (string * string)) :=
  match routes with
  | [] => None
  | r :: routes' =>
      if serves r m
      then match match_path (route_path r) path with
           | Some params => Some (r, params)
           | None => dispatch_in routes' m path
           end
      else dispatch_in routes' m path
  end.

Definition dispatch (m : Method) (path : list string)
    : option (Route * list (string * string)) :=
  dispatch_in router m path.

(** What each handler of the controller reads of the request besides the
    body and the query: [req.user], [req.params.id], [req.file]. *)
Definition reads_user (h : Handler) : bool :=
  match h with
  | to_getRecipes | to_getPopularRecipes | to_getRecipeById => false
  | _ => true
  end.

Definition reads_params_id (h : Handler) : bool :=
  match h with
  | to_getRecipeById | to_updateRecipe | to_deleteRecipe | to_rateRecipe
  | to_addToFavorites | to_removeFromFavorites => true
  | _ => false
  end.

Definition reads_file (h : Handler) : bool :=
  match h with
  | to_createRecipe | to_updateRecipe => true
  | _ => false
  end.

(** ** More sample data *)

(** An id check that accepts every string; the ids of the samples are
    24 hexadecimal digits. *)
Definition any_id (id : string) : bool := true.

Definition secret_id : ObjectId := "650000000000000000000002".

(** A recipe alice keeps private. *)
Definition secret : Recipe :=
  {| _id := secret_id;
     title := "Family stew";
     description := "Not for everyone";
     ingredients :=
       [{| ing_name := "beef"; ing_quantity := "500"; ing_unit := "g" |}];
     instructions := [{| stepNumber := 1; instruction := "Stew." |}];
     cookingTime := {| prep := 20; cook := 90 |};
     servings := 4;
     difficulty := "Medium";
     cuisine := "French";
     dietType := "Regular";
     calories := None;
     image := "/uploads/stew.png";
     author := alice;
     ratings := [];
     averageRating := 0%Q;
     totalRatings := 0;
     isPublic := false;
     tags := [];
     nutritionalInfo :=
       {| protein := None; carbs := None; fat := None; fiber := None;
          sugar := None |};
     createdAt := 2000;
     updatedAt := 2000 |}.

Definition pantry : Store :=
  {| recipes := {[ soup_id := soup; secret_id := secret ]};
     users := users kitchen |}.

(** The body [{ "author": <bob> }]. *)
Definition give_to_bob : UpdateBody :=
  {| ub_title := None; ub_description := None; ub_ingredients := Absent;
     ub_instructions := Absent; ub_cookingTime := Absent; ub_servings := None;
     ub_difficulty := None; ub_cuisine := None; ub_dietType := None;
     ub_calories := None; ub_image := None; ub_author := Some bob;
     ub_ratings := None; ub_averageRating := None; ub_totalRatings := None;
     ub_isPublic := None; ub_tags := Absent; ub_nutritionalInfo := Absent |}.



(** Some requests in a row: a rating, a favorite, an empty update by the
    author and a delete attempted by somebody else. *)
Definition busy_day : list Call :=
  [ RateRecipe (bob_rates 4) 2000;
    AddToFavorites (request alice soup_id () no_query None);
    UpdateRecipe (request alice soup_id empty_update no_query None) 3000;
    DeleteRecipe (request bob soup_id () no_query None) ].

(** The cast of a text of 24 hexadecimal digits: the ObjectId whose
    canonical text has these digits, the letters in lower case.  Every
    other text is refused here. *)
Definition hex_digit (c : ascii) : option ascii :=
  let n := nat_of_ascii c in
  if ((48 <=? n) && (n <=? 57))%nat then Some c
  else if ((97 <=? n) && (n <=? 102))%nat then Some c
  else if ((65 <=? n) && (n <=? 70))%nat then Some (ascii_of_nat (n + 32))
  else None.

Fixpoint hex_digits (s : string) : option string :=
  match s with
  | String c s' =>
      match hex_digit c, hex_digits s' with
      | Some c', Some s'' => Some (String c' s'')
      | _, _ => None
      end
  | EmptyString => Some EmptyString
  end.

Definition hex24 (s : string) : option ObjectId :=
  if (String.length s =? 24)%nat then hex_digits s else None.

(** A cast that refuses every text left at a structured path. *)
Definition refused (T : Type) (path s : string) : Exn + T := inl CastError.

(** A recipe whose id has letters, and the same id as a client may spell
    it, in capitals. *)
Definition cake_id : ObjectId := "65b0000000000000000000ca".
Definition CAKE_ID : string := "65B0000000000000000000CA".

Definition cake : Recipe :=
  {| _id := cake_id;
     title := "Lemon cake";
     description := "A plain cake";
     ingredients :=
       [{| ing_name := "lemon"; ing_quantity := "2"; ing_unit := "pieces" |}];
     instructions := [{| stepNumber := 1; instruction := "Bake." |}];
     cookingTime := {| prep := 15; cook := 40 |};
     servings := 8;
     difficulty := "Easy";
     cuisine := "French";
     dietType := "Vegetarian";
     calories := None;
     image := "/uploads/cake.png";
     author := alice;
     ratings := [];
     averageRating := 0%Q;
     totalRatings := 0;
     isPublic := true;
     tags := [];
     nutritionalInfo :=
       {| protein := None; carbs := None; fat := None; fiber := None;
          sugar := None |};
     createdAt := 3000;
     updatedAt := 3000 |}.

(** Bob has the cake among his favorites. *)
Definition bakery : Store :=
  {| recipes := {[ cake_id := cake ]};
     users := {[ bob := {| favoriteRecipes := [cake_id] |} ]} |}.

(** The body [{ "ratings": [...] }] with two entries of bob. *)
Definition twice_rated : UpdateBody :=
  {| ub_title := None; ub_description := None; ub_ingredients := Absent;
     ub_instructions := Absent; ub_cookingTime := Absent; ub_servings := None;
     ub_difficulty := None; ub_cuisine := None; ub_dietType := None;
     ub_calories := None; ub_image := None; ub_author := None;
     ub_ratings :=
       Some [{| user := bob; rating := 3; comment := "" |};
             {| user := alice; rating := 5; comment := "" |};
             {| user := bob; rating := 2; comment := "" |}];
     ub_averageRating := None; ub_totalRatings := None;
     ub_isPublic := None; ub_tags := Absent; ub_nutritionalInfo := Absent |}.

(** The body [{ "tags": "" }]. *)
Definition no_tags : UpdateBody :=
  {| ub_title := None; ub_description := None; ub_ingredients := Absent;
     ub_instructions := Absent; ub_cookingTime := Absent; ub_servings := None;
     ub_difficulty := None; ub_cuisine := None; ub_dietType := None;
     ub_calories := None; ub_image := None; ub_author := None;
     ub_ratings := None; ub_averageRating := None; ub_totalRatings := None;
     ub_isPublic := None; ub_tags := Text ""; ub_nutritionalInfo := Absent |}.

(** The query [?limit=1e1], which the arithmetic reads as 10 and
    [parseInt] as 1. *)
Definition limit_1e1 : Query :=
  {| q_page := None; q_limit := Some {| as_Number := 10; as_parseInt := 1 |};
     q_cuisine := None; q_dietType := None; q_difficulty := None;
     q_minRating := None; q_maxCalories := None; q_maxTime := None;
     q_search := None; q_sortBy := None; q_sortOrder := None |}.

(** ** Properties *)

(** *** Arithmetic of the pagination and of the rating aggregate *)

Lemma Math_ceil_bounds (total limit : Z) :
  0 < limit →
  (Math_ceil (inject_Z total / inject_Z limit) - 1) * limit < total
  ∧ total ≤ Math_ceil (inject_Z total / inject_Z limit) * limit.
Proof.
  intros Hl. destruct limit as [|p|p]; try lia.
  unfold Math_ceil, Qceiling, Qfloor, Qdiv, Qmult, Qinv, Qopp, inject_Z. simpl.
  rewrite Z.mul_1_r, Pos.mul_1_l.
  pose proof (Z.div_mod (- total) (Z.pos p) ltac:(lia)) as Hd.
  pose proof (Z.mod_pos_bound (- total) (Z.pos p) ltac:(lia)) as Hm.
  nia.
Qed.


Lemma skip_limit_sublist (skip n : Z) (l found : list Recipe) :
  skip_limit skip n l = inr found → found `sublist_of` l.
Proof.
  unfold skip_limit. destruct (skip <? 0); [discriminate |].
  intros [= <-]. destruct (n =? 0).
  - apply sublist_drop.
  - etrans; [apply sublist_take | apply sublist_drop].
Qed.




(** *** Creation *)

Lemma pre_save_id (d : RecipeDoc) : d_id (pre_save d) = d_id d.
Proof. unfold pre_save. by destruct (calculateAverageRating (d_ratings d)). Qed.

Lemma pre_save_cookingTime (d : RecipeDoc) :
  d_cookingTime (pre_save d) = d_cookingTime d.
Proof. unfold pre_save. by destruct (calculateAverageRating (d_ratings d)). Qed.

Lemma pre_save_ratings (d : RecipeDoc) : d_ratings (pre_save d) = d_ratings d.
Proof. unfold pre_save. by destruct (calculateAverageRating (d_ratings d)). Qed.

Lemma pre_save_aggregate (d : RecipeDoc) :
  (d_averageRating (pre_save d), d_totalRatings (pre_save d))
  = calculateAverageRating (d_ratings d).
Proof. unfold pre_save. by destruct (calculateAverageRating (d_ratings d)). Qed.

(** A successful [save] validated the document and wrote the result of
    the hook under the document's id. *)
Lemma save_inr (isNew : bool) (d : RecipeDoc) (created now : Z)
    (rs rs' : gmap string Recipe) (r : Recipe) :
  save isNew d created now rs = inr (r, rs') →
  validate d = []
  ∧ r = commit (pre_save d) created now
  ∧ rs' = <[d_id d := r]> rs
  ∧ (isNew = true → rs !! d_id d = None).
Proof.
  unfold save. destruct (validate d); [| discriminate].
  destruct (isNew && bool_decide _) eqn:E; [discriminate |].
  intros [= <- <-]. simpl. rewrite pre_save_id. repeat split; try done.
  intros ->. simpl in E. apply bool_decide_eq_false in E.
  simpl in E. rewrite pre_save_id in E.
  destruct (rs !! d_id d) eqn:El; [| done]. destruct E. eauto.
Qed.

Lemma save_inl_unsaved (isNew : bool) (d : RecipeDoc) (created now : Z)
    (rs : gmap string Recipe) (errs : list string) :
  validate d = errs → errs ≠ [] →
  save isNew d created now rs = inl (ValidationError errs).
Proof. unfold save. intros ->. by destruct errs. Qed.

(** What a [createRecipe] that answers with a recipe has done. *)
Lemma createRecipe_created (st st' : Store) (req : Request CreateBody)
    (new_id : ObjectId) (now : Z) (res : Response) (j : RecipeJSON) :
  createRecipe st req new_id now = (st', res) →
  data res = OneRecipe j →
  ∃ ings instrs tgs nutr ct,
    parsed parse_ingredients (cb_ingredients (body req)) = Some ings
    ∧ parsed parse_instructions (cb_instructions (body req)) = Some instrs
    ∧ parsed parse_tags (cb_tags (body req)) = Some tgs
    ∧ parsed parse_nutritionalInfo (cb_nutritionalInfo (body req)) = Some nutr
    ∧ parsed parse_cookingTimeInput (cb_cookingTime (body req)) = Some ct
    ∧ validate (new_Recipe new_id req ings instrs tgs nutr ct) = []
    ∧ doc j = commit (pre_save (new_Recipe new_id req ings instrs tgs nutr ct)) now now
    ∧ j = toJSON (doc j)
    ∧ res = ok 201 "Recipe created successfully" (OneRecipe j)
    ∧ st' = set_recipes st (<[new_id := doc j]> (recipes st)).
Proof.
  unfold createRecipe.
  destruct (parsed parse_ingredients _) as [ings|] eqn:E1;
    [| by intros [= <- <-]].
  destruct (parsed parse_instructions _) as [instrs|] eqn:E2;
    [| by intros [= <- <-]].
  destruct (parsed parse_tags _) as [tgs|] eqn:E3;
    [| by intros [= <- <-]].
  destruct (parsed parse_nutritionalInfo _) as [nutr|] eqn:E4;
    [| by intros [= <- <-]].
  destruct (parsed parse_cookingTimeInput _) as [ct|] eqn:E5;
    [| by intros [= <- <-]].
  destruct (save true _ now now (recipes st)) as [e | [r rs]] eqn:Es;
    [by intros [= <- <-] |].
  intros [= <- <-] [= <-].
  apply save_inr in Es as (Hv & -> & -> & _).
  exists ings, instrs, tgs, nutr, ct. by repeat split.
Qed.

(** *** Update *)

(** What the paths of a cast update are. *)
Lemma cast_update_inr (b : UpdateBody) (u : Updates) :
  cast_update b = inr u →
  cast_field (cast_text CookingTime "cookingTime") (ub_cookingTime b)
    = inr (u_cookingTime u)
  ∧ cast_author (ub_author b) = inr (u_author u)
  ∧ cast_ratings (ub_ratings b) = inr (u_ratings u)
  ∧ u_title u = trim <$> ub_title b
  ∧ u_servings u = ub_servings b
  ∧ u_difficulty u = ub_difficulty b
  ∧ u_image u = ub_image b
  ∧ u_averageRating u = ub_averageRating b
  ∧ u_totalRatings u = ub_totalRatings b
  ∧ ∃ tgs, cast_field cast_text_tags (ub_tags b) = inr tgs
           ∧ u_tags u = fmap (M := list) trim <$> tgs.
Proof.
  unfold cast_update, mbind, Exn_bind.
  destruct (cast_field _ (ub_ingredients b)) as [?|ings]; [discriminate |].
  destruct (cast_field _ (ub_instructions b)) as [?|instrs]; [discriminate |].
  destruct (cast_field _ (ub_cookingTime b)) as [?|ct]; [discriminate |].
  destruct (cast_field _ (ub_tags b)) as [?|tgs]; [discriminate |].
  destruct (cast_field _ (ub_nutritionalInfo b)) as [?|nutr]; [discriminate |].
  destruct (cast_author (ub_author b)) as [?|a]; [discriminate |].
  destruct (cast_ratings (ub_ratings b)) as [?|rs]; [discriminate |].
  intros [= <-]. repeat split; try done. by exists tgs.
Qed.

Lemma cast_update_Some (b : UpdateBody) (u : Updates) :
  cast_update b = inr u →
  cast_field (cast_text CookingTime "cookingTime") (ub_cookingTime b)
    = inr (u_cookingTime u)
  ∧ cast_ratings (ub_ratings b) = inr (u_ratings u)
  ∧ u_averageRating u = ub_averageRating b
  ∧ u_totalRatings u = ub_totalRatings b.
Proof.
  intros H. apply cast_update_inr in H as (? & _ & ? & _ & _ & _ & _ & ? & ? & _).
  by repeat split.
Qed.

(** What an [updateRecipe] that answers with a recipe has done: the
    stored document is the old one with the paths of the update set, as
    [findByIdAndUpdate] writes it. *)
Lemma updateRecipe_updated (st st' : Store) (req : Request UpdateBody) (now : Z)
    (res : Response) (j : RecipeJSON) :
  updateRecipe st req now = (st', res) →
  data res = OneRecipe j →
  ∃ id recipe ings instrs tgs nutr ct u,
    castObjectId (params_id req) = Some id
    ∧ recipes st !! id = Some recipe
    ∧ author recipe = user_id req
    ∧ reparsed parse_cookingTime (ub_cookingTime (body req)) = Some ct
    ∧ cast_update (spread req ings instrs tgs nutr ct) = inr u
    ∧ update_validators u = []
    ∧ doc j = apply_updates u now recipe
    ∧ j = toJSON (doc j)
    ∧ st' = set_recipes st (<[id := doc j]> (recipes st)).
Proof.
  unfold updateRecipe.
  destruct (castObjectId (params_id req)) as [id|] eqn:Eid;
    [| by intros [= <- <-]].
  destruct (recipes st !! id) as [recipe|] eqn:Er;
    [| by intros [= <- <-]].
  case_bool_decide as Ha; [by intros [= <- <-] |].
  destruct (reparsed parse_ingredients _) as [ings|]; [| by intros [= <- <-]].
  destruct (reparsed parse_instructions _) as [instrs|]; [| by intros [= <- <-]].
  destruct (reparsed parse_tags _) as [tgs|]; [| by intros [= <- <-]].
  destruct (reparsed parse_nutritionalInfo _) as [nutr|]; [| by intros [= <- <-]].
  destruct (reparsed parse_cookingTime _) as [ct|] eqn:Ect; [| by intros [= <- <-]].
  unfold findByIdAndUpdate.
  destruct (cast_update _) as [e|u] eqn:Ec; [by intros [= <- <-] |].
  destruct (update_validators u) eqn:Ev; [| by intros [= <- <-]].
  rewrite Er. intros [= <- <-] [= <-].
  exists id, recipe, ings, instrs, tgs, nutr, ct, u. repeat split; try done.
Qed.

(** The update takes the rating aggregate and the ratings from the body
    when it has them and leaves them as they are otherwise: the aggregate
    is not recomputed on this path. *)
Lemma updateRecipe_aggregate_from_body (st st' : Store) (req : Request UpdateBody)
    (now : Z) (res : Response) (j : RecipeJSON) :
  updateRecipe st req now = (st', res) →
  data res = OneRecipe j →
  ∃ id recipe rated,
    castObjectId (params_id req) = Some id
    ∧ recipes st !! id = Some recipe
    ∧ cast_ratings (ub_ratings (body req)) = inr rated
    ∧ ratings (doc j) = default (ratings recipe) rated
    ∧ averageRating (doc j)
      = default (averageRating recipe) (ub_averageRating (body req))
    ∧ totalRatings (doc j)
      = default (totalRatings recipe) (ub_totalRatings (body req)).
Proof.
  intros Hu Hd.
  destruct (updateRecipe_updated _ _ _ _ _ _ Hu Hd)
    as (id & recipe & ings & instrs & tgs & nutr & ct & u & Hid & Hr & _ & _ & Hc & _
        & -> & _).
  apply cast_update_Some in Hc as (_ & Hrs & Havg & Hn).
  exists id, recipe, (u_ratings u). simpl. rewrite Havg, Hn. by repeat split.
Qed.

(** C8. The [totalTime] a response shows is [cookingTime.prep +
    cookingTime.cook] of the document; the stored document has no such
    field, and the value follows the cooking times given at creation and
    those an update writes.  A recipe created with [{prep: 10, cook: 20}]
    reads 30. *)
Theorem totalTime_is_prep_plus_cook :
  (∀ r : Recipe,
     json_totalTime (toJSON r) = prep (cookingTime r) + cook (cookingTime r))
  ∧ (∀ st st' req new_id now res j p c,
       createRecipe st req new_id now = (st', res) →
       data res = OneRecipe j →
       parsed parse_cookingTimeInput (cb_cookingTime (body req))
         = Some (Some {| in_prep := Some p; in_cook := Some c |}) →
       json_totalTime j = p + c
       ∧ recipes st' !! new_id = Some (doc j))
  ∧ (∀ st st' req now res j ct,
       updateRecipe st req now = (st', res) →
       data res = OneRecipe j →
       reparsed parse_cookingTime (ub_cookingTime (body req)) = Some (Structured ct) →
       json_totalTime j = prep ct + cook ct
       ∧ ∃ id, castObjectId (params_id req) = Some id
               ∧ recipes st' !! id = Some (doc j))
  ∧ (∃ j,
       (createRecipe empty_store
          (request alice "" soup_body no_query (Some "soup.png"%string))
          soup_id 1000).2
         = ok 201 "Recipe created successfully" (OneRecipe j)
       ∧ cookingTime (doc j) = {| prep := 10; cook := 20 |}
       ∧ json_totalTime j = 30).
Proof.
  split; [done |]. split; [| split].
  - intros st st' req new_id now res j p c Hc Hd Hct.
    destruct (createRecipe_created _ _ _ _ _ _ _ Hc Hd)
      as (ings & instrs & tgs & nutr & ct & _ & _ & _ & _ & Ect & _ & Hdoc & Hj & _ & ->).
    rewrite Hct in Ect. injection Ect as <-.
    split.
    + rewrite Hj. unfold toJSON, totalTime; simpl. rewrite Hdoc.
      unfold commit. cbn [cookingTime prep cook].
      rewrite pre_save_cookingTime. reflexivity.
    + simpl. apply lookup_insert_eq.
  - intros st st' req now res j ct Hu Hd Hct.
    destruct (updateRecipe_updated _ _ _ _ _ _ Hu Hd)
      as (id & recipe & ings & instrs & tgs & nutr & ct' & u & Hid & _ & _ & Ect & Hc & _
          & Hdoc & Hj & ->).
    rewrite Hct in Ect. injection Ect as <-.
    apply cast_update_Some in Hc as (Hcast & _). simpl in Hcast.
    injection Hcast as Hcast.
    split.
    + rewrite Hj. unfold toJSON, totalTime; simpl. rewrite Hdoc.
      unfold apply_updates. cbn [cookingTime]. by rewrite <- Hcast.
    + exists id. split; [done |]. simpl. apply lookup_insert_eq.
  - eexists. vm_compute. repeat split; reflexivity.
Qed.


Lemma validate_image_required (d : RecipeDoc) :
  d_image d = ""%string → "Recipe image is required"%string ∈ validate d.
Proof.
  intros Hi. unfold validate. rewrite Hi.
  do 10 (apply elem_of_app; right).
  apply elem_of_app; left. unfold validate_image; simpl. apply list_elem_of_singleton.
  reflexivity.
Qed.

Lemma new_Recipe_without_file (new_id : ObjectId) (req : Request CreateBody)
    ings instrs tgs nutr ct :
  file req = None →
  d_image (new_Recipe new_id req ings instrs tgs nutr ct) = ""%string.
Proof. intros Hf. unfold new_Recipe; simpl. by rewrite Hf. Qed.

(** C9, as amended. A create request without an uploaded file never
    succeeds and persists nothing.  When its serialized fields decode, the
    document is built with the empty string as image and the save fails
    with a validation error that lists the required-image message;
    otherwise the request fails at the decoding. *)
Theorem createRecipe_needs_upload (st : Store) (req : Request CreateBody)
    (new_id : ObjectId) (now : Z) :
  file req = None →
  (createRecipe st req new_id now).1 = st
  ∧ success (createRecipe st req new_id now).2 = false
  ∧ status (createRecipe st req new_id now).2 = 500
  ∧ ((decodes (body req)
      ∧ (∀ ings instrs tgs nutr ct,
           d_image (new_Recipe new_id req ings instrs tgs nutr ct) = ""%string)
      ∧ ∃ errs,
          error (createRecipe st req new_id now).2 = Some (ValidationError errs)
          ∧ "Recipe image is required"%string ∈ errs)
     ∨ (¬ decodes (body req)
        ∧ error (createRecipe st req new_id now).2 = Some SyntaxError)).
Proof.
  intros Hf. unfold createRecipe, decodes.
  destruct (parsed parse_ingredients _) as [ings|];
    [| repeat split; try done; right; split; [intros ([? [=]] & _) | done]].
  destruct (parsed parse_instructions _) as [instrs|];
    [| repeat split; try done; right; split; [intros (_ & [? [=]] & _) | done]].
  destruct (parsed parse_tags _) as [tgs|];
    [| repeat split; try done; right; split; [intros (_ & _ & [? [=]] & _) | done]].
  destruct (parsed parse_nutritionalInfo _) as [nutr|];
    [| repeat split; try done; right; split;
       [intros (_ & _ & _ & [? [=]] & _) | done]].
  destruct (parsed parse_cookingTimeInput _) as [ct|];
    [| repeat split; try done; right; split;
       [intros (_ & _ & _ & _ & [? [=]]) | done]].
  pose proof (validate_image_required (new_Recipe new_id req ings instrs tgs nutr ct)
                (new_Recipe_without_file new_id req ings instrs tgs nutr ct Hf)) as Hin.
  rewrite (save_inl_unsaved true _ now now (recipes st) _ eq_refl);
    [| by intros E; rewrite E in Hin; apply elem_of_nil in Hin].
  repeat split; try done. left. repeat split; eauto.
  intros. by apply new_Recipe_without_file.
Qed.

(** *** The rating upsert *)

Lemma upsertRating_cons (entry x : Rating) (rs : list Rating) :
  upsertRating entry (x :: rs)
  = if decide (user x = user entry) then entry :: rs
    else x :: upsertRating entry rs.
Proof.
  unfold upsertRating, findIndex. simpl.
  case_decide; simpl; [done |].
  by destruct (list_find _ rs) as [[i y]|].
Qed.

Lemma upsertRating_nil (entry : Rating) : upsertRating entry [] = [entry].
Proof. reflexivity. Qed.

(** The rater has an entry, the first one at index [i]: it is replaced
    there. *)
Lemma upsertRating_replaces (entry old : Rating) (rs : list Rating) (i : nat) :
  rs !! i = Some old →
  user old = user entry →
  (∀ j o, rs !! j = Some o → (j < i)%nat → user o ≠ user entry) →
  upsertRating entry rs = <[i := entry]> rs.
Proof.
  revert i. induction rs as [|x rs IH]; intros i Hi Hu Hfirst; [done |].
  rewrite upsertRating_cons. destruct i as [|i]; simpl in *.
  - injection Hi as ->. by rewrite decide_True.
  - rewrite decide_False; [| by apply (Hfirst 0%nat); [| lia]].
    f_equal. apply IH; [done | done |].
    intros j o Hj Hlt. apply (Hfirst (S j)); [done | lia].
Qed.

(** The rater has no entry: the new one goes to the end. *)
Lemma upsertRating_appends (entry : Rating) (rs : list Rating) :
  (∀ o, o ∈ rs → user o ≠ user entry) →
  upsertRating entry rs = rs ++ [entry].
Proof.
  induction rs as [|x rs IH]; intros Hno; [done |].
  rewrite upsertRating_cons, decide_False; [| apply Hno; left].
  simpl. f_equal. apply IH. intros o Ho. apply Hno. by right.
Qed.

Lemma upsertRating_entries (entry : Rating) (rs : list Rating) :
  (length (entries_of (user entry) rs) ≤ 1)%nat →
  entries_of (user entry) (upsertRating entry rs) = [entry].
Proof.
  unfold entries_of. induction rs as [|x rs IH]; intros Hle.
  - by rewrite upsertRating_nil, filter_cons, decide_True.
  - rewrite upsertRating_cons. rewrite filter_cons in Hle. case_decide.
    + simpl in Hle. rewrite filter_cons, decide_True by done.
      f_equal. apply nil_length_inv. lia.
    + rewrite filter_cons, decide_False by done. by apply IH.
Qed.

(** The entries of the other raters stay, in their order. *)
Lemma upsertRating_others (entry : Rating) (rs : list Rating) (uid : ObjectId) :
  uid ≠ user entry →
  entries_of uid (upsertRating entry rs) = entries_of uid rs.
Proof.
  intros Hne. unfold entries_of. induction rs as [|x rs IH].
  - by rewrite upsertRating_nil, filter_cons, decide_False.
  - rewrite upsertRating_cons. case_decide as Hx.
    + rewrite !filter_cons, !decide_False; [done | congruence | congruence].
    + rewrite !filter_cons. case_decide; by rewrite IH.
Qed.


(** What a [rateRecipe] that answers with a recipe has done. *)
Lemma rateRecipe_rated (st st' : Store) (req : Request RateBody) (now : Z)
    (res : Response) (j : RecipeJSON) :
  rateRecipe st req now = (st', res) →
  data res = OneRecipe j →
  ∃ id recipe value,
    castObjectId (params_id req) = Some id
    ∧ recipes st !! id = Some recipe
    ∧ rb_rating (body req) = Some value
    ∧ ratings (doc j) = upsertRating (rating_entry req value) (ratings recipe)
    ∧ (averageRating (doc j), totalRatings (doc j))
      = calculateAverageRating (ratings (doc j))
    ∧ _id (doc j) = _id recipe
    ∧ j = toJSON (doc j)
    ∧ res = ok 200 "Recipe rated successfully" (OneRecipe j)
    ∧ st' = set_recipes st (<[_id recipe := doc j]> (recipes st)).
Proof.
  unfold rateRecipe.
  destruct (castObjectId (params_id req)) as [id|] eqn:Eid;
    [| by intros [= <- <-]].
  destruct (recipes st !! id) as [recipe|] eqn:Er;
    [| by intros [= <- <-]].
  destruct (rb_rating (body req)) as [value|] eqn:Ev;
    [| by intros [= <- <-]].
  destruct (save false _ (createdAt recipe) now (recipes st)) as [e | [r rs]] eqn:Es;
    [by intros [= <- <-] |].
  intros [= <- <-] [= <-].
  apply save_inr in Es as (Hv & -> & -> & _).
  exists id, recipe, value. simpl.
  rewrite pre_save_ratings, pre_save_id. simpl.
  repeat split; try done.
  apply pre_save_aggregate.
Qed.

(** A valid rating of a valid stored recipe is accepted. *)
Lemma rateRecipe_accepts (st : Store) (req : Request RateBody) (now : Z)
    (id : ObjectId) (recipe : Recipe) (value : Z) :
  castObjectId (params_id req) = Some id →
  recipes st !! id = Some recipe →
  rb_rating (body req) = Some value →
  validate (toDoc (set_ratings recipe
              (upsertRating (rating_entry req value) (ratings recipe)))) = [] →
  ∃ j, (rateRecipe st req now).2
       = ok 200 "Recipe rated successfully" (OneRecipe j).
Proof.
  intros Hid Hr Hv Hval. unfold rateRecipe. rewrite Hid, Hr, Hv.
  unfold save. fold (rating_entry req value). rewrite Hval. simpl. eauto.
Qed.

Lemma rateRecipe_single (st st' : Store) (req : Request RateBody) (now : Z)
    (res : Response) (j : RecipeJSON) (id : ObjectId) (recipe : Recipe) :
  wf_store st →
  castObjectId (params_id req) = Some id →
  recipes st !! id = Some recipe →
  rateRecipe st req now = (st', res) →
  data res = OneRecipe j →
  ∃ value,
    rb_rating (body req) = Some value
    ∧ recipes st' !! id = Some (doc j)
    ∧ ratings (doc j) = upsertRating (rating_entry req value) (ratings recipe)
    ∧ wf_store st'.
Proof.
  intros Hwf Hc Hr Hrate Hd.
  destruct (rateRecipe_rated _ _ _ _ _ _ Hrate Hd)
    as (id' & recipe' & value & Hc' & Hr' & Hv & Hrs & _ & Hid & _ & _ & ->).
  rewrite Hc in Hc'. injection Hc' as <-.
  rewrite Hr in Hr'. injection Hr' as <-.
  pose proof (Hwf _ _ Hr) as Hkey. simpl in Hkey.
  exists value. rewrite Hkey. simpl. repeat split; try done.
  - apply lookup_insert_eq.
  - unfold wf_store. simpl. apply map_Forall_insert_2; [congruence | done].
Qed.

(** C2, as amended. [rateRecipe] is an upsert keyed on the rater.  A
    rating that is accepted replaces the rater's entry at its position in
    the array when there is one (the first, should there be several), and
    is appended otherwise; the entries of the other raters stay.  Rating
    twice by the same user, on a recipe where this user had at most one
    entry, leaves exactly one entry of the user, with the latest value. *)
Theorem rateRecipe_upsert :
  (∀ st st' req now res j id recipe,
     wf_store st →
     castObjectId (params_id req) = Some id →
     recipes st !! id = Some recipe →
     rateRecipe st req now = (st', res) →
     data res = OneRecipe j →
     ∃ value,
       rb_rating (body req) = Some value
       ∧ recipes st' !! id = Some (doc j)
       ∧ (∀ i old,
            ratings recipe !! i = Some old →
            user old = user_id req →
            (∀ k o, ratings recipe !! k = Some o → (k < i)%nat → user o ≠ user_id req) →
            ratings (doc j) = <[i := rating_entry req value]> (ratings recipe))
       ∧ ((∀ o, o ∈ ratings recipe → user o ≠ user_id req) →
          ratings (doc j) = ratings recipe ++ [rating_entry req value])
       ∧ (∀ uid, uid ≠ user_id req →
            entries_of uid (ratings (doc j)) = entries_of uid (ratings recipe)))
  ∧ (∀ st req1 req2 now1 now2 id recipe j1 j2,
       wf_store st →
       castObjectId (params_id req1) = Some id →
       recipes st !! id = Some recipe →
       castObjectId (params_id req2) = Some id →
       user_id req2 = user_id req1 →
       (length (entries_of (user_id req1) (ratings recipe)) ≤ 1)%nat →
       data (rateRecipe st req1 now1).2 = OneRecipe j1 →
       data (rateRecipe (rateRecipe st req1 now1).1 req2 now2).2 = OneRecipe j2 →
       ∃ value2,
         rb_rating (body req2) = Some value2
         ∧ recipes (rateRecipe (rateRecipe st req1 now1).1 req2 now2).1
             !! id = Some (doc j2)
         ∧ entries_of (user_id req1) (ratings (doc j2)) = [rating_entry req2 value2]
         ∧ rating (rating_entry req2 value2) = value2).
Proof.
  split.
  - intros st st' req now res j id recipe Hwf Hc Hr Hrate Hd.
    destruct (rateRecipe_single _ _ _ _ _ _ _ _ Hwf Hc Hr Hrate Hd)
      as (value & Hv & Hst & Hrs & _).
    exists value. rewrite Hrs. repeat split; try done.
    + intros i old Hi Hu Hfirst. by eapply upsertRating_replaces.
    + intros Hno. by apply upsertRating_appends.
    + intros uid Hne. by apply upsertRating_others.
  - intros st req1 req2 now1 now2 id recipe j1 j2 Hwf Hc1 Hr Hc2 Hu Hle Hd1 Hd2.
    destruct (rateRecipe st req1 now1) as [st1 res1] eqn:E1. simpl in *.
    destruct (rateRecipe st1 req2 now2) as [st2 res2] eqn:E2. simpl in *.
    destruct (rateRecipe_single _ _ _ _ _ _ _ _ Hwf Hc1 Hr E1 Hd1)
      as (value1 & _ & Hst1 & Hrs1 & Hwf1).
    destruct (rateRecipe_single _ _ _ _ _ _ _ _ Hwf1 Hc2 Hst1 E2 Hd2)
      as (value2 & Hv2 & Hst2 & Hrs2 & _).
    exists value2. repeat split; try done.
    rewrite Hrs2.
    replace (user_id req1) with (user (rating_entry req2 value2)) by done.
    apply upsertRating_entries. simpl. rewrite Hu, Hrs1.
    replace (user_id req1) with (user (rating_entry req1 value1)) by done.
    rewrite upsertRating_entries; [done |]. by simpl.
Qed.

(** *** Favorites *)


Lemma without_absent (id : ObjectId) (favorites : list ObjectId) :
  id ∉ favorites → without id favorites = favorites.
Proof.
  unfold without. induction favorites as [|x l IH]; intros Hn; [done |].
  rewrite filter_cons, decide_True.
  - f_equal. apply IH. intros Hin. apply Hn. by right.
  - intros ->. apply Hn. left.
Qed.

Lemma without_gone (id : ObjectId) (favorites : list ObjectId) :
  id ∉ without id favorites.
Proof. unfold without. rewrite list_elem_of_filter. intros [Hne _]. by apply Hne. Qed.



(** What [addToFavorites] does for a user of the store once the text of
    the request is cast to the id of a stored recipe: it answers with
    Conflict, and changes nothing, when the text as sent is among the
    references of the user; otherwise it succeeds and the user has the
    cast id appended, the other users and the recipes being as before. *)
Lemma addToFavorites_answers (st : Store) (req : Request unit) (id : ObjectId)
    (u : User) :
  castObjectId (params_id req) = Some id →
  is_Some (recipes st !! id) →
  users st !! user_id req = Some u →
  (params_id req ∈ favoriteRecipes u →
   Conflict (addToFavorites st req).2 ∧ (addToFavorites st req).1 = st)
  ∧ (params_id req ∉ favoriteRecipes u →
     success (addToFavorites st req).2 = true
     ∧ users (addToFavorites st req).1 !! user_id req
       = Some {| favoriteRecipes := favoriteRecipes u ++ [id] |}
     ∧ (∀ other, other ≠ user_id req →
          users (addToFavorites st req).1 !! other = users st !! other)
     ∧ recipes (addToFavorites st req).1 = recipes st).
Proof.
  intros Hid [r Hr] Hu. unfold addToFavorites. rewrite Hid, Hr, Hu. split.
  - intros Hin. rewrite bool_decide_eq_true_2 by done. by repeat split.
  - intros Hin. rewrite bool_decide_eq_false_2 by done. simpl.
    split; [done |]. split; [apply lookup_insert_eq |]. split; [| done].
    intros other Hne. by apply lookup_insert_ne.
Qed.

(** A request that fails on the id, because the cast throws or no recipe
    has the id, changes nothing. *)
Lemma addToFavorites_without_recipe (st : Store) (req : Request unit) :
  (castObjectId (params_id req) = None →
   status (addToFavorites st req).2 = 500 ∧ (addToFavorites st req).1 = st)
  ∧ (∀ id, castObjectId (params_id req) = Some id → recipes st !! id = None →
       NotFound (addToFavorites st req).2 ∧ (addToFavorites st req).1 = st).
Proof.
  unfold addToFavorites. split.
  - by intros ->.
  - intros id -> ->. by repeat split.
Qed.

Lemma addToFavorites_keeps_distinct (st : Store) (req : Request unit) :
  canonical (params_id req) →
  favorites_distinct st → favorites_distinct (addToFavorites st req).1.
Proof.
  intros Hcan Hd. unfold addToFavorites.
  destruct (castObjectId (params_id req)) as [id|] eqn:Eid; [| done].
  destruct (recipes st !! id); [| done].
  destruct (users st !! user_id req) as [u|] eqn:Eu; [| done].
  case_bool_decide as Hin; [done |].
  rewrite (Hcan _ Eid).
  unfold favorites_distinct. simpl. apply map_Forall_insert_2; [| done].
  simpl. apply NoDup_app. repeat split.
  - by apply (Hd _ _ Eu).
  - intros x Hx Hx'. apply list_elem_of_singleton in Hx'. by subst.
  - apply NoDup_singleton.
Qed.

Lemma removeFromFavorites_keeps_distinct (st : Store) (req : Request unit) :
  favorites_distinct st → favorites_distinct (removeFromFavorites st req).1.
Proof.
  intros Hd. unfold removeFromFavorites.
  destruct (users st !! user_id req) as [u|] eqn:Eu; [| done].
  unfold favorites_distinct. simpl. apply map_Forall_insert_2; [| done].
  simpl. apply NoDup_filter. by apply (Hd _ _ Eu).
Qed.


(** *** Ownership *)

(** C5. On a recipe of the store, a caller who is not its author gets
    Forbidden from [updateRecipe], whatever the body and the uploaded
    file, and from [deleteRecipe], in whatever spelling the request
    carries the id of the recipe; the store, and so the recipe, is
    unchanged. *)
Theorem non_author_forbidden (st : Store) (id caller : ObjectId) (recipe : Recipe) :
  recipes st !! id = Some recipe →
  author recipe ≠ caller →
  (∀ (req : Request UpdateBody) (now : Z),
     castObjectId (params_id req) = Some id → user_id req = caller →
     Forbidden (updateRecipe st req now).2
     ∧ (updateRecipe st req now).1 = st
     ∧ recipes (updateRecipe st req now).1 !! id = Some recipe)
  ∧ (∀ req : Request unit,
       castObjectId (params_id req) = Some id → user_id req = caller →
       Forbidden (deleteRecipe st req).2
       ∧ (deleteRecipe st req).1 = st
       ∧ recipes (deleteRecipe st req).1 !! id = Some recipe).
Proof.
  intros Hr Hne. split.
  - intros req now Hid Hu. unfold updateRecipe.
    rewrite Hid, Hr, Hu, bool_decide_eq_true_2 by done. by repeat split.
  - intros req Hid Hu. unfold deleteRecipe.
    rewrite Hid, Hr, Hu, bool_decide_eq_true_2 by done. by repeat split.
Qed.

(** *** Listing *)

Lemma find_elem_of (matches : Recipe → bool) (rs : gmap string Recipe) (r : Recipe) :
  r ∈ find matches rs ↔ matches r = true ∧ ∃ id, rs !! id = Some r.
Proof.
  unfold find. rewrite list_elem_of_filter, list_elem_of_fmap. split.
  - intros [Hm ([id r'] & -> & Hin)]. apply elem_of_map_to_list in Hin.
    split; [by apply Is_true_true | eauto].
  - intros [Hm [id Hin]]. split; [by apply Is_true_true |].
    exists (id, r). split; [done |]. by apply elem_of_map_to_list.
Qed.

Lemma sort_elem_of (path : string) (direction : Z) (l : list Recipe) (r : Recipe) :
  r ∈ sort path direction l ↔ r ∈ l.
Proof. unfold sort. by rewrite merge_sort_Permutation. Qed.

Lemma recipes_filter_public (q : Query) (r : Recipe) :
  recipes_filter q r = true → isPublic r = true.
Proof.
  unfold recipes_filter. intros H.
  repeat (apply andb_prop in H as [H _]). done.
Qed.

Lemma recipes_filter_maxTime (q : Query) (r : Recipe) (m : Z) :
  recipes_filter q r = true →
  q_maxTime q = Some m →
  prep (cookingTime r) + cook (cookingTime r) ≤ m.
Proof.
  unfold recipes_filter. intros H Hm. rewrite Hm in H.
  apply andb_prop in H as [H _]. apply andb_prop in H as [_ H]. lia.
Qed.

(** C7. Every recipe [getRecipes] returns is a public recipe of the
    store, and with a [maxTime] filter its [cookingTime.prep +
    cookingTime.cook] is at most [maxTime].  A recipe with prep 10 and
    cook 20 does not pass the filter of [maxTime=25] and a public one
    passes that of [maxTime=30]; with the soup as the only recipe, the
    first listing is empty and the second returns the soup. *)
Theorem getRecipes_public_within_maxTime :
  (∀ st req found pg,
     getRecipes st req = ok 200 "" (Page found pg) →
     ∀ r, r ∈ found →
       isPublic r = true
       ∧ (∃ id, recipes st !! id = Some r)
       ∧ ∀ m, q_maxTime (query req) = Some m →
              prep (cookingTime r) + cook (cookingTime r) ≤ m)
  ∧ (∀ r, cookingTime r = {| prep := 10; cook := 20 |} →
       recipes_filter (max_time 25) r = false
       ∧ recipes_filter (max_time 30) r = isPublic r)
  ∧ (∃ pg, getRecipes kitchen (request bob "" () (max_time 25) None)
           = ok 200 "" (Page [] pg))
  ∧ (∃ pg, getRecipes kitchen (request bob "" () (max_time 30) None)
           = ok 200 "" (Page [soup] pg)).
Proof.
  split; [| split; [| split]].
  - intros st req found pg. unfold getRecipes.
    destruct (skip_limit _ _ _) as [e | found'] eqn:Es; [discriminate |].
    intros [= <- _] r Hr.
    apply skip_limit_sublist in Es.
    pose proof (elem_of_sublist _ _ _ Hr Es) as Hin.
    apply sort_elem_of, find_elem_of in Hin as [Hm Hst].
    split; [by eapply recipes_filter_public |]. split; [done |].
    intros m Hq. by eapply recipes_filter_maxTime.
  - intros r Hct. unfold recipes_filter. simpl. rewrite Hct.
    by destruct (isPublic r).
  - eexists. vm_compute. reflexivity.
  - eexists. vm_compute. reflexivity.
Qed.

Lemma sort_order_createdAt_desc (a b : Recipe) :
  sort_order "createdAt" (-1) a b ↔ newest_first a b.
Proof.
  unfold sort_order, sort_key, newest_first. simpl.
  rewrite Is_true_true. apply Z.leb_le.
Qed.

#[local] Instance sort_order_createdAt_total : Total (sort_order "createdAt" (-1)).
Proof.
  intros a b. rewrite !sort_order_createdAt_desc. unfold newest_first. lia.
Qed.

#[local] Instance sort_order_createdAt_trans : Transitive (sort_order "createdAt" (-1)).
Proof.
  intros a b c. rewrite !sort_order_createdAt_desc. unfold newest_first. lia.
Qed.




(** *** The rating aggregate *)

Lemma ratings_total_sum (rs : list Rating) :
  ratings_total rs = ratings_sum rs.
Proof.
  unfold ratings_total, ratings_sum.
  assert (∀ acc, foldl (λ sum r, sum + rating r) acc rs
                 = acc + foldr (λ r acc, rating r + acc) 0 rs) as H.
  { induction rs as [|x rs IH]; intros acc; simpl; [lia |]. rewrite IH. lia. }
  rewrite H. lia.
Qed.

Lemma Math_round_nearest (x : Q) :
  (x - (1 # 2) < inject_Z (Math_round x))%Q ∧ (inject_Z (Math_round x) <= x + (1 # 2))%Q.
Proof.
  unfold Math_round.
  pose proof (Qfloor_le (x + (1 # 2))) as Hle.
  pose proof (Qlt_floor (x + (1 # 2))) as Hlt.
  rewrite inject_Z_plus in Hlt. split; [| done].
  change (inject_Z 1) with 1%Q in Hlt. lra.
Qed.

(** What [calculateAverageRating] assigns is the rounded mean and the
    count. *)
Lemma calculateAverageRating_rounded_mean (rs : list Rating) :
  (calculateAverageRating rs).2 = Z.of_nat (length rs)
  ∧ match rs with
    | [] => ((calculateAverageRating rs).1 == 0)%Q
    | _ => rounded_to_1_decimal (ratings_mean rs) (calculateAverageRating rs).1
    end.
Proof.
  unfold calculateAverageRating. destruct rs as [|x rs]; [done |].
  rewrite bool_decide_eq_false_2 by done.
  split; [done |]. unfold fst, snd, rounded_to_1_decimal, ratings_mean.
  rewrite <- ratings_total_sum.
  set (m := (inject_Z (ratings_total (x :: rs))
             / inject_Z (Z.of_nat (length (x :: rs))))%Q).
  exists (Math_round (m * 10)). split; [reflexivity |].
  destruct (Math_round_nearest (m * 10)) as [Hlo Hhi].
  clearbody m. revert Hlo Hhi.
  generalize (inject_Z (Math_round (m * 10))). intros k Hlo Hhi.
  unfold Qdiv. change (/ 10)%Q with (1 # 10)%Q. split; lra.
Qed.

(** Three ratings 5, 4 and 3 give 4.0 and 3. *)
Lemma calculateAverageRating_example :
  ((calculateAverageRating three_ratings).1 == 4)%Q
  ∧ (calculateAverageRating three_ratings).2 = 3.
Proof. split; reflexivity. Qed.



(** ** Further properties of the handlers *)

(** *** Creation, reading back and deletion *)

Lemma createRecipe_fresh (st st' : Store) (req : Request CreateBody)
    (new_id : ObjectId) (now : Z) (res : Response) (j : RecipeJSON) :
  createRecipe st req new_id now = (st', res) →
  data res = OneRecipe j →
  recipes st !! new_id = None.
Proof.
  unfold createRecipe.
  repeat (match goal with
          | |- context [match parsed ?p ?f with _ => _ end] =>
              destruct (parsed p f)
          end; [| by intros [= <- <-]]).
  destruct (save true _ now now (recipes st)) as [e | [r rs]] eqn:Es;
    [by intros [= <- <-] |].
  intros _ _. apply save_inr in Es as (_ & _ & _ & Hnew). by apply Hnew.
Qed.

Lemma createRecipe_store (st : Store) (req : Request CreateBody)
    (new_id : ObjectId) (now : Z) :
  (createRecipe st req new_id now).1 = st
  ∨ (recipes st !! new_id = None
     ∧ ∃ r, (createRecipe st req new_id now).1
            = set_recipes st (<[new_id := r]> (recipes st))).
Proof.
  unfold createRecipe.
  repeat (match goal with
          | |- context [match parsed ?p ?f with _ => _ end] =>
              destruct (parsed p f)
          end; [| by left]).
  destruct (save true _ now now (recipes st)) as [e | [r rs]] eqn:Es; [by left |].
  right. apply save_inr in Es as (_ & _ & -> & Hnew). simpl.
  split; [by apply Hnew | eauto].
Qed.

(** X1. A recipe [createRecipe] answers with is stored under the new id and
    [getRecipeById] serves it as it was answered, to a request that
    carries a valid text of this id; it belongs to the caller, is public
    and has no rating, whatever the body says. *)
Theorem createRecipe_then_getRecipeById (st st' : Store) (req : Request CreateBody)
    (new_id : ObjectId) (now : Z) (res : Response) (j : RecipeJSON) :
  createRecipe st req new_id now = (st', res) →
  data res = OneRecipe j →
  (∀ get : Request unit,
     isValid (params_id get) = true →
     castObjectId (params_id get) = Some new_id →
     getRecipeById st' get = ok 200 "" (OneRecipe j))
  ∧ _id (doc j) = new_id
  ∧ author (doc j) = user_id req
  ∧ isPublic (doc j) = true
  ∧ ratings (doc j) = []
  ∧ averageRating (doc j) = 0%Q
  ∧ totalRatings (doc j) = 0
  ∧ createdAt (doc j) = now.
Proof.
  intros Hc Hd.
  destruct (createRecipe_created _ _ _ _ _ _ _ Hc Hd)
    as (ings & instrs & tgs & nutr & ct & _ & _ & _ & _ & _ & _ & Hdoc & Hj & _ & ->).
  split.
  - intros get Hv Hid. unfold getRecipeById. rewrite Hv, Hid. simpl.
    rewrite lookup_insert_eq. by rewrite <- Hj.
  - rewrite Hdoc. unfold commit, pre_save. simpl. done.
Qed.

(** X2. [createRecipe] never changes or removes a stored recipe and never
    touches the users: all it can do to the store is add one recipe under
    an id that was free. *)
Theorem createRecipe_only_adds (st : Store) (req : Request CreateBody)
    (new_id : ObjectId) (now : Z) :
  users (createRecipe st req new_id now).1 = users st
  ∧ (∀ id r, recipes st !! id = Some r →
       recipes (createRecipe st req new_id now).1 !! id = Some r)
  ∧ (∀ id, id ≠ new_id →
       recipes (createRecipe st req new_id now).1 !! id = recipes st !! id)
  ∧ (is_Some (recipes st !! new_id) →
     (createRecipe st req new_id now).1 = st
     ∧ success (createRecipe st req new_id now).2 = false).
Proof.
  split; [| split; [| split]].
  - destruct (createRecipe_store st req new_id now) as [-> | (_ & r & ->)]; done.
  - intros id r Hr.
    destruct (createRecipe_store st req new_id now) as [-> | (Hfree & r' & ->)];
      [done |].
    simpl. rewrite lookup_insert_ne; [done | congruence].
  - intros id Hne.
    destruct (createRecipe_store st req new_id now) as [-> | (_ & r & ->)]; [done |].
    simpl. by rewrite lookup_insert_ne.
  - intros Htaken. unfold createRecipe.
    repeat (match goal with
            | |- context [match parsed ?p ?f with _ => _ end] =>
                destruct (parsed p f)
            end; [| done]).
    unfold save. destruct (validate _); [| done].
    cbn [_id commit andb]. rewrite pre_save_id. cbn [d_id new_Recipe].
    by rewrite bool_decide_eq_true_2.
Qed.


Lemma sort_by_elem_of (spec : list (string * Z)) (l : list Recipe) (r : Recipe) :
  r ∈ sort_by spec l ↔ r ∈ l.
Proof. unfold sort_by. by rewrite merge_sort_Permutation. Qed.

Lemma limit_to_sublist (n : Z) (l : list Recipe) : limit_to n l `sublist_of` l.
Proof. unfold limit_to. destruct (n =? 0); [done | apply sublist_take]. Qed.

(** X3. A recipe that is not public is on no page of the public listing and
    not among the popular recipes, but [getRecipeById] serves it to every
    caller who sends a valid text of its id: that handler does not look
    at [isPublic]. *)
Theorem private_recipe_served_by_id (st : Store) (id : ObjectId) (r : Recipe) :
  recipes st !! id = Some r →
  isPublic r = false →
  (∀ get : Request unit,
     isValid (params_id get) = true →
     castObjectId (params_id get) = Some id →
     getRecipeById st get = ok 200 "" (OneRecipe (toJSON r)))
  ∧ (∀ (req : Request unit) found pg,
       getRecipes st req = ok 200 "" (Page found pg) → r ∉ found)
  ∧ (∀ req : Request unit, r ∉ listing_recipes (getPopularRecipes st req)).
Proof.
  intros Hr Hp. split; [| split].
  - intros get Hv Hid. unfold getRecipeById. by rewrite Hv, Hid, Hr.
  - intros req found pg. unfold getRecipes.
    destruct (skip_limit _ _ _) as [e | found'] eqn:Es; [discriminate |].
    intros [= <- _] Hin. apply skip_limit_sublist in Es.
    pose proof (elem_of_sublist _ _ _ Hin Es) as Hin'.
    apply sort_elem_of, find_elem_of in Hin' as [Hm _].
    apply recipes_filter_public in Hm. congruence.
  - intros req Hin. unfold getPopularRecipes in Hin. simpl in Hin.
    pose proof (elem_of_sublist _ _ _ Hin (limit_to_sublist _ _)) as Hin'.
    apply sort_by_elem_of, find_elem_of in Hin' as [Hm _]. congruence.
Qed.

(** X4. The author deletes a recipe: the recipe is gone and [getRecipeById]
    answers NotFound for every valid text of its id; the other recipes stay, and so do the
    users, references to the deleted recipe among their favorites
    included; deleting again answers NotFound. *)
Theorem deleteRecipe_by_author (st : Store) (req : Request unit) (id : ObjectId)
    (recipe : Recipe) :
  castObjectId (params_id req) = Some id →
  recipes st !! id = Some recipe →
  author recipe = user_id req →
  success (deleteRecipe st req).2 = true
  ∧ recipes (deleteRecipe st req).1 !! id = None
  ∧ (∀ other, other ≠ id →
       recipes (deleteRecipe st req).1 !! other = recipes st !! other)
  ∧ users (deleteRecipe st req).1 = users st
  ∧ (∀ get : Request unit,
       isValid (params_id get) = true →
       castObjectId (params_id get) = Some id →
       NotFound (getRecipeById (deleteRecipe st req).1 get))
  ∧ NotFound (deleteRecipe (deleteRecipe st req).1 req).2.
Proof.
  intros Hid Hr Ha. unfold deleteRecipe at 1 2 3 4 5 7.
  rewrite Hid, Hr, bool_decide_eq_false_2 by (intros Hne; by apply Hne). simpl.
  split; [done |]. split; [apply lookup_delete_eq |].
  split; [intros other Hne; by apply lookup_delete_ne |]. split; [done |].
  split.
  - intros get Hv Hget. unfold getRecipeById. rewrite Hv, Hget. simpl.
    by rewrite lookup_delete_eq.
  - unfold deleteRecipe. rewrite Hid. simpl. by rewrite lookup_delete_eq.
Qed.

(** X5. A favorite of a deleted recipe: the user still has the reference, yet
    [addToFavorites] for this id now answers NotFound and not Conflict;
    [removeFromFavorites] still takes the reference out. *)
Theorem favorite_of_deleted_recipe (st : Store) (del fav : Request unit)
    (id : ObjectId) (recipe : Recipe) (u : User) :
  castObjectId (params_id del) = Some id →
  recipes st !! id = Some recipe →
  author recipe = user_id del →
  users st !! user_id fav = Some u →
  castObjectId (params_id fav) = Some id →
  params_id fav ∈ favoriteRecipes u →
  users (deleteRecipe st del).1 !! user_id fav = Some u
  ∧ NotFound (addToFavorites (deleteRecipe st del).1 fav).2
  ∧ (addToFavorites (deleteRecipe st del).1 fav).1 = (deleteRecipe st del).1
  ∧ success (removeFromFavorites (deleteRecipe st del).1 fav).2 = true
  ∧ ∃ u',
      users (removeFromFavorites (deleteRecipe st del).1 fav).1 !! user_id fav
        = Some u'
      ∧ params_id fav ∉ favoriteRecipes u'.
Proof.
  intros Hdel Hr Ha Hu Hid Hin. unfold deleteRecipe.
  rewrite Hdel, Hr, bool_decide_eq_false_2 by (intros Hne; by apply Hne). simpl.
  split; [done |].
  unfold addToFavorites, removeFromFavorites. simpl.
  rewrite Hid, lookup_delete_eq, Hu. simpl.
  repeat split; try done.
  eexists. split; [apply lookup_insert_eq |]. simpl. apply without_gone.
Qed.

(** X6. When the request carries the id of a stored recipe in its canonical
    text, the text the cast gives back as it is, adding a favorite that
    was not there and removing it again gives back the store as it was. *)
Theorem addToFavorites_then_remove (st : Store) (req : Request unit) (u : User) :
  users st !! user_id req = Some u →
  castObjectId (params_id req) = Some (params_id req) →
  is_Some (recipes st !! params_id req) →
  params_id req ∉ favoriteRecipes u →
  success (addToFavorites st req).2 = true
  ∧ (removeFromFavorites (addToFavorites st req).1 req).1 = st.
Proof.
  intros Hu Hid [r Hr] Hn. unfold addToFavorites.
  rewrite Hid, Hr, Hu, bool_decide_eq_false_2 by done. simpl. split; [done |].
  unfold removeFromFavorites. simpl. rewrite lookup_insert_eq. simpl.
  rewrite filter_app.
  fold (without (params_id req) (favoriteRecipes u)).
  rewrite without_absent by done.
  rewrite filter_cons, decide_False by (intros Hne; by apply Hne).
  rewrite filter_nil, app_nil_r.
  unfold set_users. simpl. rewrite insert_insert_eq.
  destruct u as [favs]. simpl. rewrite insert_id by done. by destruct st.
Qed.


(** *** Ratings *)

Lemma validate_rating_nil (e : Rating) :
  validate_rating e = [] → rating_in_range e.
Proof.
  unfold validate_rating, rating_in_range, min_number, max_number, maxlength.
  intros H.
  apply app_eq_nil in H as [_ H]. apply app_eq_nil in H as [Hmin H].
  apply app_eq_nil in H as [Hmax Hlen].
  destruct (rating e <? 1) eqn:E1; [discriminate |].
  destruct (rating e >? 5) eqn:E2; [discriminate |].
  destruct (strlen (comment e) >? 200) eqn:E3; [discriminate |].
  lia.
Qed.

Lemma validate_rating_refuses (e : Rating) :
  rating e < 1 ∨ 5 < rating e ∨ 200 < strlen (comment e) →
  validate_rating e ≠ [].
Proof.
  intros Hbad Hnil. apply validate_rating_nil in Hnil as [? ?]. lia.
Qed.

Lemma concat_nil_Forall {A B} (f : A → list B) (l : list A) :
  concat (f <$> l) = [] → Forall (λ x, f x = []) l.
Proof.
  induction l as [|x l IH]; simpl; intros H; [constructor |].
  apply app_eq_nil in H as [Hx Hl]. constructor; [done | by apply IH].
Qed.

Lemma validate_nil_ratings (d : RecipeDoc) :
  validate d = [] → Forall rating_in_range (d_ratings d).
Proof.
  unfold validate. intros H.
  do 12 (apply app_eq_nil in H as [_ H]).
  apply app_eq_nil in H as [H _].
  apply concat_nil_Forall in H.
  eapply Forall_impl; [exact H |]. intros e. apply validate_rating_nil.
Qed.

Lemma upsertRating_elem_of (entry : Rating) (rs : list Rating) :
  entry ∈ upsertRating entry rs.
Proof.
  induction rs as [|x rs IH]; [rewrite upsertRating_nil; left |].
  rewrite upsertRating_cons. case_decide; [left | by right].
Qed.

Lemma rateRecipe_validated (st st' : Store) (req : Request RateBody) (now : Z)
    (res : Response) (j : RecipeJSON) :
  rateRecipe st req now = (st', res) →
  data res = OneRecipe j →
  Forall rating_in_range (ratings (doc j))
  ∧ ∃ id recipe,
      castObjectId (params_id req) = Some id
      ∧ recipes st !! id = Some recipe
      ∧ doc j = commit (pre_save (toDoc (set_ratings recipe (ratings (doc j)))))
                  (createdAt recipe) now
      ∧ st' = set_recipes st (<[_id recipe := doc j]> (recipes st)).
Proof.
  unfold rateRecipe.
  destruct (castObjectId (params_id req)) as [id|] eqn:Eid;
    [| by intros [= <- <-]].
  destruct (recipes st !! id) as [recipe|] eqn:Er;
    [| by intros [= <- <-]].
  destruct (rb_rating (body req)) as [value|] eqn:Ev;
    [| by intros [= <- <-]].
  destruct (save false _ (createdAt recipe) now (recipes st)) as [e | [r rs]] eqn:Es;
    [by intros [= <- <-] |].
  intros [= <- <-] [= <-].
  apply save_inr in Es as (Hv & -> & -> & _).
  apply validate_nil_ratings in Hv. simpl in Hv.
  cbn [doc toJSON]. cbn [ratings commit]. rewrite pre_save_ratings.
  cbn [d_ratings toDoc ratings set_ratings].
  split; [done |]. exists id, recipe. by repeat split.
Qed.

(** The mean of a non-empty array of numbers between [lo] and [hi],
    rounded as [calculateAverageRating] rounds it, is between [lo] and
    [hi]. *)
Lemma calculateAverageRating_between (lo hi : Z) (rs : list Rating) :
  rs ≠ [] →
  Forall (λ e, lo ≤ rating e ≤ hi) rs →
  (inject_Z lo <= (calculateAverageRating rs).1)%Q
  ∧ ((calculateAverageRating rs).1 <= inject_Z hi)%Q.
Proof.
  intros Hne Hall. unfold calculateAverageRating.
  rewrite bool_decide_eq_false_2 by (by destruct rs).
  cbn [fst]. rewrite ratings_total_sum.
  assert (Z.of_nat (length rs) * lo ≤ ratings_sum rs
          ∧ ratings_sum rs ≤ Z.of_nat (length rs) * hi) as [Hlo Hhi].
  { clear Hne. unfold ratings_sum.
    induction Hall as [|e rs He Hall IH]; simpl; [lia |].
    rewrite Nat2Z.inj_succ. lia. }
  assert (0 < Z.of_nat (length rs)) as Hn by (destruct rs; [done | simpl; lia]).
  set (n := Z.of_nat (length rs)) in *. set (t := ratings_sum rs) in *.
  clearbody n t. clear Hall Hne rs.
  unfold Math_round.
  assert (lo * 10 ≤ Qfloor (inject_Z t / inject_Z n * 10 + (1 # 2))
          ∧ Qfloor (inject_Z t / inject_Z n * 10 + (1 # 2)) ≤ hi * 10) as [Hk1 Hk2].
  { destruct n as [|p|p]; try lia.
    unfold Qfloor, Qdiv, Qmult, Qinv, Qplus, inject_Z. simpl.
    rewrite !Z.mul_1_r, !Pos.mul_1_l, Pos2Z.inj_mul.
    split.
    - apply Z.div_le_lower_bound; [lia |].
      replace (Z.pos p * 2 * (lo * 10)) with (20 * (Z.pos p * lo)) by ring. lia.
    - apply Z.lt_succ_r, Z.div_lt_upper_bound; [lia |].
      replace (Z.pos p * 2 * Z.succ (hi * 10))
        with (20 * (Z.pos p * hi) + 2 * Z.pos p) by ring.
      lia. }
  revert Hk1 Hk2.
  generalize (Qfloor (inject_Z t / inject_Z n * 10 + (1 # 2))). intros k Hk1 Hk2.
  rewrite Zle_Qle in Hk1, Hk2. rewrite inject_Z_mult in Hk1, Hk2.
  change (inject_Z 10) with 10%Q in Hk1, Hk2.
  unfold Qdiv. change (/ 10)%Q with (1 # 10)%Q. split; lra.
Qed.


(** X7. After a rating that is accepted, every entry of the recipe has a
    rating between 1 and 5 and a comment of 200 characters at most, the
    average is between 1 and 5, and [totalRatings] counts the entries, of
    which there is at least one. *)
Theorem rateRecipe_within_bounds (st st' : Store) (req : Request RateBody) (now : Z)
    (res : Response) (j : RecipeJSON) :
  rateRecipe st req now = (st', res) →
  data res = OneRecipe j →
  Forall rating_in_range (ratings (doc j))
  ∧ (1 <= averageRating (doc j))%Q
  ∧ (averageRating (doc j) <= 5)%Q
  ∧ totalRatings (doc j) = Z.of_nat (length (ratings (doc j)))
  ∧ 1 ≤ totalRatings (doc j).
Proof.
  intros Hr Hd.
  destruct (rateRecipe_validated _ _ _ _ _ _ Hr Hd) as [Hall _].
  destruct (rateRecipe_rated _ _ _ _ _ _ Hr Hd)
    as (id & recipe & value & _ & _ & _ & Hrs & Hagg & _).
  assert (ratings (doc j) ≠ []) as Hne.
  { rewrite Hrs. intros Hnil.
    pose proof (upsertRating_elem_of (rating_entry req value) (ratings recipe)) as Hin.
    rewrite Hnil in Hin. by apply elem_of_nil in Hin. }
  destruct (calculateAverageRating_between 1 5 (ratings (doc j)) Hne) as [Hlo Hhi].
  { eapply Forall_impl; [exact Hall |]. by intros e [He _]. }
  destruct (calculateAverageRating_rounded_mean (ratings (doc j))) as [Hn _].
  rewrite <- Hagg in Hlo, Hhi, Hn. cbn [fst snd] in Hlo, Hhi, Hn.
  split; [done |]. split; [done |]. split; [done |]. split; [done |].
  rewrite Hn. destruct (ratings (doc j)); [done | simpl; lia].
Qed.

(** X8. A rating the schema refuses changes nothing: the store is as before
    and the answer is a failure, with status 500 and the validation error
    when the request addresses a recipe of the store. *)
Theorem rateRecipe_refuses (st : Store) (req : Request RateBody) (now : Z) :
  refused_rating (body req) →
  (rateRecipe st req now).1 = st
  ∧ success (rateRecipe st req now).2 = false
  ∧ (∀ id, castObjectId (params_id req) = Some id →
       is_Some (recipes st !! id) →
       status (rateRecipe st req now).2 = 500
       ∧ ∃ errs, error (rateRecipe st req now).2 = Some (ValidationError errs)
                 ∧ errs ≠ []).
Proof.
  unfold refused_rating, rateRecipe. intros Hbad.
  destruct (castObjectId (params_id req)) as [id|];
    [| split; [done |]; split; [done |]; intros ? [=]].
  destruct (recipes st !! id) as [recipe|] eqn:Er;
    [| split; [done |]; split; [done |];
       intros ? [= <-] [? Hx]; rewrite Er in Hx; discriminate Hx].
  destruct (rb_rating (body req)) as [value|].
  - fold (rating_entry req value).
    set (d := toDoc (set_ratings recipe
                       (upsertRating (rating_entry req value) (ratings recipe)))).
    assert (validate d ≠ []) as Hne.
    { intros Hnil. apply validate_nil_ratings in Hnil.
      rewrite Forall_forall in Hnil.
      destruct (Hnil (rating_entry req value)) as [? ?];
        [apply upsertRating_elem_of |].
      simpl in *. lia. }
    rewrite (save_inl_unsaved false d (createdAt recipe) now (recipes st) _ eq_refl Hne).
    split; [done |]. split; [done |]. intros _ _ _. split; [done |]. eauto.
  - split; [done |]. split; [done |]. intros _ _ _. split; [done |].
    eexists. split; [reflexivity | done].
Qed.

(** X9. An accepted rating changes the [ratings], the aggregate and
    [updatedAt] of the recipe it addresses and nothing else: the other
    fields of that recipe, the other recipes and the users are as
    before. *)
Theorem rateRecipe_changes_only_ratings (st st' : Store) (req : Request RateBody)
    (now : Z) (res : Response) (j : RecipeJSON) :
  wf_store st →
  rateRecipe st req now = (st', res) →
  data res = OneRecipe j →
  users st' = users st
  ∧ ∃ id recipe,
      castObjectId (params_id req) = Some id
      ∧ recipes st !! id = Some recipe
      ∧ recipes st' !! id = Some (doc j)
      ∧ (∀ other, other ≠ id → recipes st' !! other = recipes st !! other)
      ∧ doc j = {| _id := _id recipe;
                   title := title recipe;
                   description := description recipe;
                   ingredients := ingredients recipe;
                   instructions := instructions recipe;
                   cookingTime := cookingTime recipe;
                   servings := servings recipe;
                   difficulty := difficulty recipe;
                   cuisine := cuisine recipe;
                   dietType := dietType recipe;
                   calories := calories recipe;
                   image := image recipe;
                   author := author recipe;
                   ratings := ratings (doc j);
                   averageRating := averageRating (doc j);
                   totalRatings := totalRatings (doc j);
                   isPublic := isPublic recipe;
                   tags := tags recipe;
                   nutritionalInfo := nutritionalInfo recipe;
                   createdAt := createdAt recipe;
                   updatedAt := now |}.
Proof.
  intros Hwf Hr Hd.
  destruct (rateRecipe_validated _ _ _ _ _ _ Hr Hd)
    as (_ & id & recipe & Hid & Hrec & Hdoc & ->).
  pose proof (Hwf _ _ Hrec) as Hkey. simpl in Hkey. rewrite Hkey.
  split; [done |]. exists id, recipe.
  split; [done |]. split; [done |]. split; [apply lookup_insert_eq |]. split.
  - intros other Hne. simpl. by rewrite lookup_insert_ne.
  - clear Hr Hd Hrec Hkey. revert Hdoc. generalize (doc j). intros r Hdoc.
    unfold commit, pre_save in Hdoc.
    destruct (calculateAverageRating _) as [avg n].
    destruct recipe as [? ? ? ? ? [p c] ? ? ? ? ? ? ? ? ? ? ? ? ? ? ?].
    destruct r. cbn in Hdoc. injection Hdoc. intros. subst. reflexivity.
Qed.


(** *** Updates *)

(** X10. A request that fails, with whatever status, leaves the store as it
    was: this holds for each of the six handlers that write. *)
Theorem failed_call_changes_nothing (st : Store) (c : Call) :
  success (handle st c).2 = false → (handle st c).1 = st.
Proof.
  destruct c as [req new_id now | req now | req | req now | req | req]; simpl.
  - unfold createRecipe.
    repeat (match goal with
            | |- context [match parsed ?p ?f with _ => _ end] =>
                destruct (parsed p f)
            end; [| done]).
    by destruct (save true _ now now (recipes st)) as [e | [r rs]].
  - unfold updateRecipe.
    destruct (castObjectId (params_id req)) as [id|]; [| done].
    destruct (recipes st !! id) as [recipe|]; [| done].
    case_bool_decide; [done |].
    repeat (match goal with
            | |- context [match reparsed ?p ?f with _ => _ end] =>
                destruct (reparsed p f)
            end; [| done]).
    by destruct (findByIdAndUpdate _ _ _ _) as [e | [[r|] rs]].
  - unfold deleteRecipe.
    destruct (castObjectId (params_id req)) as [id|]; [| done].
    destruct (recipes st !! id) as [recipe|]; [| done].
    by case_bool_decide.
  - unfold rateRecipe.
    destruct (castObjectId (params_id req)) as [id|]; [| done].
    destruct (recipes st !! id) as [recipe|]; [| done].
    destruct (rb_rating (body req)) as [value|]; [| done].
    by destruct (save false _ _ now (recipes st)) as [e | [r rs]].
  - unfold addToFavorites.
    destruct (castObjectId (params_id req)) as [id|]; [| done].
    destruct (recipes st !! id) as [recipe|]; [| done].
    destruct (users st !! user_id req) as [u|]; [| done].
    by case_bool_decide.
  - unfold removeFromFavorites.
    by destruct (users st !! user_id req) as [u|].
Qed.

(** X11. An update that is accepted writes the recipe it addresses and nothing
    else; the recipe keeps its id and its creation time and takes the
    time of the update. *)
Theorem updateRecipe_changes_one_recipe (st st' : Store) (req : Request UpdateBody)
    (now : Z) (res : Response) (j : RecipeJSON) :
  updateRecipe st req now = (st', res) →
  data res = OneRecipe j →
  users st' = users st
  ∧ ∃ id recipe,
      castObjectId (params_id req) = Some id
      ∧ recipes st !! id = Some recipe
      ∧ recipes st' !! id = Some (doc j)
      ∧ (∀ other, other ≠ id → recipes st' !! other = recipes st !! other)
      ∧ author recipe = user_id req
      ∧ _id (doc j) = _id recipe
      ∧ createdAt (doc j) = createdAt recipe
      ∧ updatedAt (doc j) = now.
Proof.
  intros Hu Hd.
  destruct (updateRecipe_updated _ _ _ _ _ _ Hu Hd)
    as (id & recipe & ings & instrs & tgs & nutr & ct & u & Hid & Hr & Ha & _ & _ & _
        & Hdoc & _ & ->).
  simpl. split; [done |]. exists id, recipe.
  split; [done |]. split; [done |]. split; [apply lookup_insert_eq |].
  split; [intros other Hne; by rewrite lookup_insert_ne |].
  rewrite Hdoc. by repeat split.
Qed.

(** X12. The empty update of the author, without a file, is accepted and only
    sets [updatedAt]. *)
Theorem updateRecipe_empty_body (st : Store) (req : Request UpdateBody) (now : Z)
    (id : ObjectId) (recipe : Recipe) :
  castObjectId (params_id req) = Some id →
  recipes st !! id = Some recipe →
  author recipe = user_id req →
  body req = empty_update →
  file req = None →
  updateRecipe st req now
  = (set_recipes st (<[id := touched recipe now]> (recipes st)),
     ok 200 "Recipe updated successfully" (OneRecipe (toJSON (touched recipe now)))).
Proof.
  intros Hid Hr Ha Hb Hf. unfold updateRecipe.
  rewrite Hid, Hr, bool_decide_eq_false_2 by (intros Hne; by apply Hne).
  rewrite Hb. cbn [reparsed empty_update ub_ingredients ub_instructions ub_tags
                   ub_nutritionalInfo ub_cookingTime].
  unfold findByIdAndUpdate, spread. rewrite Hb, Hf. cbn. by rewrite Hr.
Qed.

(** X13. The author field is a path like the others: an update of the author
    that carries in [author] a text mongoose casts to the id of another
    user is accepted, the recipe is then this user's, and to every other
    caller, the former author included, update and delete of this recipe
    answer Forbidden. *)
Theorem updateRecipe_gives_recipe_away (st st' : Store) (req : Request UpdateBody)
    (now : Z) (res : Response) (j : RecipeJSON) (text : string) :
  updateRecipe st req now = (st', res) →
  data res = OneRecipe j →
  ub_author (body req) = Some text →
  ∃ new_author,
    castObjectId text = Some new_author
    ∧ author (doc j) = new_author
    ∧ (∀ (again : Request UpdateBody) (later : Z),
         castObjectId (params_id again) = castObjectId (params_id req) →
         user_id again ≠ new_author →
         Forbidden (updateRecipe st' again later).2
         ∧ (updateRecipe st' again later).1 = st')
    ∧ (∀ del : Request unit,
         castObjectId (params_id del) = castObjectId (params_id req) →
         user_id del ≠ new_author →
         Forbidden (deleteRecipe st' del).2
         ∧ (deleteRecipe st' del).1 = st').
Proof.
  intros Hu Hd Hb.
  destruct (updateRecipe_updated _ _ _ _ _ _ Hu Hd)
    as (id & recipe & ings & instrs & tgs & nutr & ct & u & Hid & Hr & Ha & _ & Hc & _
        & Hdoc & _ & ->).
  apply cast_update_inr in Hc as (_ & Hau & _). cbn [ub_author spread] in Hau.
  rewrite Hb in Hau. unfold cast_author, cast_id, mbind, Exn_bind in Hau.
  destruct (castObjectId text) as [new_author|]; [| discriminate Hau].
  injection Hau as Hau. exists new_author. split; [done |].
  assert (author (doc j) = new_author) as Hnew.
  { rewrite Hdoc. unfold apply_updates. cbn [author]. by rewrite <- Hau. }
  split; [done |]. split.
  - intros again later Hsame Hne. unfold updateRecipe. cbn [recipes set_recipes].
    rewrite Hsame, Hid, lookup_insert_eq, Hnew, bool_decide_eq_true_2 by done.
    by repeat split.
  - intros del Hsame Hne. unfold deleteRecipe. cbn [recipes set_recipes].
    rewrite Hsame, Hid, lookup_insert_eq, Hnew, bool_decide_eq_true_2 by done.
    by repeat split.
Qed.


(** *** What every handler keeps *)

(** The store after each handler that writes recipes: as before, or with
    one document written. *)
Lemma createRecipe_writes (st : Store) (req : Request CreateBody)
    (new_id : ObjectId) (now : Z) :
  (createRecipe st req new_id now).1 = st
  ∨ ∃ ings instrs tgs nutr ct,
      (createRecipe st req new_id now).1
      = set_recipes st
          (<[new_id := commit (pre_save (new_Recipe new_id req ings instrs tgs nutr ct))
                         now now]> (recipes st)).
Proof.
  unfold createRecipe.
  destruct (parsed parse_ingredients _) as [ings|]; [| by left].
  destruct (parsed parse_instructions _) as [instrs|]; [| by left].
  destruct (parsed parse_tags _) as [tgs|]; [| by left].
  destruct (parsed parse_nutritionalInfo _) as [nutr|]; [| by left].
  destruct (parsed parse_cookingTimeInput _) as [ct|]; [| by left].
  destruct (save true _ now now (recipes st)) as [e | [r rs]] eqn:Es; [by left |].
  right. apply save_inr in Es as (_ & -> & -> & _).
  by exists ings, instrs, tgs, nutr, ct.
Qed.

Lemma updateRecipe_writes (st : Store) (req : Request UpdateBody) (now : Z) :
  (updateRecipe st req now).1 = st
  ∨ ∃ id recipe u,
      recipes st !! id = Some recipe
      ∧ cast_ratings (ub_ratings (body req)) = inr (u_ratings u)
      ∧ u_averageRating u = ub_averageRating (body req)
      ∧ u_totalRatings u = ub_totalRatings (body req)
      ∧ (updateRecipe st req now).1
        = set_recipes st (<[id := apply_updates u now recipe]> (recipes st)).
Proof.
  unfold updateRecipe.
  destruct (castObjectId (params_id req)) as [id|]; [| by left].
  destruct (recipes st !! id) as [recipe|] eqn:Er; [| by left].
  case_bool_decide; [by left |].
  destruct (reparsed parse_ingredients _) as [ings|]; [| by left].
  destruct (reparsed parse_instructions _) as [instrs|]; [| by left].
  destruct (reparsed parse_tags _) as [tgs|]; [| by left].
  destruct (reparsed parse_nutritionalInfo _) as [nutr|]; [| by left].
  destruct (reparsed parse_cookingTime _) as [ct|]; [| by left].
  unfold findByIdAndUpdate.
  destruct (cast_update _) as [e|u] eqn:Ec; [by left |].
  destruct (update_validators u); [| by left].
  rewrite Er. right. exists id, recipe, u.
  apply cast_update_Some in Ec as (_ & ? & ? & ?). by repeat split.
Qed.

Lemma rateRecipe_writes (st : Store) (req : Request RateBody) (now : Z) :
  (rateRecipe st req now).1 = st
  ∨ ∃ id recipe value,
      recipes st !! id = Some recipe
      ∧ (rateRecipe st req now).1
        = set_recipes st
            (<[_id recipe :=
                 commit (pre_save (toDoc (set_ratings recipe
                            (upsertRating (rating_entry req value) (ratings recipe)))))
                   (createdAt recipe) now]> (recipes st)).
Proof.
  unfold rateRecipe.
  destruct (castObjectId (params_id req)) as [id|]; [| by left].
  destruct (recipes st !! id) as [recipe|] eqn:Er; [| by left].
  destruct (rb_rating (body req)) as [value|]; [| by left].
  destruct (save false _ _ now (recipes st)) as [e | [r rs]] eqn:Es; [by left |].
  right. apply save_inr in Es as (_ & -> & -> & _). by exists id, recipe, value.
Qed.

Lemma favorites_keep_recipes (st : Store) (req : Request unit) :
  recipes (addToFavorites st req).1 = recipes st
  ∧ recipes (removeFromFavorites st req).1 = recipes st.
Proof.
  unfold addToFavorites, removeFromFavorites. split.
  - destruct (castObjectId (params_id req)) as [id|]; [| done].
    destruct (recipes st !! id); [| done].
    destruct (users st !! user_id req); [| done]. by case_bool_decide.
  - by destruct (users st !! user_id req).
Qed.

(** Each write keeps the four properties; a request for a new favorite is
    asked to carry the id in its canonical text for the second, and an
    update to leave the ratings and their aggregate alone for the last
    two. *)
Lemma handle_keeps_wf (st : Store) (c : Call) :
  wf_store st → wf_store (handle st c).1.
Proof.
  intros Hwf. destruct c as [req new_id now | req now | req | req now | req | req];
    simpl.
  - destruct (createRecipe_writes st req new_id now)
      as [-> | (ings & instrs & tgs & nutr & ct & ->)]; [done |].
    unfold wf_store. cbn [recipes set_recipes]. apply map_Forall_insert_2; [| done].
    cbn [_id commit]. by rewrite pre_save_id.
  - destruct (updateRecipe_writes st req now)
      as [-> | (id & recipe & u & Hr & _ & _ & _ & ->)]; [done |].
    unfold wf_store. simpl. apply map_Forall_insert_2; [| done].
    simpl. by apply (Hwf _ _ Hr).
  - unfold deleteRecipe.
    destruct (castObjectId (params_id req)) as [id|]; [| done].
    destruct (recipes st !! id); [| done].
    case_bool_decide; [done |]. unfold wf_store. simpl.
    by apply map_Forall_delete.
  - destruct (rateRecipe_writes st req now) as [-> | (id & recipe & value & Hr & ->)];
      [done |].
    unfold wf_store. cbn [recipes set_recipes]. apply map_Forall_insert_2; [| done].
    cbn [_id commit]. by rewrite pre_save_id.
  - unfold wf_store. by rewrite (proj1 (favorites_keep_recipes st req)).
  - unfold wf_store. by rewrite (proj2 (favorites_keep_recipes st req)).
Qed.

Lemma handle_keeps_distinct (st : Store) (c : Call) :
  canonical_favorite c →
  favorites_distinct st → favorites_distinct (handle st c).1.
Proof.
  intros Hc Hd. destruct c as [req new_id now | req now | req | req now | req | req];
    simpl.
  - by destruct (createRecipe_writes st req new_id now)
      as [-> | (ings & instrs & tgs & nutr & ct & ->)].
  - by destruct (updateRecipe_writes st req now)
      as [-> | (id & recipe & u & _ & _ & _ & _ & ->)].
  - unfold deleteRecipe.
    destruct (castObjectId (params_id req)) as [id|]; [| done].
    destruct (recipes st !! id); [| done].
    by case_bool_decide.
  - by destruct (rateRecipe_writes st req now)
      as [-> | (id & recipe & value & _ & ->)].
  - by apply addToFavorites_keeps_distinct.
  - by apply removeFromFavorites_keeps_distinct.
Qed.



(** X14. Whatever the requests and their order, and whether they succeed or
    fail, every recipe stays under its own id.  No user gets an id twice
    among the favorites as long as the requests for a new favorite carry
    the id in its canonical text. *)
Theorem run_keeps_ids_and_favorites (st : Store) (calls : list Call) :
  wf_store st →
  wf_store (run st calls)
  ∧ (favorites_distinct st →
     Forall canonical_favorite calls →
     favorites_distinct (run st calls)).
Proof.
  unfold run. revert st. induction calls as [|c calls IH]; intros st Hwf; [done |].
  simpl. destruct (IH (handle st c).1 (handle_keeps_wf st c Hwf)) as [IH1 IH2].
  split; [done |]. intros Hd Hcalls.
  apply Forall_cons in Hcalls as [Hc Hcalls].
  apply IH2; [by apply handle_keeps_distinct | done].
Qed.



(** *** Pages of the listing *)


Lemma length_matching (st : Store) (req : Request unit) :
  Z.of_nat (length (matching st req))
  = countDocuments (recipes_filter (query req)) (recipes st).
Proof.
  unfold matching, countDocuments, sort.
  by rewrite (Permutation_length (merge_sort_Permutation _ _)).
Qed.

Lemma limit_to_nil (n : Z) (l : list Recipe) : limit_to n l = [] ↔ l = [].
Proof.
  unfold limit_to. destruct (n =? 0) eqn:E; [done |].
  destruct l as [|x l]; [by rewrite take_nil |].
  assert (∃ k, Z.to_nat (Z.abs n) = S k) as [k ->] by (exists (pred (Z.to_nat (Z.abs n))); lia).
  done.
Qed.

Lemma length_limit_to (n : Z) (l : list Recipe) :
  n ≠ 0 → Z.of_nat (length (limit_to n l)) ≤ Z.abs n.
Proof.
  intros Hn. unfold limit_to. destruct (n =? 0) eqn:E; [lia |].
  rewrite length_take. lia.
Qed.

(** What a listing that is answered holds: the matching recipes after the
    skip, cut to the limit as the store reads it. *)
Lemma getRecipes_found (st : Store) (req : Request unit)
    (found : list Recipe) (pg : Pagination) :
  let page := Number_or 1 (q_page (query req)) in
  let limit := Number_or 12 (q_limit (query req)) in
  getRecipes st req = ok 200 "" (Page found pg) →
  0 ≤ (page - 1) * limit
  ∧ found = limit_to (parseInt_or 12 (q_limit (query req)))
              (drop (Z.to_nat ((page - 1) * limit)) (matching st req))
  ∧ pg = pagination_of (parseInt_or 1 (q_page (query req))) page limit
           (Z.of_nat (length (matching st req))).
Proof.
  intros page limit. rewrite length_matching.
  unfold getRecipes, matching, skip_limit, limit_to. fold page limit.
  destruct ((page - 1) * limit <? 0) eqn:E; [discriminate |].
  intros [= <- <-]. split; [lia | done].
Qed.

(** Page [p] of a listing: the matching recipes after [p - 1] strides of
    the limit as the arithmetic reads it, cut to the limit as the store
    reads it. *)
Lemma page_of_window (st : Store) (req : Request unit) (p : Z) :
  0 ≤ (p - 1) * Number_or 12 (q_limit (query req)) →
  page_of st req p
  = limit_to (parseInt_or 12 (q_limit (query req)))
      (drop (Z.to_nat ((p - 1) * Number_or 12 (q_limit (query req))))
         (matching st req)).
Proof.
  intros Hskip. unfold page_of, getRecipes, matching, skip_limit, limit_to.
  cbn [query with_page q_page q_limit q_sortBy q_sortOrder Number_or parseInt_or
       plain as_Number as_parseInt].
  destruct (_ <? 0) eqn:E; [lia | done].
Qed.

(** X16. With a positive limit and a page number from 1 on, as the
    arithmetic of the handler reads them, [hasNextPage] tells whether the
    next page has any recipe; and a page has at most as many recipes as
    the limit the store is given, when this is not 0. *)
Theorem hasNextPage_iff_next_page (st : Store) (req : Request unit)
    (found : list Recipe) (pg : Pagination) :
  0 < Number_or 12 (q_limit (query req)) →
  1 ≤ Number_or 1 (q_page (query req)) →
  getRecipes st req = ok 200 "" (Page found pg) →
  (parseInt_or 12 (q_limit (query req)) ≠ 0 →
   Z.of_nat (length found) ≤ Z.abs (parseInt_or 12 (q_limit (query req))))
  ∧ (hasNextPage pg = true
     ↔ page_of st req (Number_or 1 (q_page (query req)) + 1) ≠ []).
Proof.
  intros Hl Hp Hres.
  apply getRecipes_found in Hres as (_ & -> & ->).
  split; [apply length_limit_to |].
  rewrite page_of_window by lia. rewrite limit_to_nil.
  unfold pagination_of, ceil_div. cbn [hasNextPage].
  destruct (Math_ceil_bounds (Z.of_nat (length (matching st req)))
              (Number_or 12 (q_limit (query req))) Hl) as [Hlo Hhi].
  revert Hl Hp Hlo Hhi.
  generalize (Math_ceil (inject_Z (Z.of_nat (length (matching st req)))
                         / inject_Z (Number_or 12 (q_limit (query req))))).
  generalize (matching st req).
  generalize (Number_or 12 (q_limit (query req))).
  generalize (Number_or 1 (q_page (query req))).
  intros page limit l n Hl Hp Hlo Hhi.
  destruct (limit =? 0) eqn:E; [lia |]. cbn [js_lt].
  rewrite Z.ltb_lt.
  replace (page + 1 - 1) with page by lia.
  assert (page < n ↔ (Z.to_nat (page * limit) < length l)%nat) as ->.
  { rewrite Nat2Z.inj_lt, Z2Nat.id by lia. split.
    - intros Hlt.
      assert (page * limit ≤ (n - 1) * limit)
        by (apply Z.mul_le_mono_nonneg_r; lia).
      lia.
    - intros Hlt. destruct (Z.lt_ge_cases page n) as [|Hge]; [done |].
      assert (n * limit ≤ page * limit)
        by (apply Z.mul_le_mono_nonneg_r; lia).
      lia. }
  split.
  - intros Hlt Hnil.
    assert (length (drop (Z.to_nat (page * limit)) l) = 0%nat) as Hlen
      by (by rewrite Hnil).
    rewrite length_drop in Hlen. lia.
  - intros Hne.
    destruct (Nat.lt_ge_cases (Z.to_nat (page * limit)) (length l))
      as [|Hge]; [done |].
    exfalso. apply Hne. by apply drop_ge.
Qed.



(** *** The order of the listings *)

Lemma String_leb_trans (s1 s2 s3 : string) :
  String.leb s1 s2 = true → String.leb s2 s3 = true → String.leb s1 s3 = true.
Proof.
  unfold String.leb. revert s2 s3.
  induction s1 as [|c1 s1 IH]; intros [|c2 s2] [|c3 s3]; simpl; try done.
  unfold Ascii.compare.
  destruct (N.compare_spec (N_of_ascii c1) (N_of_ascii c2)) as [E12|L12|G12];
    destruct (N.compare_spec (N_of_ascii c2) (N_of_ascii c3)) as [E23|L23|G23];
    destruct (N.compare_spec (N_of_ascii c1) (N_of_ascii c3)) as [E13|L13|G13];
    try done; try lia.
  apply IH.
Qed.

Lemma key_leb_total (a b : SortKey) : key_leb a b = true ∨ key_leb b a = true.
Proof.
  destruct a as [|x|x|x|x|x], b as [|y|y|y|y|y]; simpl; try (by left); try (by right).
  - rewrite !Qle_bool_iff. destruct (Qlt_le_dec y x) as [H|H]; [right | by left].
    by apply Qlt_le_weak.
  - apply String.leb_total.
  - apply String.leb_total.
  - destruct x, y; simpl; auto.
  - rewrite !Z.leb_le. lia.
Qed.

Lemma key_leb_trans (a b c : SortKey) :
  key_leb a b = true → key_leb b c = true → key_leb a c = true.
Proof.
  destruct a as [|x|x|x|x|x], b as [|y|y|y|y|y], c as [|z|z|z|z|z];
    simpl; try done.
  - rewrite !Qle_bool_iff. apply Qle_trans.
  - apply String_leb_trans.
  - apply String_leb_trans.
  - by destruct x, y, z.
  - rewrite !Z.leb_le. lia.
Qed.

#[local] Instance sort_order_total path direction : Total (sort_order path direction).
Proof.
  intros a b. unfold sort_order.
  destruct (direction <? 0); rewrite !Is_true_true; apply key_leb_total.
Qed.

#[local] Instance sort_order_trans path direction :
  Transitive (sort_order path direction).
Proof.
  intros a b c. unfold sort_order.
  destruct (direction <? 0); rewrite !Is_true_true; intros H1 H2;
    by eapply key_leb_trans.
Qed.

Lemma sort_spec_order_total (spec : list (string * Z)) (a b : Recipe) :
  sort_spec_order spec a b = true ∨ sort_spec_order spec b a = true.
Proof.
  induction spec as [|[path direction] rest IH]; simpl; [by left |].
  destruct (direction <? 0).
  - destruct (key_leb (sort_key path b) (sort_key path a)) eqn:E1,
             (key_leb (sort_key path a) (sort_key path b)) eqn:E2; auto.
    destruct (key_leb_total (sort_key path a) (sort_key path b)); congruence.
  - destruct (key_leb (sort_key path a) (sort_key path b)) eqn:E1,
             (key_leb (sort_key path b) (sort_key path a)) eqn:E2; auto.
    destruct (key_leb_total (sort_key path a) (sort_key path b)); congruence.
Qed.

Lemma sort_spec_order_trans (spec : list (string * Z)) (a b c : Recipe) :
  sort_spec_order spec a b = true →
  sort_spec_order spec b c = true →
  sort_spec_order spec a c = true.
Proof.
  clear parse_ingredients parse_instructions parse_tags parse_nutritionalInfo
    parse_cookingTimeInput parse_cookingTime regex_test castObjectId cast_text
    isValid.
  induction spec as [|[path direction] rest IH]; simpl; [done |].
  set (ka := sort_key path a). set (kb := sort_key path b). set (kc := sort_key path c).
  pose proof (key_leb_trans ka kb kc) as Habc.
  pose proof (key_leb_trans kc ka kb) as Hcab.
  pose proof (key_leb_trans kb kc ka) as Hbca.
  pose proof (key_leb_trans kc kb ka) as Hcba.
  pose proof (key_leb_trans ka kc kb) as Hacb.
  pose proof (key_leb_trans kb ka kc) as Hbac.
  destruct (direction <? 0);
    destruct (key_leb ka kb), (key_leb kb ka), (key_leb kb kc), (key_leb kc kb),
             (key_leb ka kc), (key_leb kc ka);
    try done; try (by intuition congruence).
Qed.

#[local] Instance sort_spec_order_Total spec :
  Total (λ a b : Recipe, Is_true (sort_spec_order spec a b)).
Proof.
  intros a b. rewrite !Is_true_true. apply sort_spec_order_total.
Qed.

#[local] Instance sort_spec_order_Transitive spec :
  Transitive (λ a b : Recipe, Is_true (sort_spec_order spec a b)).
Proof.
  intros a b c. rewrite !Is_true_true. apply sort_spec_order_trans.
Qed.






(** *** The filters of the listing *)




(** X21. The values absent, empty and [All] of the cuisine, diet type and
    difficulty parameters do not filter: the answer is the same with any
    of them. *)
Theorem getRecipes_ignores_All (st : Store) (req : Request unit)
    (c d f : option string) :
  unselective c → unselective d → unselective f →
  getRecipes st (with_selectors req c d f)
  = getRecipes st (with_selectors req None None None).
Proof.
  intros Hc Hd Hf.
  assert (∀ x, unselective x → selective x = None) as Hsel.
  { intros x [-> | [-> | ->]]; reflexivity. }
  assert (∀ r, recipes_filter (query (with_selectors req c d f)) r
               = recipes_filter (query (with_selectors req None None None)) r)
    as Hsame.
  { intros r. unfold recipes_filter.
    cbn [query with_selectors q_cuisine q_dietType q_difficulty q_minRating
         q_maxCalories q_maxTime q_search].
    by rewrite (Hsel c Hc), (Hsel d Hd), (Hsel f Hf). }
  assert (find (recipes_filter (query (with_selectors req c d f))) (recipes st)
          = find (recipes_filter (query (with_selectors req None None None)))
              (recipes st)) as Hfind.
  { unfold find. apply list_filter_iff. intros r. by rewrite Hsame. }
  unfold getRecipes, countDocuments. rewrite Hfind. reflexivity.
Qed.

(** X22. Without any filter the listing holds the public recipes of the store,
    all of them and no other. *)
Theorem unfiltered_listing_is_public_recipes (st : Store) (req : Request unit)
    (r : Recipe) :
  unfiltered (query req) →
  r ∈ matching st req ↔ isPublic r = true ∧ ∃ id, recipes st !! id = Some r.
Proof.
  intros (Hc & Hd & Hf & Hmin & Hcal & Ht & Hs).
  unfold matching. rewrite sort_elem_of, find_elem_of.
  assert (recipes_filter (query req) r = isPublic r) as ->; [| done].
  unfold recipes_filter. rewrite Hc, Hd, Hf, Hmin, Hcal, Ht.
  destruct Hs as [-> | ->]; simpl; by rewrite !andb_true_r.
Qed.


(** *** The favorites listing *)


(** *** What the stored fields satisfy *)

Lemma required_string_nil (msg : string) (v : option string) :
  required_string msg v = [] → ∃ s, v = Some s ∧ s ≠ ""%string.
Proof. destruct v as [[|c s]|]; simpl; try done. intros _. by eexists. Qed.

Lemma maxlength_nil (n : Z) (msg : string) (s : string) :
  maxlength n msg (Some s) = [] → strlen s ≤ n.
Proof. unfold maxlength. destruct (strlen s >? n) eqn:E; [done | lia]. Qed.

Lemma required_number_nil (msg : string) (v : option Z) :
  required_number msg v = [] → ∃ x, v = Some x.
Proof. destruct v; simpl; [eauto | done]. Qed.

Lemma min_number_nil (n : Z) (msg : string) (x : Z) :
  min_number n msg (Some x) = [] → n ≤ x.
Proof. unfold min_number. destruct (x <? n) eqn:E; [done | lia]. Qed.

Lemma enum_nil (values : list string) (msg : string) (s : string) :
  enum values msg (Some s) = [] → s ∈ values.
Proof. unfold enum. by case_bool_decide. Qed.

Lemma validate_nil_scalars (d : RecipeDoc) :
  validate d = [] →
  validate_title (d_title d) = []
  ∧ validate_description (d_description d) = []
  ∧ validate_cookingTime (d_cookingTime d) = []
  ∧ validate_servings (d_servings d) = []
  ∧ validate_difficulty (d_difficulty d) = []
  ∧ validate_cuisine (d_cuisine d) = []
  ∧ validate_dietType (d_dietType d) = []
  ∧ validate_calories (d_calories d) = []
  ∧ validate_image (Some (d_image d)) = [].
Proof.
  unfold validate. intros H.
  apply app_eq_nil in H as [H1 H]. apply app_eq_nil in H as [H2 H].
  apply app_eq_nil in H as [_ H]. apply app_eq_nil in H as [_ H].
  apply app_eq_nil in H as [H5 H]. apply app_eq_nil in H as [H6 H].
  apply app_eq_nil in H as [H7 H]. apply app_eq_nil in H as [H8 H].
  apply app_eq_nil in H as [H9 H]. apply app_eq_nil in H as [H10 H].
  apply app_eq_nil in H as [H11 _]. done.
Qed.

(** X24. A recipe [createRecipe] stores satisfies the constraints of the
    schema on its scalar fields: the required texts are there and within
    their lengths, times and servings are 1 at least, difficulty and diet
    type are values of their enumerations, calories when given are
    positive; and its image is the path of the file that was uploaded. *)
Theorem createRecipe_stores_valid_fields (st st' : Store) (req : Request CreateBody)
    (new_id : ObjectId) (now : Z) (res : Response) (j : RecipeJSON) :
  createRecipe st req new_id now = (st', res) →
  data res = OneRecipe j →
  (title (doc j) ≠ ""%string ∧ strlen (title (doc j)) ≤ 100)
  ∧ (description (doc j) ≠ ""%string ∧ strlen (description (doc j)) ≤ 500)
  ∧ (1 ≤ prep (cookingTime (doc j)) ∧ 1 ≤ cook (cookingTime (doc j)))
  ∧ 1 ≤ servings (doc j)
  ∧ difficulty (doc j) ∈ difficulty_enum
  ∧ (cuisine (doc j) ≠ ""%string ∧ strlen (cuisine (doc j)) ≤ 50)
  ∧ dietType (doc j) ∈ dietType_enum
  ∧ (∀ c, calories (doc j) = Some c → 1 ≤ c)
  ∧ ∃ filename, file req = Some filename
                ∧ image (doc j) = ("/uploads/" ++ filename)%string.
Proof.
  intros Hc Hd.
  destruct (createRecipe_created _ _ _ _ _ _ _ Hc Hd)
    as (ings & instrs & tgs & nutr & ct & _ & _ & _ & _ & _ & Hv & Hdoc & _).
  apply validate_nil_scalars in Hv
    as (Ht & Hde & Hct & Hs & Hdi & Hcu & Hdt & Hca & Him).
  rewrite Hdoc. unfold commit, pre_save.
  destruct (calculateAverageRating _) as [avg n].
  cbn [title description cookingTime prep cook servings difficulty cuisine dietType
       calories image d_title d_description d_cookingTime d_servings d_difficulty
       d_cuisine d_dietType d_calories d_image].
  set (d := new_Recipe new_id req ings instrs tgs nutr ct) in *.
  split; [| split; [| split; [| split; [| split; [| split; [| split; [| split]]]]]]].
  - unfold validate_title in Ht. apply app_eq_nil in Ht as [Hreq Hmax].
    apply required_string_nil in Hreq as (s & Hs' & Hne). rewrite Hs' in *.
    split; [done | by apply maxlength_nil in Hmax].
  - unfold validate_description in Hde. apply app_eq_nil in Hde as [Hreq Hmax].
    apply required_string_nil in Hreq as (s & Hs' & Hne). rewrite Hs' in *.
    split; [done | by apply maxlength_nil in Hmax].
  - unfold validate_cookingTime, validate_prep, validate_cook in Hct.
    apply app_eq_nil in Hct as [Hp Hk].
    apply app_eq_nil in Hp as [Hp1 Hp2]. apply app_eq_nil in Hk as [Hk1 Hk2].
    apply required_number_nil in Hp1 as [p Hp1].
    apply required_number_nil in Hk1 as [k Hk1].
    rewrite Hp1 in *. rewrite Hk1 in *.
    split; [by apply min_number_nil in Hp2 | by apply min_number_nil in Hk2].
  - unfold validate_servings in Hs. apply app_eq_nil in Hs as [Hreq Hmin].
    apply required_number_nil in Hreq as [x Hx]. rewrite Hx in *.
    by apply min_number_nil in Hmin.
  - unfold validate_difficulty in Hdi. apply app_eq_nil in Hdi as [Hreq Hen].
    apply required_string_nil in Hreq as (s & Hs' & Hne). rewrite Hs' in *.
    by apply enum_nil in Hen.
  - unfold validate_cuisine in Hcu. apply app_eq_nil in Hcu as [Hreq Hmax].
    apply required_string_nil in Hreq as (s & Hs' & Hne). rewrite Hs' in *.
    split; [done | by apply maxlength_nil in Hmax].
  - unfold validate_dietType in Hdt. apply app_eq_nil in Hdt as [Hreq Hen].
    apply required_string_nil in Hreq as (s & Hs' & Hne). rewrite Hs' in *.
    by apply enum_nil in Hen.
  - intros c Hcal. unfold validate_calories in Hca. rewrite Hcal in Hca.
    by apply min_number_nil in Hca.
  - unfold validate_image in Him. apply required_string_nil in Him as (s & Hs' & Hne).
    subst d. cbn [d_image new_Recipe] in *.
    destruct (file req) as [filename|]; [by exists filename |].
    by injection Hs' as <-.
Qed.


Lemma validate_averageRating_nil (a : Q) :
  validate_averageRating a = [] → (0 <= a)%Q ∧ (a <= 5)%Q.
Proof.
  unfold validate_averageRating.
  destruct (Qlt_le_dec a 0); [done |]. destruct (Qlt_le_dec 5 a); done.
Qed.

Lemma update_validators_nil (u : Updates) :
  update_validators u = [] →
  on_path (λ x, validate_title (Some x)) (u_title u) = []
  ∧ on_path (λ x, validate_servings (Some x)) (u_servings u) = []
  ∧ on_path (λ x, validate_difficulty (Some x)) (u_difficulty u) = []
  ∧ on_path (λ x, validate_image (Some x)) (u_image u) = []
  ∧ on_path (λ l, concat (validate_rating <$> l)) (u_ratings u) = []
  ∧ on_path validate_averageRating (u_averageRating u) = [].
Proof.
  unfold update_validators. intros H.
  apply app_eq_nil in H as [H1 H]. apply app_eq_nil in H as [_ H].
  apply app_eq_nil in H as [_ H]. apply app_eq_nil in H as [_ H].
  apply app_eq_nil in H as [_ H]. apply app_eq_nil in H as [H6 H].
  apply app_eq_nil in H as [H7 H]. apply app_eq_nil in H as [_ H].
  apply app_eq_nil in H as [_ H]. apply app_eq_nil in H as [_ H].
  apply app_eq_nil in H as [H11 H]. apply app_eq_nil in H as [_ H].
  apply app_eq_nil in H as [H13 H14]. done.
Qed.

(** The ratings of a cast array are those of the body, with their
    comments, under the ids their [user] texts are cast to. *)
Lemma cast_rating_list_inr (l rated : list Rating) :
  cast_rating_list l = inr rated →
  Forall2 (λ sent stored,
             castObjectId (user sent) = Some (user stored)
             ∧ rating stored = rating sent
             ∧ comment stored = comment sent) l rated.
Proof.
  revert rated. induction l as [|r l IH]; intros rated; simpl.
  - intros [= <-]. constructor.
  - unfold cast_rating, cast_id, mbind, Exn_bind.
    destruct (castObjectId (user r)) as [id|] eqn:Eid; [| discriminate].
    destruct (cast_rating_list l) as [e|l']; [discriminate |].
    intros [= <-]. constructor; [done | by apply IH].
Qed.

(** An empty text at [tags] is not parsed and is stored as the array of
    the one empty string. *)
Lemma updateRecipe_empty_tags (st st' : Store) (req : Request UpdateBody) (now : Z)
    (res : Response) (j : RecipeJSON) :
  ub_tags (body req) = Text "" →
  updateRecipe st req now = (st', res) →
  data res = OneRecipe j →
  tags (doc j) = [""%string].
Proof.
  intros Ht. unfold updateRecipe.
  destruct (castObjectId (params_id req)) as [id|]; [| by intros [= <- <-]].
  destruct (recipes st !! id) as [recipe|] eqn:Er; [| by intros [= <- <-]].
  case_bool_decide; [by intros [= <- <-] |].
  destruct (reparsed parse_ingredients _) as [ings|]; [| by intros [= <- <-]].
  destruct (reparsed parse_instructions _) as [instrs|]; [| by intros [= <- <-]].
  rewrite Ht. cbn [reparsed String.eqb].
  destruct (reparsed parse_nutritionalInfo _) as [nutr|]; [| by intros [= <- <-]].
  destruct (reparsed parse_cookingTime _) as [ct|]; [| by intros [= <- <-]].
  unfold findByIdAndUpdate.
  destruct (cast_update _) as [e|u] eqn:Ec; [by intros [= <- <-] |].
  destruct (update_validators u); [| by intros [= <- <-]].
  rewrite Er. intros [= <- <-] [= <-].
  apply cast_update_inr in Ec
    as (_ & _ & _ & _ & _ & _ & _ & _ & _ & tgs & Hcast & Htags).
  cbn in Hcast. injection Hcast as <-.
  unfold toJSON, apply_updates. cbn [doc tags]. rewrite Htags. reflexivity.
Qed.

(** X25. The paths an accepted update sets passed their validators, and are
    stored as sent (the title trimmed, the ids cast): a title is not empty
    and of 100 code units at most, servings are 1 at least, a difficulty is
    one of the three levels, an average rating sent in the body is between
    0 and 5 and ratings sent in the body are within their bounds; an
    uploaded file becomes the image, and an empty text sent as [tags] the
    array of the one empty string. *)
Theorem updateRecipe_validates_what_it_sets (st st' : Store)
    (req : Request UpdateBody) (now : Z) (res : Response) (j : RecipeJSON) :
  updateRecipe st req now = (st', res) →
  data res = OneRecipe j →
  (∀ t, ub_title (body req) = Some t →
     title (doc j) = trim t ∧ trim t ≠ ""%string ∧ strlen (trim t) ≤ 100)
  ∧ (∀ n, ub_servings (body req) = Some n → servings (doc j) = n ∧ 1 ≤ n)
  ∧ (∀ d, ub_difficulty (body req) = Some d →
       difficulty (doc j) = d ∧ d ∈ difficulty_enum)
  ∧ (∀ a, ub_averageRating (body req) = Some a →
       averageRating (doc j) = a ∧ (0 <= a)%Q ∧ (a <= 5)%Q)
  ∧ (∀ rs, ub_ratings (body req) = Some rs →
       Forall2 (λ sent stored,
                  castObjectId (user sent) = Some (user stored)
                  ∧ rating stored = rating sent
                  ∧ comment stored = comment sent) rs (ratings (doc j))
       ∧ Forall rating_in_range (ratings (doc j)))
  ∧ (∀ filename, file req = Some filename →
       image (doc j) = ("/uploads/" ++ filename)%string)
  ∧ (ub_tags (body req) = Text "" → tags (doc j) = [""%string]).
Proof.
  intros Hu Hd.
  destruct (updateRecipe_updated _ _ _ _ _ _ Hu Hd)
    as (id & recipe & ings & instrs & tgs & nutr & ct & u & _ & _ & _ & _ & Hc & Hv
        & Hdoc & _).
  destruct (cast_update_inr _ _ Hc) as (_ & _ & Hrs & Ht & Hs & Hdi & Him & Havg & _).
  apply update_validators_nil in Hv as (Vt & Vs & Vd & Vi & Vr & Va).
  cbn [spread ub_title ub_servings ub_difficulty ub_image ub_ratings
       ub_averageRating] in Ht, Hs, Hdi, Him, Hrs, Havg.
  split; [| split; [| split; [| split; [| split; [| split]]]]];
    [| | | | | | intros Htags; by eapply updateRecipe_empty_tags];
    rewrite Hdoc; unfold apply_updates;
    cbn [title servings difficulty averageRating ratings image].
  - intros t Hb. rewrite Hb in Ht. simpl in Ht. rewrite Ht in Vt |- *. cbn [on_path] in Vt.
    unfold validate_title in Vt. apply app_eq_nil in Vt as [Hreq Hmax].
    apply required_string_nil in Hreq as (s & [= <-] & Hne).
    split; [done |]. split; [done | by apply maxlength_nil in Hmax].
  - intros n Hb. rewrite Hb in Hs. rewrite Hs in Vs |- *. cbn [on_path] in Vs.
    unfold validate_servings in Vs. apply app_eq_nil in Vs as [_ Hmin].
    split; [done | by apply min_number_nil in Hmin].
  - intros d Hb. rewrite Hb in Hdi. rewrite Hdi in Vd |- *. cbn [on_path] in Vd.
    unfold validate_difficulty in Vd. apply app_eq_nil in Vd as [_ Hen].
    split; [done | by apply enum_nil in Hen].
  - intros a Hb. rewrite Hb in Havg. rewrite Havg in Va |- *. cbn [on_path] in Va.
    split; [done | by apply validate_averageRating_nil].
  - intros rs Hb. rewrite Hb in Hrs. unfold cast_ratings, mbind, Exn_bind in Hrs.
    destruct (cast_rating_list rs) as [e|rated] eqn:Er; [discriminate Hrs |].
    injection Hrs as Hrs. rewrite <- Hrs in Vr |- *. cbn [on_path default] in Vr |- *.
    split; [by apply cast_rating_list_inr |]. apply concat_nil_Forall in Vr.
    eapply Forall_impl; [exact Vr |]. intros e. apply validate_rating_nil.
  - intros filename Hf. rewrite Hf in Him. by rewrite Him.
Qed.


(** *** The router *)

Lemma dispatch_in_Some (routes : list Route) (m : Method) (path : list string)
    (r : Route) (params : list (string * string)) :
  dispatch_in routes m path = Some (r, params) →
  r ∈ routes ∧ serves r m = true ∧ match_path (route_path r) path = Some params.
Proof.
  induction routes as [|r' routes IH]; simpl; [done |].
  destruct (serves r' m) eqn:Es.
  - destruct (match_path (route_path r') path) as [ps|] eqn:Em.
    + intros [= <- <-]. split; [left | done].
    + intros H. destruct (IH H) as (? & ? & ?). split; [by right | done].
  - intros H. destruct (IH H) as (? & ? & ?). split; [by right | done].
Qed.

(** X26. Whatever the request, the route that takes it gives its handler what
    the handler reads: a handler that reads [req.user] runs behind
    [authenticate], which comes first; one that reads [req.file] behind
    the upload of the [image] field; one that reads [req.params.id] gets a
    non-empty id; and a request that is not a GET or a HEAD reaches no
    handler without [authenticate]. *)
Theorem router_provides_what_handlers_read (m : Method) (path : list string)
    (r : Route) (params : list (string * string)) :
  dispatch m path = Some (r, params) →
  (reads_user (route_handler r) = true →
   head (route_middleware r) = Some authenticate)
  ∧ (reads_file (route_handler r) = true →
     upload_single "image" ∈ route_middleware r)
  ∧ (reads_params_id (route_handler r) = true →
     ∃ id, params = [("id"%string, id)] ∧ id ≠ ""%string)
  ∧ (m ≠ GET → m ≠ HEAD → authenticate ∈ route_middleware r).
Proof.
  intros Hd. apply dispatch_in_Some in Hd as (Hin & Hs & Hm).
  unfold router in Hin.
  repeat (apply elem_of_cons in Hin as [-> | Hin]);
    try (by apply elem_of_nil in Hin);
    cbn [route_handler route_middleware route_path route_method
         reads_user reads_file reads_params_id head] in *.
  all: split; [done |].
  all: split; [first [done | intros _; right; left] |].
  all: split;
    [| intros H1 H2;
       first [left | exfalso; unfold serves in Hs; destruct m; cbn in Hs; done]].
  all: try done.
  all: intros _; destruct path as [|id [|s2 [|s3 path]]]; try done.
  all: cbn [match_path] in Hm.
  all: destruct (String.eqb_spec id ""); try done.
  all: repeat match type of Hm with
         | context [if ?b then _ else _] => destruct b
         end; try done.
  all: injection Hm as <-; by exists id.
Qed.

(** X27. The listing route of the popular recipes is registered before the
    route of a single recipe: a GET whose only segment is [popular], in
    any case, goes to [getPopularRecipes], and a GET with any other single
    segment goes to [getRecipeById] with this segment as the id.  The two
    routes below [user] have two segments and are not taken for an id. *)
Theorem router_precedence :
  (∀ segment, lowercase segment = "popular"%string →
     ∃ r, dispatch GET [segment] = Some (r, [])
          ∧ route_handler r = to_getPopularRecipes)
  ∧ (∀ segment, segment ≠ ""%string → lowercase segment ≠ "popular"%string →
       ∃ r, dispatch GET [segment] = Some (r, [("id"%string, segment)])
            ∧ route_handler r = to_getRecipeById)
  ∧ (∃ r, dispatch GET ["user"; "my-recipes"]%string = Some (r, [])
          ∧ route_handler r = to_getUserRecipes)
  ∧ (∃ r, dispatch GET ["user"; "favorites"]%string = Some (r, [])
          ∧ route_handler r = to_getFavoriteRecipes)
  ∧ (∃ r, dispatch GET [] = Some (r, []) ∧ route_handler r = to_getRecipes).
Proof.
  split; [| split; [| split; [| split]]].
  - intros segment Hp. unfold dispatch. cbv - [lowercase String.eqb].
    change (lowercase "popular") with "popular"%string.
    rewrite Hp, String.eqb_refl. eexists. split; reflexivity.
  - intros segment Hne Hp. unfold dispatch. cbv - [lowercase String.eqb].
    change (lowercase "popular") with "popular"%string.
    destruct (String.eqb_spec (lowercase segment) "popular"); [done |].
    destruct (String.eqb_spec segment ""); [done |].
    eexists. split; reflexivity.
  - eexists. split; reflexivity.
  - eexists. split; reflexivity.
  - eexists. split; reflexivity.
Qed.

End Controller.

(** ** The update path and the rating aggregate *)

(** C1. [updateRecipe] writes through [findByIdAndUpdate]: no [save], so
    no [pre('save')] hook, and the body is spread into the update as it
    is.  The author of the soup (no ratings, average 0) sends
    [{ "averageRating": 5 }]: the update succeeds and the stored recipe has
    no rating and the average 5, which [calculateAverageRating] would have
    set to 0. *)
Theorem updateRecipe_skips_calculateAverageRating :
  ratings_consistent kitchen
  ∧ success (updateRecipe malformed malformed malformed malformed malformed hex24
               refused kitchen
               (request alice soup_id forged_average no_query None) 2000).2 = true
  ∧ ∃ r,
      recipes (updateRecipe malformed malformed malformed malformed malformed hex24
                 refused kitchen
                 (request alice soup_id forged_average no_query None) 2000).1
        !! soup_id = Some r
      ∧ ratings r = []
      ∧ (averageRating r == 5)%Q
      ∧ ((calculateAverageRating (ratings r)).1 == 0)%Q
      ∧ ¬ aggregate_consistent r.
Proof.
  split; [| split].
  - unfold ratings_consistent, kitchen. simpl. apply map_Forall_singleton.
    split; reflexivity.
  - vm_compute. reflexivity.
  - eexists. split; [vm_compute; reflexivity |].
    split; [reflexivity |]. split; [reflexivity |]. split; [reflexivity |].
    intros [_ H]. simpl in H. discriminate H.
Qed.

(** ** Rating a recipe that holds two entries of the rater *)

(** C2, the claim as stated fails.  The author of the soup sends an update
    whose [ratings] hold two entries of bob, which the update stores as
    they are.  Bob then rates the soup twice, with 4 and with 5: each
    rating is accepted and replaces the first of his entries, the second
    one stays, and the recipe has two entries of bob, not one. *)
Lemma rateRecipe_twice_leaves_two_entries :
  ∃ st j1 j2,
    updateRecipe malformed malformed malformed malformed malformed hex24 refused
      kitchen (request alice soup_id twice_rated no_query None) 1500
    = (st, ok 200 "Recipe updated successfully" (OneRecipe j1))
    ∧ wf_store st
    ∧ success (rateRecipe hex24 st (bob_rates 4) 2000).2 = true
    ∧ data (rateRecipe hex24 (rateRecipe hex24 st (bob_rates 4) 2000).1
              (bob_rates 5) 3000).2 = OneRecipe j2
    ∧ entries_of bob (ratings (doc j2))
      = [{| user := bob; rating := 5; comment := "" |};
         {| user := bob; rating := 2; comment := "" |}]
    ∧ ¬ ∃ entry, entries_of bob (ratings (doc j2)) = [entry].
Proof.
  eexists _, _, _. split; [vm_compute; reflexivity |].
  split.
  { unfold wf_store. cbn [recipes].
    apply map_Forall_lookup. intros id r Hr.
    destruct (decide (id = soup_id)) as [-> | Hne].
    - vm_compute in Hr. by injection Hr as <-.
    - exfalso. revert Hr.
      match goal with
      | |- ?m !! id = Some r → False =>
          assert (m = {[ soup_id := default soup (m !! soup_id) ]}) as ->
            by (vm_compute; reflexivity)
      end.
      by rewrite lookup_singleton_ne. }
  split; [vm_compute; reflexivity |].
  split; [vm_compute; reflexivity |].
  split; [vm_compute; reflexivity |].
  intros [entry H]. vm_compute in H. discriminate H.
Qed.

(** ** A favorite under another spelling of its id *)

(** C4. [addToFavorites] finds the recipe, and stores the reference, through
    the cast of the id text of the request, and tests the membership on
    the text as it was sent.  Bob has the cake among his favorites and asks
    for it again with the letters of the id in capitals: the recipe is
    found, the text is not among the references as they print, the answer
    is not Conflict but a success, and the id of the cake is appended a
    second time.  With the id in its canonical text the same request is
    answered with Conflict and changes nothing. *)
Theorem addToFavorites_duplicates_a_favorite :
  favorites_distinct bakery
  ∧ users bakery !! bob = Some {| favoriteRecipes := [cake_id] |}
  ∧ hex24 CAKE_ID = Some cake_id
  ∧ recipes bakery !! cake_id = Some cake
  ∧ ¬ Conflict (addToFavorites hex24 bakery (request bob CAKE_ID () no_query None)).2
  ∧ (addToFavorites hex24 bakery (request bob CAKE_ID () no_query None)).2
    = ok 200 "Recipe added to favorites" NoData
  ∧ users (addToFavorites hex24 bakery (request bob CAKE_ID () no_query None)).1 !! bob
    = Some {| favoriteRecipes := [cake_id; cake_id] |}
  ∧ ¬ favorites_distinct
        (addToFavorites hex24 bakery (request bob CAKE_ID () no_query None)).1
  ∧ Conflict (addToFavorites hex24 bakery (request bob cake_id () no_query None)).2
  ∧ (addToFavorites hex24 bakery (request bob cake_id () no_query None)).1 = bakery.
Proof.
  split.
  { unfold favorites_distinct, bakery. cbn [users].
    apply map_Forall_singleton, NoDup_singleton. }
  split; [reflexivity |]. split; [reflexivity |]. split; [reflexivity |].
  split; [intros (H & _); vm_compute in H; discriminate H |].
  split; [vm_compute; reflexivity |].
  assert (users (addToFavorites hex24 bakery (request bob CAKE_ID () no_query None)).1
            !! bob = Some {| favoriteRecipes := [cake_id; cake_id] |}) as Hbob
    by (vm_compute; reflexivity).
  split; [exact Hbob |].
  split.
  { intros Hd. specialize (Hd _ _ Hbob). cbn [favoriteRecipes] in Hd.
    apply NoDup_cons in Hd as [Hn _]. apply Hn. left. }
  split; [| vm_compute; reflexivity].
  split; [vm_compute; reflexivity |]. split; reflexivity.
Qed.

(** ** Creation without an upload *)

(** C9, the claim as stated fails: this request has no uploaded file and
    its [ingredients] text does not parse; the handler fails in
    [JSON.parse], before any document is built or validated, so the
    failure is not a validation error. *)
Lemma createRecipe_fails_before_validation :
  file (request alice "" text_body no_query None) = None
  ∧ error (createRecipe malformed malformed malformed malformed malformed empty_store
             (request alice "" text_body no_query None) soup_id 1000).2
    = Some SyntaxError
  ∧ ¬ ∃ errs,
        error (createRecipe malformed malformed malformed malformed malformed empty_store
                 (request alice "" text_body no_query None) soup_id 1000).2
        = Some (ValidationError errs).
Proof.
  split; [reflexivity |]. split; [reflexivity |].
  intros [errs H]. discriminate H.
Qed.

(** ** The theorems at work on the sample data *)

Lemma kitchen_wf : wf_store kitchen.
Proof.
  unfold wf_store, kitchen. simpl. apply map_Forall_singleton. reflexivity.
Defined.


Lemma rateRecipe_upsert_kitchen :
  ∃ j2,
    data (rateRecipe hex24 (rateRecipe hex24 kitchen (bob_rates 4) 2000).1
            (bob_rates 5) 3000).2
      = OneRecipe j2
    ∧ entries_of bob (ratings (doc j2)) = [rating_entry (bob_rates 5) 5].
Proof.
  assert (∃ j1, data (rateRecipe hex24 kitchen (bob_rates 4) 2000).2 = OneRecipe j1)
    as [j1 H1] by (eexists; vm_compute; reflexivity).
  assert (∃ j2, data (rateRecipe hex24 (rateRecipe hex24 kitchen (bob_rates 4) 2000).1
                        (bob_rates 5) 3000).2 = OneRecipe j2)
    as [j2 H2] by (eexists; vm_compute; reflexivity).
  exists j2. split; [exact H2 |].
  destruct (proj2 (rateRecipe_upsert hex24) kitchen (bob_rates 4) (bob_rates 5)
              2000 3000 soup_id soup j1 j2 kitchen_wf eq_refl eq_refl eq_refl eq_refl
              ltac:(simpl; lia) H1 H2)
    as (value2 & Hv & _ & He & _).
  injection Hv as <-. exact He.
Defined.

Lemma non_author_forbidden_kitchen :
  (∀ (req : Request UpdateBody) (now : Z),
     hex24 (params_id req) = Some soup_id → user_id req = bob →
     Forbidden (updateRecipe malformed malformed malformed malformed malformed
                  hex24 refused kitchen req now).2
     ∧ (updateRecipe malformed malformed malformed malformed malformed
          hex24 refused kitchen req now).1 = kitchen
     ∧ recipes (updateRecipe malformed malformed malformed malformed malformed
                  hex24 refused kitchen req now).1 !! soup_id = Some soup)
  ∧ (∀ req : Request unit,
       hex24 (params_id req) = Some soup_id → user_id req = bob →
       Forbidden (deleteRecipe hex24 kitchen req).2
       ∧ (deleteRecipe hex24 kitchen req).1 = kitchen
       ∧ recipes (deleteRecipe hex24 kitchen req).1 !! soup_id = Some soup).
Proof.
  apply (non_author_forbidden malformed malformed malformed malformed malformed
           hex24 refused kitchen soup_id bob soup).
  - reflexivity.
  - discriminate.
Defined.


Lemma getRecipes_maxTime_kitchen :
  isPublic soup = true
  ∧ (∃ id, recipes kitchen !! id = Some soup)
  ∧ ∀ m, q_maxTime (max_time 30) = Some m →
         prep (cookingTime soup) + cook (cookingTime soup) ≤ m.
Proof.
  apply (proj1 (getRecipes_public_within_maxTime no_match) kitchen
           (request bob "" () (max_time 30) None) [soup] (pagination_of 1 1 12 1)).
  - vm_compute. reflexivity.
  - apply list_elem_of_singleton. reflexivity.
Defined.

Lemma totalTime_of_created_soup :
  ∃ j,
    data (createRecipe malformed malformed malformed malformed malformed empty_store
            (request alice "" soup_body no_query (Some "soup.png"%string))
            soup_id 1000).2 = OneRecipe j
    ∧ json_totalTime j = 10 + 20.
Proof.
  assert (∃ j, data (createRecipe malformed malformed malformed malformed malformed
                       empty_store
                       (request alice "" soup_body no_query (Some "soup.png"%string))
                       soup_id 1000).2 = OneRecipe j)
    as [j Hj] by (eexists; vm_compute; reflexivity).
  exists j. split; [exact Hj |].
  eapply (proj1 (proj2 (totalTime_is_prep_plus_cook
                          malformed malformed malformed malformed malformed malformed
                          hex24 refused))).
  - apply surjective_pairing.
  - exact Hj.
  - reflexivity.
Defined.

Lemma createRecipe_needs_upload_soup :
  (createRecipe malformed malformed malformed malformed malformed empty_store
     (request alice "" soup_body no_query None) soup_id 1000).1 = empty_store
  ∧ success (createRecipe malformed malformed malformed malformed malformed empty_store
               (request alice "" soup_body no_query None) soup_id 1000).2 = false.
Proof.
  destruct (createRecipe_needs_upload malformed malformed malformed malformed malformed
              empty_store (request alice "" soup_body no_query None) soup_id 1000
              eq_refl)
    as (Hst & Hs & _).
  split; [exact Hst | exact Hs].
Defined.


(** ** The further properties on the sample data *)

Lemma kitchen_favorites_distinct : favorites_distinct kitchen.
Proof.
  unfold favorites_distinct, kitchen. simpl.
  apply map_Forall_insert_2; [constructor |].
  apply map_Forall_singleton, NoDup_singleton.
Defined.


Lemma soup_id_canonical : canonical hex24 soup_id.
Proof. intros id H. vm_compute in H. injection H as <-. reflexivity. Defined.

Lemma created_soup_is_served :
  ∃ j,
    data (createRecipe malformed malformed malformed malformed malformed empty_store
            (request alice "" soup_body no_query (Some "soup.png"%string))
            soup_id 1000).2 = OneRecipe j
    ∧ getRecipeById hex24 any_id
        (createRecipe malformed malformed malformed malformed malformed empty_store
           (request alice "" soup_body no_query (Some "soup.png"%string))
           soup_id 1000).1
        (request bob soup_id () no_query None)
      = ok 200 "" (OneRecipe j).
Proof.
  assert (∃ j, data (createRecipe malformed malformed malformed malformed malformed
                       empty_store
                       (request alice "" soup_body no_query (Some "soup.png"%string))
                       soup_id 1000).2 = OneRecipe j)
    as [j Hj] by (eexists; vm_compute; reflexivity).
  exists j. split; [exact Hj |].
  eapply (proj1 (createRecipe_then_getRecipeById
                   malformed malformed malformed malformed malformed hex24 any_id
                   empty_store _
                   (request alice "" soup_body no_query (Some "soup.png"%string))
                   soup_id 1000 _ j (surjective_pairing _) Hj)).
  - reflexivity.
  - reflexivity.
Defined.

Lemma createRecipe_keeps_the_soup :
  recipes (createRecipe malformed malformed malformed malformed malformed kitchen
             (request bob "" soup_body no_query (Some "soup.png"%string))
             secret_id 3000).1 !! soup_id = Some soup.
Proof.
  apply (proj1 (proj2 (createRecipe_only_adds
                         malformed malformed malformed malformed malformed kitchen
                         (request bob "" soup_body no_query (Some "soup.png"%string))
                         secret_id 3000))).
  reflexivity.
Defined.

Lemma secret_is_served_by_id :
  getRecipeById hex24 any_id pantry (request bob secret_id () no_query None)
    = ok 200 "" (OneRecipe (toJSON secret))
  ∧ secret ∉ listing_recipes (getPopularRecipes pantry (request bob "" () no_query None)).
Proof.
  destruct (private_recipe_served_by_id no_match hex24 any_id pantry secret_id secret)
    as (Hget & _ & Hpop); [reflexivity | reflexivity |].
  split; [apply Hget; reflexivity | apply Hpop].
Defined.

Lemma deleted_soup_is_gone :
  success (deleteRecipe hex24 kitchen (request alice soup_id () no_query None)).2 = true
  ∧ recipes (deleteRecipe hex24 kitchen (request alice soup_id () no_query None)).1
      !! soup_id = None.
Proof.
  destruct (deleteRecipe_by_author hex24 any_id kitchen
              (request alice soup_id () no_query None) soup_id soup)
    as (Hs & Hr & _); [reflexivity | reflexivity | reflexivity |].
  split; [exact Hs | exact Hr].
Defined.

Lemma favorite_of_deleted_soup :
  NotFound (addToFavorites hex24
              (deleteRecipe hex24 kitchen (request alice soup_id () no_query None)).1
              (request bob soup_id () no_query None)).2
  ∧ success (removeFromFavorites
               (deleteRecipe hex24 kitchen (request alice soup_id () no_query None)).1
               (request bob soup_id () no_query None)).2 = true.
Proof.
  destruct (favorite_of_deleted_recipe hex24 kitchen
              (request alice soup_id () no_query None)
              (request bob soup_id () no_query None)
              soup_id soup {| favoriteRecipes := [soup_id] |})
    as (_ & Hadd & _ & Hrem & _);
    [reflexivity | reflexivity | reflexivity | reflexivity | reflexivity
    | apply list_elem_of_singleton; reflexivity |].
  split; [exact Hadd | exact Hrem].
Defined.

Lemma alice_adds_then_removes_the_soup :
  (removeFromFavorites
     (addToFavorites hex24 kitchen (request alice soup_id () no_query None)).1
     (request alice soup_id () no_query None)).1 = kitchen.
Proof.
  apply (proj2 (addToFavorites_then_remove hex24 kitchen
                  (request alice soup_id () no_query None)
                  {| favoriteRecipes := [] |}
                  eq_refl eq_refl (ex_intro _ soup eq_refl) (not_elem_of_nil _))).
Defined.

Lemma rated_soup_within_bounds :
  ∃ j,
    data (rateRecipe hex24 kitchen (bob_rates 4) 2000).2 = OneRecipe j
    ∧ (1 <= averageRating (doc j))%Q
    ∧ (averageRating (doc j) <= 5)%Q.
Proof.
  assert (∃ j, data (rateRecipe hex24 kitchen (bob_rates 4) 2000).2 = OneRecipe j)
    as [j Hj] by (eexists; vm_compute; reflexivity).
  exists j. split; [exact Hj |].
  destruct (rateRecipe_within_bounds hex24 kitchen _ (bob_rates 4) 2000 _ j
              (surjective_pairing _) Hj)
    as (_ & Hlow & Hhigh & _).
  split; [exact Hlow | exact Hhigh].
Defined.

Lemma rating_of_6_is_refused :
  (rateRecipe hex24 kitchen (bob_rates 6) 2000).1 = kitchen
  ∧ success (rateRecipe hex24 kitchen (bob_rates 6) 2000).2 = false.
Proof.
  destruct (rateRecipe_refuses hex24 kitchen (bob_rates 6) 2000) as (Hst & Hs & _).
  - right. left. reflexivity.
  - split; [exact Hst | exact Hs].
Defined.

Lemma rated_soup_keeps_its_fields :
  ∃ j,
    data (rateRecipe hex24 kitchen (bob_rates 4) 2000).2 = OneRecipe j
    ∧ users (rateRecipe hex24 kitchen (bob_rates 4) 2000).1 = users kitchen
    ∧ title (doc j) = title soup.
Proof.
  assert (∃ j, data (rateRecipe hex24 kitchen (bob_rates 4) 2000).2 = OneRecipe j)
    as [j Hj] by (eexists; vm_compute; reflexivity).
  exists j. split; [exact Hj |].
  destruct (rateRecipe_changes_only_ratings hex24 kitchen _ (bob_rates 4) 2000 _ j
              kitchen_wf (surjective_pairing _) Hj)
    as (Hu & id & recipe & Hid & Hrec & _ & _ & Hdoc).
  split; [exact Hu |].
  vm_compute in Hid. injection Hid as <-.
  vm_compute in Hrec. injection Hrec as <-.
  rewrite Hdoc. reflexivity.
Defined.

Lemma failed_delete_changes_nothing :
  (deleteRecipe hex24 kitchen (request bob soup_id () no_query None)).1 = kitchen.
Proof.
  apply (failed_call_changes_nothing
           malformed malformed malformed malformed malformed malformed hex24 refused
           kitchen (DeleteRecipe (request bob soup_id () no_query None))).
  reflexivity.
Defined.

Lemma updated_soup_is_stored :
  ∃ j,
    data (updateRecipe malformed malformed malformed malformed malformed hex24 refused
            kitchen (request alice soup_id empty_update no_query None) 3000).2
      = OneRecipe j
    ∧ users (updateRecipe malformed malformed malformed malformed malformed hex24
               refused kitchen
               (request alice soup_id empty_update no_query None) 3000).1
      = users kitchen
    ∧ updatedAt (doc j) = 3000.
Proof.
  assert (∃ j, data (updateRecipe malformed malformed malformed malformed malformed
                       hex24 refused kitchen
                       (request alice soup_id empty_update no_query None)
                       3000).2 = OneRecipe j)
    as [j Hj] by (eexists; vm_compute; reflexivity).
  exists j. split; [exact Hj |].
  destruct (updateRecipe_changes_one_recipe
              malformed malformed malformed malformed malformed hex24 refused kitchen _
              (request alice soup_id empty_update no_query None) 3000 _ j
              (surjective_pairing _) Hj)
    as (Hu & id & recipe & _ & _ & _ & _ & _ & _ & _ & Hat).
  split; [exact Hu | exact Hat].
Defined.

Lemma empty_update_of_the_soup :
  updateRecipe malformed malformed malformed malformed malformed hex24 refused kitchen
    (request alice soup_id empty_update no_query None) 3000
  = (set_recipes kitchen (<[soup_id := touched soup 3000]> (recipes kitchen)),
     ok 200 "Recipe updated successfully" (OneRecipe (toJSON (touched soup 3000)))).
Proof.
  exact (updateRecipe_empty_body malformed malformed malformed malformed malformed
           hex24 refused kitchen (request alice soup_id empty_update no_query None)
           3000 soup_id soup eq_refl eq_refl eq_refl eq_refl eq_refl).
Defined.

Lemma soup_given_to_bob :
  ∃ j,
    data (updateRecipe malformed malformed malformed malformed malformed hex24 refused
            kitchen (request alice soup_id give_to_bob no_query None) 3000).2
      = OneRecipe j
    ∧ author (doc j) = bob
    ∧ Forbidden
        (deleteRecipe hex24
           (updateRecipe malformed malformed malformed malformed malformed hex24
              refused kitchen
              (request alice soup_id give_to_bob no_query None) 3000).1
           (request alice soup_id () no_query None)).2.
Proof.
  assert (∃ j, data (updateRecipe malformed malformed malformed malformed malformed
                       hex24 refused kitchen
                       (request alice soup_id give_to_bob no_query None)
                       3000).2 = OneRecipe j)
    as [j Hj] by (eexists; vm_compute; reflexivity).
  exists j. split; [exact Hj |].
  destruct (updateRecipe_gives_recipe_away
              malformed malformed malformed malformed malformed hex24 refused kitchen _
              (request alice soup_id give_to_bob no_query None) 3000 _ j bob
              (surjective_pairing _) Hj eq_refl)
    as (new_author & Hcast & Ha & _ & Hdel).
  vm_compute in Hcast. injection Hcast as <-.
  split; [exact Ha |].
  apply (Hdel (request alice soup_id () no_query None)); [reflexivity | discriminate].
Defined.

Lemma busy_day_keeps_ids_and_favorites :
  wf_store (run malformed malformed malformed malformed malformed malformed
              hex24 refused kitchen busy_day)
  ∧ favorites_distinct (run malformed malformed malformed malformed malformed malformed
                          hex24 refused kitchen busy_day).
Proof.
  destruct (run_keeps_ids_and_favorites
              malformed malformed malformed malformed malformed malformed
              hex24 refused kitchen busy_day kitchen_wf) as [Hwf Hd].
  split; [exact Hwf |]. apply Hd; [exact kitchen_favorites_distinct |].
  repeat constructor. exact soup_id_canonical.
Defined.


Lemma kitchen_has_no_next_page :
  Z.of_nat (length [soup]) ≤ Z.abs 1
  ∧ (hasNextPage (pagination_of 1 1 10 1) = true
     ↔ page_of no_match kitchen (request bob "" () limit_1e1 None) (1 + 1) ≠ []).
Proof.
  destruct (hasNextPage_iff_next_page no_match kitchen
              (request bob "" () limit_1e1 None) [soup] (pagination_of 1 1 10 1))
    as [Hlen Hnext].
  - simpl. lia.
  - simpl. lia.
  - vm_compute. reflexivity.
  - split; [apply Hlen; discriminate | exact Hnext].
Defined.





Lemma kitchen_listing_ignores_All :
  getRecipes no_match kitchen
    (with_selectors (request bob "" () no_query None)
       (Some "All"%string) (Some ""%string) None)
  = getRecipes no_match kitchen
      (with_selectors (request bob "" () no_query None) None None None).
Proof.
  apply getRecipes_ignores_All.
  - right. right. reflexivity.
  - right. left. reflexivity.
  - left. reflexivity.
Defined.

Lemma soup_in_the_unfiltered_listing :
  soup ∈ matching no_match kitchen (request bob "" () no_query None).
Proof.
  apply (proj2 (unfiltered_listing_is_public_recipes no_match kitchen
                  (request bob "" () no_query None) soup
                  ltac:(do 6 (split; [reflexivity |]); left; reflexivity))).
  split; [reflexivity | exists soup_id; reflexivity].
Defined.


Lemma created_soup_has_valid_fields :
  ∃ j,
    data (createRecipe malformed malformed malformed malformed malformed empty_store
            (request alice "" soup_body no_query (Some "soup.png"%string))
            soup_id 1000).2 = OneRecipe j
    ∧ 1 ≤ servings (doc j)
    ∧ difficulty (doc j) ∈ difficulty_enum.
Proof.
  assert (∃ j, data (createRecipe malformed malformed malformed malformed malformed
                       empty_store
                       (request alice "" soup_body no_query (Some "soup.png"%string))
                       soup_id 1000).2 = OneRecipe j)
    as [j Hj] by (eexists; vm_compute; reflexivity).
  exists j. split; [exact Hj |].
  destruct (createRecipe_stores_valid_fields
              malformed malformed malformed malformed malformed empty_store _
              (request alice "" soup_body no_query (Some "soup.png"%string))
              soup_id 1000 _ j (surjective_pairing _) Hj)
    as (_ & _ & _ & Hs & Hd & _).
  split; [exact Hs | exact Hd].
Defined.

Lemma empty_tags_are_stored :
  ∃ j,
    data (updateRecipe malformed malformed malformed malformed malformed hex24 refused
            kitchen (request alice soup_id no_tags no_query None) 2000).2
      = OneRecipe j
    ∧ tags (doc j) = [""%string].
Proof.
  assert (∃ j, data (updateRecipe malformed malformed malformed malformed malformed
                       hex24 refused kitchen
                       (request alice soup_id no_tags no_query None)
                       2000).2 = OneRecipe j)
    as [j Hj] by (eexists; vm_compute; reflexivity).
  exists j. split; [exact Hj |].
  destruct (updateRecipe_validates_what_it_sets
              malformed malformed malformed malformed malformed hex24 refused kitchen _
              (request alice soup_id no_tags no_query None) 2000 _ j
              (surjective_pairing _) Hj)
    as (_ & _ & _ & _ & _ & _ & Htags).
  apply Htags. reflexivity.
Defined.

Lemma rate_route_is_authenticated :
  ∃ r params,
    dispatch POST [soup_id; "rate"%string] = Some (r, params)
    ∧ head (route_middleware r) = Some authenticate
    ∧ ∃ id, params = [("id"%string, id)] ∧ id ≠ ""%string.
Proof.
  eexists _, _. split; [reflexivity |].
  match goal with
  | |- head (route_middleware ?r) = _ ∧ (∃ id, ?params = _ ∧ _) =>
      destruct (router_provides_what_handlers_read POST
                  [soup_id; "rate"%string] r params eq_refl)
        as (Hu & _ & Hp & _)
  end.
  split; [apply Hu; reflexivity | apply Hp; reflexivity].
Defined.

Lemma popular_in_capitals :
  ∃ r, dispatch GET ["Popular"%string] = Some (r, [])
       ∧ route_handler r = to_getPopularRecipes.
Proof.
  apply (proj1 router_precedence). reflexivity.
Defined.
